(** * easy_equities_client.accounts.parsers: a shallow embedding

    The module [parsers.py] turns pages of the brokerage portal into
    records.  Every parser first calls [BeautifulSoup(page, "html.parser")]
    and then only walks the resulting tree; the embedding therefore starts
    from that tree (type [node]) and follows the Python code from there on:
    exceptions are values of [exn] threaded through the [result] monad,
    dictionaries are [gmap]s, Python [str] is [string] (code points up to
    U+00FF). *)

From Stdlib Require Import ZArith String Ascii Bool Lia.
From stdpp Require Import gmap strings list fin_maps.

Open Scope string_scope.

(** ** Python exceptions and results *)

Module Py.

Inductive exn :=
| AttributeError
| KeyError (key : string)
| IndexError
| ValueError
| HoldingFieldNotFoundException (field : string) (exception : exn).

Inductive result (A : Type) :=
| Ok (a : A)
| Raise (e : exn).
Arguments Ok {A} a.
Arguments Raise {A} e.

Definition bind {A B} (k : A -> result B) (r : result A) : result B :=
  match r with
  | Ok a => k a
  | Raise e => Raise e
  end.

Definition is_ok {A} (r : result A) : bool :=
  match r with Ok _ => true | Raise _ => false end.

(** [obj.attr] where [obj] may be [None]. *)
Definition not_none {A} (o : option A) : result A :=
  match o with
  | Some a => Ok a
  | None => Raise AttributeError
  end.

(** [d[key]] on a dictionary. *)
Definition getitem {A} (d : gmap string A) (key : string) : result A :=
  match d !! key with
  | Some a => Ok a
  | None => Raise (KeyError key)
  end.

(** Running [f] over a list from left to right, stopping at the first
    exception: the shape of a list comprehension or of a [for] loop that
    appends. *)
Fixpoint traverse {A B} (f : A -> result B) (l : list A) : result (list B) :=
  match l with
  | [] => Ok []
  | x :: l' =>
      bind (fun y => bind (fun ys => Ok (y :: ys)) (traverse f l')) (f x)
  end.

(** A loop that updates an accumulator, stopping at the first exception. *)
Fixpoint foldM {A S} (f : S -> A -> result S) (s : S) (l : list A) : result S :=
  match l with
  | [] => Ok s
  | x :: l' => bind (fun s' => foldM f s' l') (f s x)
  end.

(** [[x for x in l if p(x)]], where [p] may raise. *)
Fixpoint filterM {A} (p : A -> result bool) (l : list A) : result (list A) :=
  match l with
  | [] => Ok []
  | x :: l' =>
      bind (fun b => bind (fun r => Ok (if b : bool then x :: r else r))
                          (filterM p l')) (p x)
  end.

End Py.
Import Py.

#[global] Instance result_bind : MBind result := @Py.bind.
#[global] Instance result_ret : MRet result := @Py.Ok.

(** ** Python [str] methods used by the parsers *)

Module PyStr.

(** [c.isspace()] for the code points below 256. *)
Definition isspace (c : ascii) : bool :=
  let n := nat_of_ascii c in
  (((9 <=? n) && (n <=? 13)) || ((28 <=? n) && (n <=? 32))
   || (n =? 133) || (n =? 160))%nat.

Fixpoint lstrip (s : string) : string :=
  match s with
  | String c s' => if isspace c then lstrip s' else s
  | EmptyString => s
  end.

Fixpoint rstrip (s : string) : string :=
  match s with
  | String c s' =>
      match rstrip s' with
      | EmptyString => if isspace c then EmptyString else String c EmptyString
      | r => String c r
      end
  | EmptyString => EmptyString
  end.

(** [s.strip()] *)
Definition strip (s : string) : string := rstrip (lstrip s).

(** [c in s] for a one-character [c]. *)
Fixpoint contains (c : ascii) (s : string) : bool :=
  match s with
  | String c' s' => Ascii.eqb c' c || contains c s'
  | EmptyString => false
  end.

(** [s.replace(c, '')] for a one-character [c]. *)
Fixpoint remove (c : ascii) (s : string) : string :=
  match s with
  | String c' s' => if Ascii.eqb c' c then remove c s' else String c' (remove c s')
  | EmptyString => EmptyString
  end.

(** [s.startswith(p)] *)
Fixpoint startswith (p s : string) : bool :=
  match p, s with
  | EmptyString, _ => true
  | String a p', String b s' => Ascii.eqb a b && startswith p' s'
  | String _ _, EmptyString => false
  end.

(** [s.find(p)]: offset of the first occurrence of [p], if any. *)
Fixpoint find (p s : string) : option nat :=
  if startswith p s then Some 0%nat
  else match s with
       | String _ s' => S <$> find p s'
       | EmptyString => None
       end.

(** [s.index(p)] *)
Definition index (p s : string) : result nat :=
  match find p s with
  | Some i => Ok i
  | None => Raise ValueError
  end.

(** [s.rfind(c)] for a one-character [c]. *)
Fixpoint rfind (c : ascii) (s : string) : option nat :=
  match s with
  | String c' s' =>
      match rfind c s' with
      | Some i => Some (S i)
      | None => if Ascii.eqb c' c then Some 0%nat else None
      end
  | EmptyString => None
  end.

(** [s.rindex(c)] *)
Definition rindex (c : ascii) (s : string) : result nat :=
  match rfind c s with
  | Some i => Ok i
  | None => Raise ValueError
  end.

(** [s[i:j]] for non-negative [i] and [j]. *)
Definition slice (i j : nat) (s : string) : string := substring i (j - i)%nat s.

(** [s[i:]] *)
Fixpoint drop (i : nat) (s : string) : string :=
  match i, s with
  | S i', String _ s' => drop i' s'
  | _, _ => s
  end.

(** [s.split(c)[-1]] for a one-character [c]: what follows the last [c],
    the whole of [s] when there is none. *)
Definition after_last (c : ascii) (s : string) : string :=
  match rfind c s with
  | Some i => drop (S i) s
  | None => s
  end.

(** [''.join] / [' '.join] of a list of strings. *)
Fixpoint join (sep : string) (l : list string) : string :=
  match l with
  | [] => ""
  | [x] => x
  | x :: l' => x +:+ sep +:+ join sep l'
  end.

End PyStr.

(** ** [float(str)]

    A Python float read from a string is kept as the decimal number the
    string denotes, [(-1)^negative * mantissa * 10^exponent]; the rounding
    of that number to binary64 is left to the reader of the value.  The
    grammar is the one of the language reference: surrounding white space,
    an optional sign, then [inf], [infinity], [nan] (any case) or digits
    with single underscores between them, an optional fraction and an
    optional exponent. *)

Module PyFloat.

Inductive float :=
| nan
| inf (negative : bool)
| dec (negative : bool) (mantissa : N) (exponent : Z).

Definition digit (c : ascii) : option N :=
  let n := N_of_ascii c in
  if ((48 <=? n) && (n <=? 57))%N then Some (n - 48)%N else None.

(** [(["_"] digit)*], continuing the number [acc] of which [n] digits
    were read. *)
Fixpoint digitpart_rest (acc : N) (n : nat) (s : string) : N * nat * string :=
  match s with
  | String c s' =>
      match digit c with
      | Some d => digitpart_rest (10 * acc + d)%N (S n) s'
      | None =>
          if Ascii.eqb c "_" then
            match s' with
            | String c' s'' =>
                match digit c' with
                | Some d => digitpart_rest (10 * acc + d)%N (S n) s''
                | None => (acc, n, s)
                end
            | EmptyString => (acc, n, s)
            end
          else (acc, n, s)
      end
  | EmptyString => (acc, n, s)
  end.

(** [digit (["_"] digit)*] *)
Definition digitpart (acc : N) (s : string) : option (N * nat * string) :=
  match s with
  | String c s' =>
      match digit c with
      | Some d => Some (digitpart_rest (10 * acc + d)%N 1 s')
      | None => None
      end
  | EmptyString => None
  end.

(** [[digitpart] "." digitpart | digitpart ["."]]: the digits read as one
    natural number, how many of them follow the point, and the rest. *)
Definition number (s : string) : option (N * nat * string) :=
  match digitpart 0 s with
  | Some (i, _, r) =>
      match r with
      | String "."%char r' =>
          match digitpart i r' with
          | Some (m, k, r'') => Some (m, k, r'')
          | None => Some (i, 0%nat, r')
          end
      | _ => Some (i, 0%nat, r)
      end
  | None =>
      match s with
      | String "."%char r' => digitpart 0 r'
      | _ => None
      end
  end.

Definition sign (s : string) : bool * string :=
  match s with
  | String "-"%char s' => (true, s')
  | String "+"%char s' => (false, s')
  | _ => (false, s)
  end.

(** What follows the number: nothing, or [("e" | "E") [sign] digitpart]
    up to the end of the string. *)
Definition exponent (s : string) : option Z :=
  match s with
  | EmptyString => Some 0%Z
  | String c s' =>
      if Ascii.eqb c "e" || Ascii.eqb c "E" then
        let '(neg, r) := sign s' in
        match digitpart 0 r with
        | Some (e, _, EmptyString) =>
            Some (if neg then - Z.of_N e else Z.of_N e)%Z
        | _ => None
        end
      else None
  end.

Definition lower (c : ascii) : ascii :=
  let n := nat_of_ascii c in
  if ((65 <=? n) && (n <=? 90))%nat then ascii_of_nat (n + 32) else c.

Fixpoint lowercase (s : string) : string :=
  match s with
  | String c s' => String (lower c) (lowercase s')
  | EmptyString => EmptyString
  end.

(** The white space [float] skips at both ends of a string: [Py_ISSPACE],
    that is tab to carriage return and the space, and the two code points
    above 127, U+0085 and U+00A0, which are turned into spaces before the
    number is read.  The separators U+001C to U+001F, which [str.strip]
    removes, stay. *)
Definition isspace (c : ascii) : bool :=
  let n := nat_of_ascii c in
  (((9 <=? n) && (n <=? 13)) || (n =? 32) || (n =? 133) || (n =? 160))%nat.

Fixpoint lstrip (s : string) : string :=
  match s with
  | String c s' => if isspace c then lstrip s' else s
  | EmptyString => s
  end.

Fixpoint rstrip (s : string) : string :=
  match s with
  | String c s' =>
      match rstrip s' with
      | EmptyString => if isspace c then EmptyString else String c EmptyString
      | r => String c r
      end
  | EmptyString => EmptyString
  end.

Definition strip (s : string) : string := rstrip (lstrip s).

(** [float(s)] *)
Definition of_string (s : string) : result float :=
  let '(neg, r) := sign (strip s) in
  let l := lowercase r in
  if String.eqb l "inf" || String.eqb l "infinity" then Ok (inf neg)
  else if String.eqb l "nan" then Ok nan
  else
    match number r with
    | Some (m, k, r') =>
        match exponent r' with
        | Some e => Ok (dec neg m (e - Z.of_nat k))
        | None => Raise ValueError
        end
    | None => Raise ValueError
    end.

Definition neg (x : float) : float :=
  match x with
  | nan => nan
  | inf s => inf (negb s)
  | dec s m e => dec (negb s) m e
  end.

(** [multiplier * x] for the two multipliers the parser uses, [1] and
    [-1]: both products are exact. *)
Definition mul_sign (multiplier : Z) (x : float) : float :=
  if (multiplier <? 0)%Z then neg x else x.

(** The sign bit of a number; [nan] has none that Python shows. *)
Definition signbit (x : float) : option bool :=
  match x with
  | nan => None
  | inf s => Some s
  | dec s _ _ => Some s
  end.

End PyFloat.

(** ** [datetime.date]

    What [date.fromisoformat] accepts depends on the interpreter.
    [fromisoformat] is the one of CPython 3.7 to 3.10: exactly ten
    characters [YYYY-MM-DD], every [Y], [M] and [D] an ASCII digit, then
    the checks of the [date] constructor.  [fromisoformat_311] is the one
    of CPython 3.11, which reads most ISO 8601 dates; it follows
    [_datetimemodule.c]. *)

Module PyDate.

Record date := mkdate { year : Z; month : Z; day : Z }.

Definition is_leap (y : Z) : bool :=
  ((y mod 4 =? 0) && (negb (y mod 100 =? 0) || (y mod 400 =? 0)))%Z.

Definition days_in_month (y m : Z) : Z :=
  (if m =? 2 then (if is_leap y then 29 else 28)
   else if (m =? 4) || (m =? 6) || (m =? 9) || (m =? 11) then 30
   else 31)%Z.

(** [date(year, month, day)] *)
Definition new (y m d : Z) : result date :=
  if ((1 <=? y) && (y <=? 9999) && (1 <=? m) && (m <=? 12)
      && (1 <=? d) && (d <=? days_in_month y m))%Z
  then Ok (mkdate y m d)
  else Raise ValueError.

Definition digit (c : ascii) : option Z :=
  Z.of_N <$> PyFloat.digit c.

Definition digits2 (a b : ascii) : option Z :=
  x ← digit a; y ← digit b; Some (10 * x + y)%Z.

Definition digits4 (a b c d : ascii) : option Z :=
  x ← digits2 a b; y ← digits2 c d; Some (100 * x + y)%Z.

Definition fromisoformat (s : string) : result date :=
  match s with
  | String y1 (String y2 (String y3 (String y4 (String sep1
      (String m1 (String m2 (String sep2
        (String d1 (String d2 EmptyString))))))))) =>
      match digits4 y1 y2 y3 y4, digits2 m1 m2, digits2 d1 d2 with
      | Some y, Some m, Some d =>
          if Ascii.eqb sep1 "-" && Ascii.eqb sep2 "-" then new y m d
          else Raise ValueError
      | _, _, _ => Raise ValueError
      end
  | _ => Raise ValueError
  end.

(** *** CPython 3.11 *)

(** [PyUnicode_AsUTF8AndSize]: the UTF-8 bytes of a string of code points
    below 256. *)
Fixpoint utf8 (s : string) : list Z :=
  match s with
  | EmptyString => []
  | String c s' =>
      let n := Z.of_N (N_of_ascii c) in
      if (n <? 128)%Z then n :: utf8 s'
      else (192 + n / 64)%Z :: (128 + n mod 64)%Z :: utf8 s'
  end.

(** [dtstr[p]]: the buffer ends with a zero byte. *)
Definition byte (dtstr : list Z) (p : nat) : Z := default 0%Z (dtstr !! p).

(** [parse_digits(ptr, var, num_digits)]: the pointer after the digits and
    the number read, nothing at the first byte that is no digit. *)
Fixpoint parse_digits (dtstr : list Z) (p : nat) (var : Z) (num_digits : nat)
    : option (nat * Z) :=
  match num_digits with
  | O => Some (p, var)
  | S k =>
      let tmp := (byte dtstr p - 48)%Z in
      if ((0 <=? tmp) && (tmp <=? 9))%Z
      then parse_digits dtstr (S p) (10 * var + tmp)%Z k
      else None
  end.

Definition _days_in_month : list Z :=
  [0; 31; 28; 31; 30; 31; 30; 31; 31; 30; 31; 30; 31]%Z.

Definition _days_before_month : list Z :=
  [0; 0; 31; 59; 90; 120; 151; 181; 212; 243; 273; 304; 334]%Z.

(** [table[i]].  The C code does not check the index; outside the table,
    which happens for the week dates of the year 0 only, it reads what
    lies next to it, and the month it then hands to the constructor is
    below 1: [None] stands for this, and ends in [ValueError]. *)
Definition table_get (table : list Z) (i : Z) : option Z :=
  if (i <? 0)%Z then None else table !! Z.to_nat i.

Definition days_in_month_c (year month : Z) : option Z :=
  if (month =? 2)%Z && is_leap year then Some 29%Z
  else table_get _days_in_month month.

Definition days_before_month (year month : Z) : option Z :=
  days ← table_get _days_before_month month;
  Some (if (2 <? month)%Z && is_leap year then days + 1 else days)%Z.

(** The divisions of C round towards zero. *)
Definition days_before_year (year : Z) : Z :=
  let y := (year - 1)%Z in
  (y * 365 + Z.quot y 4 - Z.quot y 100 + Z.quot y 400)%Z.

Definition ymd_to_ord (year month day : Z) : option Z :=
  before ← days_before_month year month;
  Some (days_before_year year + before + day)%Z.

Definition weekday (year month day : Z) : option Z :=
  ord ← ymd_to_ord year month day; Some (Z.rem (ord + 6) 7).

Definition iso_week1_monday (year : Z) : option Z :=
  first_day ← ymd_to_ord year 1 1;
  let first_weekday := Z.rem (first_day + 6) 7 in
  let week1_monday := (first_day - first_weekday)%Z in
  Some (if (3 <? first_weekday)%Z then week1_monday + 7 else week1_monday)%Z.

Definition ord_to_ymd (ordinal : Z) : option (Z * Z * Z) :=
  let ordinal := (ordinal - 1)%Z in
  let n400 := Z.quot ordinal 146097 in
  let n := Z.rem ordinal 146097 in
  let year := (n400 * 400 + 1)%Z in
  let n100 := Z.quot n 36524 in
  let n := Z.rem n 36524 in
  let n4 := Z.quot n 1461 in
  let n := Z.rem n 1461 in
  let n1 := Z.quot n 365 in
  let n := Z.rem n 365 in
  let year := (year + (n100 * 100 + n4 * 4 + n1))%Z in
  if ((n1 =? 4) || (n100 =? 4))%Z then Some (year - 1, 12, 31)%Z
  else
    let leapyear := ((n1 =? 3) && (negb (n4 =? 24) || (n100 =? 3)))%Z in
    let month := Z.shiftr (n + 50) 5 in
    before ← table_get _days_before_month month;
    let preceding :=
      (before + (if (2 <? month)%Z && leapyear then 1 else 0))%Z in
    if (n <? preceding)%Z then
      let month := (month - 1)%Z in
      days ← days_in_month_c year month;
      Some (year, month, n - (preceding - days) + 1)%Z
    else Some (year, month, n - preceding + 1)%Z.

(** [iso_to_ymd]: nothing for a week or a day out of range. *)
Definition iso_to_ymd (iso_year iso_week iso_day : Z) : option (Z * Z * Z) :=
  first_weekday ← weekday iso_year 1 1;
  let out_of_range :=
    ((iso_week <=? 0) || (53 <=? iso_week))%Z &&
    negb ((iso_week =? 53)%Z &&
          ((first_weekday =? 3)%Z ||
           ((first_weekday =? 2)%Z && is_leap iso_year))) in
  if out_of_range then None
  else if ((iso_day <=? 0) || (8 <=? iso_day))%Z then None
  else
    day_1 ← iso_week1_monday iso_year;
    let day_offset := ((iso_week - 1) * 7 + iso_day - 1)%Z in
    ord_to_ymd (day_1 + day_offset).

(** [parse_isoformat_date]: the bytes after the day are not looked at. *)
Definition parse_isoformat_date (dtstr : list Z) (len : nat)
    : option (Z * Z * Z) :=
  py ← parse_digits dtstr 0 0 4;
  let year := py.2 in
  let uses_separator := (byte dtstr py.1 =? 45)%Z in
  let p := if uses_separator then S py.1 else py.1 in
  if (byte dtstr p =? 87)%Z then
    pw ← parse_digits dtstr (S p) 0 2;
    let iso_week := pw.2 in
    let p := pw.1 in
    if (p <? len)%nat then
      if uses_separator && negb (byte dtstr p =? 45)%Z then None
      else
        let p := if uses_separator then S p else p in
        pd ← parse_digits dtstr p 0 1;
        iso_to_ymd year iso_week pd.2
    else iso_to_ymd year iso_week 1
  else
    pm ← parse_digits dtstr p 0 2;
    let month := pm.2 in
    let p := pm.1 in
    if uses_separator && negb (byte dtstr p =? 45)%Z then None
    else
      let p := if uses_separator then S p else p in
      pd ← parse_digits dtstr p 0 2;
      Some (year, month, pd.2).

Definition fromisoformat_311 (s : string) : result date :=
  let dtstr := utf8 s in
  let len := length dtstr in
  if ((len =? 7) || (len =? 8) || (len =? 10))%nat then
    match parse_isoformat_date dtstr len with
    | Some (y, m, d) => new y m d
    | None => Raise ValueError
    end
  else Raise ValueError.

End PyDate.

(** ** The part of [bs4] the parsers use

    A parsed page is a tree of tags and strings.  With [html.parser] the
    value of the [class] attribute is the list of its tokens and every
    other attribute the parsers read is a [str]: [class_] holds
    [attrs.get('class')] and [attrs] the single-valued entries.  The
    [BeautifulSoup] object itself is the tag [[document]] without
    attributes; it is the parent of the top-level nodes. *)

Module Bs4.

#[local] Set Warnings "-register-all".

Inductive node :=
| NavigableString (s : string)
| Tag (name : string) (class_ : option (list string))
      (attrs : gmap string string) (contents : list node).

Definition soup (contents : list node) : node :=
  Tag "[document]" None ∅ contents.

Definition name (n : node) : option string :=
  match n with Tag nm _ _ _ => Some nm | NavigableString _ => None end.

Definition class_ (n : node) : option (list string) :=
  match n with Tag _ c _ _ => c | NavigableString _ => None end.

Definition attrs (n : node) : gmap string string :=
  match n with Tag _ _ a _ => a | NavigableString _ => ∅ end.

Definition contents (n : node) : list node :=
  match n with Tag _ _ _ cs => cs | NavigableString _ => [] end.

(** [n.text]: the strings below [n], concatenated in document order. *)
Fixpoint text (n : node) : string :=
  match n with
  | NavigableString s => s
  | Tag _ _ _ cs =>
      (fix go (l : list node) : string :=
         match l with
         | [] => ""
         | c :: l' => text c +:+ go l'
         end) cs
  end.

(** A node reached by a search, with the node it was found under:
    [parent] is its [.parent]. *)
Record element := mkelement { parent : node; self : node }.

(** [n.descendants], in document order. *)
Fixpoint descendants (n : node) : list element :=
  match n with
  | NavigableString _ => []
  | Tag _ _ _ cs =>
      (fix go (l : list node) : list element :=
         match l with
         | [] => []
         | c :: l' => mkelement n c :: descendants c ++ go l'
         end) cs
  end.

(** The arguments of [find] and [find_all]: a tag name, if any, and the
    [attrs] dictionary. *)
Record selector := select {
  sel_name : option string;
  sel_attrs : list (string * string)
}.

Definition by_name (nm : string) : selector := select (Some nm) [].
Definition by_attrs (kvs : list (string * string)) : selector := select None kvs.

(** [SoupStrainer._matches] of an attribute value against a string: a
    string matches when equal; a list when one of its items is equal or
    when its items joined by spaces are; [None] matches only the empty
    string. *)
Definition matches_str (value : option string) (against : string) : bool :=
  match value with
  | Some v => String.eqb v against
  | None => String.eqb against ""
  end.

Definition matches_list (value : option (list string)) (against : string) : bool :=
  match value with
  | Some l =>
      existsb (fun item => String.eqb item against) l
      || String.eqb (PyStr.join " " l) against
  | None => String.eqb against ""
  end.

Definition matches_attr (n : node) (kv : string * string) : bool :=
  if String.eqb kv.1 "class" then matches_list (class_ n) kv.2
  else matches_str (attrs n !! kv.1) kv.2.

(** [SoupStrainer.search_tag]: only tags match; the name, when one is
    asked for, is the tag's, and every entry of [attrs] matches. *)
Definition matches (sel : selector) (n : node) : bool :=
  match n with
  | NavigableString _ => false
  | Tag nm _ _ _ =>
      match sel_name sel with
      | Some want => String.eqb nm want
      | None => true
      end
      && forallb (matches_attr n) (sel_attrs sel)
  end.

(** [n.find_all(name, attrs)] *)
Definition find_all (sel : selector) (n : node) : list element :=
  List.filter (fun e => matches sel (self e)) (descendants n).

(** [n.find(name, attrs)]: the first match or [None]. *)
Definition find (sel : selector) (n : node) : option element :=
  head (find_all sel n).

End Bs4.
Import Bs4.

(** ** easy_equities_client.accounts.types *)

(** Modelled from the spec: the dataclass [Account] of [accounts/types.py],
    "Account: { name: string, tradingCurrencyId: string, id: string }".  A
    dataclass instance is truthy. *)
Record Account := mkAccount {
  acc_name : string;
  trading_currency_id : string;
  acc_id : string
}.

(** Modelled from the spec: the dictionary type [Holding] of
    [accounts/types.py], a "mapping with fixed required keys [...] all
    string-valued". *)
Abbreviation Holding := (gmap string string).

(** ** AccountOverviewParser *)

(** [not x] for an optional string: [None] and [''] are false. *)
Definition falsy (x : option string) : bool :=
  match x with
  | None => true
  | Some s => String.eqb s ""
  end.

Definition extract_account_info (account_div : element) : result (option Account) :=
  let trading_currency := attrs (parent account_div) !! "data-tradingcurrencyid" in
  if falsy trading_currency then Ok None
  else
    let name := PyStr.strip (text (self account_div)) in
    let trading_currency_id := PyStr.strip (default "" trading_currency) in
    id ← getitem (attrs (parent account_div)) "data-id";
    Ok (Some (mkAccount name trading_currency_id (PyStr.strip id))).

Definition extract_accounts (soup : node) : result (list Account) :=
  let accounts_divs := find_all (by_attrs [("id", "trust-account-types")]) soup in
  infos ← traverse extract_account_info accounts_divs;
  Ok (omap (M:=list) (fun account : option Account => account) infos).

(** ** HoldingDivParser *)

Module HoldingDivParser.

Record t := new { div : element }.

(** [self.div.find(attrs={'class': cls}).text.strip()] *)
Definition cell (cls : string) (self : t) : result string :=
  e ← not_none (find (by_attrs [("class", cls)]) (Bs4.self (div self)));
  Ok (PyStr.strip (text (Bs4.self e))).

Definition name : t -> result string := cell "equity-image-as-text".
Definition purchase_value : t -> result string := cell "purchase-value-cell".
Definition current_value : t -> result string := cell "current-value-cell".
Definition current_price : t -> result string := cell "current-price-cell".

Definition img (self : t) : result string :=
  e ← not_none (find (by_attrs [("class", "instrument")]) (Bs4.self (div self)));
  getitem (attrs (Bs4.self e)) "src".

(** [img[img.rindex('/') + 1 : img.index('.png')]] on the string [img]. *)
Definition code_of_img (img : string) : result string :=
  i ← PyStr.rindex "/" img;
  j ← PyStr.index ".png" img;
  Ok (PyStr.slice (i + 1) j img).

Definition contract_code (self : t) : result string :=
  s ← img self;
  code_of_img s.

Definition view_url (self : t) : result string :=
  c ← not_none (find (by_attrs [("class", "collapse-container")]) (Bs4.self (div self)));
  sp ← not_none (find (by_name "span") (Bs4.self c));
  getitem (attrs (Bs4.self sp)) "data-detailviewurl".

Definition isin (self : t) : result string :=
  url ← view_url self;
  Ok (PyStr.after_last "=" url).

(** [__hash__] is [hash(self.name)].  [str_hash] is Python's hash of a
    [str]: it changes from one process to the next, and two different
    strings may have the same hash. *)
Definition hash (str_hash : string -> Z) (self : t) : result Z :=
  n ← name self; Ok (str_hash n).

(** [__eq__] *)
Definition eq (a b : t) : result bool :=
  x ← name a; y ← name b; Ok (String.eqb x y).

Definition fields : list string :=
  ["name"; "contract_code"; "purchase_value"; "current_value";
   "current_price"; "img"; "view_url"; "isin"].

(** [getattr(self, field)] *)
Definition getattr (self : t) (field : string) : result string :=
  if String.eqb field "name" then name self
  else if String.eqb field "contract_code" then contract_code self
  else if String.eqb field "purchase_value" then purchase_value self
  else if String.eqb field "current_value" then current_value self
  else if String.eqb field "current_price" then current_price self
  else if String.eqb field "img" then img self
  else if String.eqb field "view_url" then view_url self
  else if String.eqb field "isin" then isin self
  else Raise AttributeError.

(** The body of the loop of [to_dict]. *)
Definition set_field (self : t) (data : Holding) (field : string) : result Holding :=
  match getattr self field with
  | Ok v => Ok (<[field := v]> data)
  | Raise e => Raise (HoldingFieldNotFoundException field e)
  end.

Definition to_dict (self : t) : result Holding :=
  foldM (set_field self) ∅ fields.

End HoldingDivParser.

(** ** AccountHoldingsParser *)

(** A Python [set] of row parsers, kept as the list of its entries, each
    with its hash, in the order they came in.  Adding an element hashes it
    first, which raises what [name] raises; it is then compared by [__eq__]
    with the entries of the same hash, the stored one on the left, and is
    left out when one of them is equal (each row parser is a new object,
    so no entry is the element itself).  The order in which the set is
    later iterated is a parameter of [extract_holdings]. *)
Module PySet.

Abbreviation t := (list (Z * HoldingDivParser.t)).

Fixpoint lookup (h : Z) (x : HoldingDivParser.t) (s : t) : result bool :=
  match s with
  | [] => Ok false
  | e :: s' =>
      if (e.1 =? h)%Z then
        b ← HoldingDivParser.eq e.2 x;
        if b : bool then Ok true else lookup h x s'
      else lookup h x s'
  end.

Definition add (str_hash : string -> Z) (s : t) (x : HoldingDivParser.t)
    : result t :=
  h ← HoldingDivParser.hash str_hash x;
  found ← lookup h x s;
  Ok (if found : bool then s else (s ++ [(h, x)])%list).

(** [set(l)] *)
Definition of_list (str_hash : string -> Z) (l : list HoldingDivParser.t)
    : result t :=
  foldM (add str_hash) [] l.

Definition elements (s : t) : list HoldingDivParser.t := snd <$> s.

End PySet.

(** ['holding-table-header' not in holding_div.parent.attrs['class']] *)
Definition not_in_header (holding_div : element) : result bool :=
  match class_ (parent holding_div) with
  | Some cls => Ok (negb (existsb (String.eqb "holding-table-header") cls))
  | None => Raise (KeyError "class")
  end.

Definition extract_holdings
    (str_hash : string -> Z)
    (set_iter : list HoldingDivParser.t -> list HoldingDivParser.t)
    (soup : node) : result (list Holding) :=
  let holdings_divs := find_all (by_attrs [("class", "holding-inner-container")]) soup in
  rows ← filterM not_in_header (tail holdings_divs);
  divs ← PySet.of_list str_hash (HoldingDivParser.new <$> rows);
  traverse HoldingDivParser.to_dict (set_iter (PySet.elements divs)).

(** ** TransactionHistorySearchParser *)

(** What a row dictionary holds once the typed fields are in. *)
Inductive value :=
| VStr (s : string)
| VDate (d : PyDate.date)
| VFloat (x : PyFloat.float).

(** Lines 165 to 177: from the text of the DEBIT/CREDIT cell to the
    values stored under CURRENCY and AMOUNT. *)
Definition parse_amount (amount_str : string) : result (string * PyFloat.float) :=
  let '(multiplier, amount_str) :=
    if PyStr.contains "-" amount_str
    then ((-1)%Z, PyStr.remove "-" amount_str)
    else (1%Z, amount_str) in
  let amount_str := PyStr.remove " " amount_str in
  match amount_str with
  | EmptyString => Raise IndexError
  | String c _ =>
      let currency := String c EmptyString in
      amount_digits ← PyFloat.of_string (PyStr.drop 1 amount_str);
      Ok (currency, PyFloat.mul_sign multiplier amount_digits)
  end.

(** [row_data[column['data-title']] = column.text.strip()] *)
Definition scrape_cell (row_data : gmap string string) (column : element)
    : result (gmap string string) :=
  title ← getitem (attrs (self column)) "data-title";
  Ok (<[title := PyStr.strip (text (self column))]> row_data).

(** The body of the loop over the rows.  Until the typed fields are
    stored the dictionary holds strings only, and storing the date under
    DATE leaves what is read under DEBIT/CREDIT as it was scraped. *)
Definition extract_row_with (fromisoformat : string -> result PyDate.date)
    (row : element) : result (gmap string value) :=
  row_data ← foldM scrape_cell ∅ (find_all (by_name "td") (self row));
  date_str ← getitem row_data "DATE";
  date ← fromisoformat date_str;
  amount_str ← getitem row_data "DEBIT/CREDIT";
  ca ← parse_amount amount_str;
  Ok (<["AMOUNT" := VFloat ca.2]>
        (<["CURRENCY" := VStr ca.1]>
           (<["DATE" := VDate date]> (VStr <$> row_data)))).

Definition extract_transaction_history_with
    (fromisoformat : string -> result PyDate.date) (soup : node)
    : result (list (gmap string value)) :=
  htmltable ← not_none (find (select (Some "table") [("class", "table table-style")]) soup);
  tbody ← not_none (find (by_name "tbody") (self htmltable));
  traverse (extract_row_with fromisoformat)
           (find_all (by_name "tr") (self tbody)).

(** The parser under CPython 3.7 to 3.10. *)
Definition extract_row : element -> result (gmap string value) :=
  extract_row_with PyDate.fromisoformat.

Definition extract_transaction_history
    : node -> result (list (gmap string value)) :=
  extract_transaction_history_with PyDate.fromisoformat.

(** ** Deciding equality of results *)

#[global] Instance exn_eq_dec : EqDecision exn.
Proof. solve_decision. Defined.

#[global] Instance result_eq_dec `{EqDecision A} : EqDecision (result A).
Proof. solve_decision. Defined.

#[global] Instance float_eq_dec : EqDecision PyFloat.float.
Proof. solve_decision. Defined.

#[global] Instance date_eq_dec : EqDecision PyDate.date.
Proof. solve_decision. Defined.

#[global] Instance value_eq_dec : EqDecision value.
Proof. solve_decision. Defined.

#[global] Instance Account_eq_dec : EqDecision Account.
Proof. solve_decision. Defined.

(** ** The amount rule in the words of the specification

    "Presence of a literal [-] marks the amount negative [...] The [-]
    character is then stripped.  All interior whitespace is stripped.  The
    first remaining character is taken as a single-character currency
    code; the rest must parse as a non-negative decimal number [...]
    Final signed amount = sign x magnitude." *)

Fixpoint strip_whitespace (s : string) : string :=
  match s with
  | String c s' =>
      if PyStr.isspace c then strip_whitespace s'
      else String c (strip_whitespace s')
  | EmptyString => EmptyString
  end.

Definition spec_parse_amount (s : string) : result (string * PyFloat.float) :=
  let negative := PyStr.contains "-" s in
  match strip_whitespace (PyStr.remove "-" s) with
  | EmptyString => Raise IndexError
  | String c rest =>
      magnitude ← PyFloat.of_string rest;
      Ok (String c EmptyString,
          if negative then PyFloat.neg magnitude else magnitude)
  end.

(** ** Sample inputs *)

Definition tab : ascii := "009"%char.

(** [R1<TAB>234.56] *)
Definition tabbed_amount : string := "R1" +:+ String tab "234.56".

(** Building sample pages: a tag from its name, class tokens (if the
    attribute is there), other attributes and children. *)
Definition tag (name : string) (cls : option (list string))
    (attrs : list (string * string)) (contents : list node) : node :=
  Tag name cls (list_to_map attrs) contents.

(** ** Account overview: the words of the specification *)

(** The container nodes of the page, in document order. *)
Definition account_divs (soup : node) : list element :=
  find_all (by_attrs [("id", "trust-account-types")]) soup.

(** "those whose parent carries a present, non-blank trading-currency
    attribute" *)
Definition qualifying (account_div : element) : bool :=
  match attrs (parent account_div) !! "data-tradingcurrencyid" with
  | Some tc => negb (String.eqb tc "")
  | None => false
  end.

(** "display name (trimmed text content of the node), trading-currency id
    (trimmed), account id (trimmed parent attribute)" *)
Definition account_of (account_div : element) : Account :=
  let a := attrs (parent account_div) in
  mkAccount (PyStr.strip (text (self account_div)))
            (PyStr.strip (default "" (a !! "data-tradingcurrencyid")))
            (PyStr.strip (default "" (a !! "data-id"))).

Definition account_container (txt : string) : node :=
  tag "div" None [("id", "trust-account-types")] [NavigableString txt].

(** Three containers: one qualifying, one without the trading-currency
    attribute, one with an empty one. *)
Definition accounts_page : node :=
  soup [
    tag "div" None [("data-id", " 1234 "); ("data-tradingcurrencyid", "2")]
      [account_container " EasyEquities ZAR "];
    tag "div" None [("data-id", "5678")] [account_container "TFSA"];
    tag "div" None [("data-id", "9012"); ("data-tradingcurrencyid", "")]
      [account_container "EasyEquities USD"]
  ].

(** One container whose parent has a trading currency and no [data-id]. *)
Definition accounts_page_no_id : node :=
  soup [
    tag "div" None [("data-tradingcurrencyid", "2")]
      [account_container "EasyEquities ZAR"]
  ].

(** ** Holdings: the words of the specification *)

(** "all nodes matching the holding-row marker class" *)
Definition holdings_divs (soup : node) : list element :=
  find_all (by_attrs [("class", "holding-inner-container")]) soup.

(** "any node whose parent's class list contains the header-row marker" *)
Definition under_header (holding_div : element) : bool :=
  match class_ (parent holding_div) with
  | Some cls => existsb (String.eqb "holding-table-header") cls
  | None => false
  end.

(** What is left once the first match and the nodes under a header are
    discarded. *)
Definition data_rows (soup : node) : list HoldingDivParser.t :=
  HoldingDivParser.new <$>
    List.filter (fun d => negb (under_header d)) (tail (holdings_divs soup)).

(** The parent of the node has a [class] attribute. *)
Definition has_class (d : element) : Prop := is_Some (class_ (parent d)).

#[global] Instance has_class_dec d : Decision (has_class d).
Proof. unfold has_class. apply _. Defined.

(** The set of rows seen as keyed by name: an element whose name is
    already there is left out.  This is what [PySet], which goes through
    [__hash__] and [__eq__], is shown to compute. *)
Module NameSet.

Abbreviation t := (list (string * HoldingDivParser.t)).

Definition add (s : t) (x : HoldingDivParser.t) : result t :=
  n ← HoldingDivParser.name x;
  if existsb (fun e => String.eqb e.1 n) s then Ok s else Ok (s ++ [(n, x)])%list.

Definition of_list (l : list HoldingDivParser.t) : result t := foldM add [] l.

Definition elements (s : t) : list HoldingDivParser.t := snd <$> s.

End NameSet.

(** "any node whose name is that of an earlier node": the rows of [l] whose
    name is not in [seen] and is not that of an earlier row of [l]. *)
Fixpoint first_rows (seen : list string) (l : list HoldingDivParser.t)
    : list HoldingDivParser.t :=
  match l with
  | [] => []
  | d :: l' =>
      match HoldingDivParser.name d with
      | Ok n =>
          if bool_decide (n ∈ seen) then first_rows seen l'
          else d :: first_rows (seen ++ [n]) l'
      | Raise _ => first_rows seen l'
      end
  end.

(** A hash of strings under which many names collide. *)
Definition length_hash (s : string) : Z := Z.of_nat (String.length s).

(** The invariant of the set of rows: every entry carries the name of its
    row, and no name occurs twice. *)
Definition set_wf (s : NameSet.t) : Prop :=
  NoDup s.*1 /\ Forall (fun e => HoldingDivParser.name e.2 = Ok e.1) s.

(** The entries of a [PySet] and of a [NameSet] go by pairs: the same row,
    with the hash of its name on one side and its name on the other. *)
Definition same_set (str_hash : string -> Z) (s : PySet.t) (ks : NameSet.t)
    : Prop :=
  Forall2 (fun e k => e.2 = k.2 /\ e.1 = str_hash k.1) s ks.

(** The name a record holds. *)
Definition holding_name (h : Holding) : option string := h !! "name".

(** The order in which the elements went into the set: one of the orders
    a set may be iterated in. *)
Definition insertion_order (l : list HoldingDivParser.t) : list HoldingDivParser.t := l.

Definition cell_div (cls txt : string) : node :=
  tag "div" (Some [cls]) [] [NavigableString txt].

Definition holding_row (name : option string) (img : option string)
    (purchase : string) (url : string) : node :=
  tag "div" (Some ["holding-inner-container"]) []
    (match name with
     | Some n => [cell_div "equity-image-as-text" n]
     | None => []
     end ++
     match img with
     | Some src => [tag "img" (Some ["instrument"]) [("src", src)] []]
     | None => []
     end ++
     [cell_div "purchase-value-cell" purchase;
      cell_div "current-value-cell" "R110.00";
      cell_div "current-price-cell" "R11.00";
      tag "div" (Some ["collapse-container"]) []
        [tag "span" None [("data-detailviewurl", url)] []]])%list.

Definition header_row : node :=
  tag "div" (Some ["holding-inner-container"; "header"]) []
    [NavigableString "Holdings"].

Definition holdings_table (rows : list node) : node :=
  soup [tag "div" (Some ["holding-table-body"]) [] (header_row :: rows)].

Definition row_abc : node :=
  holding_row (Some " Alpha Ltd ") (Some "https://cdn/logos/EQU.ZA.ABC.png")
    "R100.00" "/Detail?isin=ZAE000000001".
Definition row_def : node :=
  holding_row (Some "Delta Plc") (Some "https://cdn/logos/EQU.ZA.DEF.png")
    "R200.00" "/Detail?isin=ZAE000000002".
Definition row_ghi : node :=
  holding_row (Some "Gamma Inc") (Some "https://cdn/logos/EQU.US.GHI.png")
    "R300.00" "/Detail?isin=US0000000003".

(** A header row and three rows of different names. *)
Definition holdings_page : node := holdings_table [row_abc; row_def; row_ghi].

(** The name of [row_abc] again, with another image and another ISIN. *)
Definition row_abc_again : node :=
  holding_row (Some "Alpha Ltd") (Some "https://cdn/logos/EQU.ZA.XYZ.png")
    "R999.00" "/Detail?isin=ZAE000000009".

(** The name of [row_abc] again, and no image. *)
Definition row_abc_no_img : node :=
  holding_row (Some "Alpha Ltd") None "R999.00" "/Detail?isin=ZAE000000009".

(** A row without the name cell. *)
Definition row_no_name : node :=
  holding_row None (Some "https://cdn/logos/EQU.ZA.ABC.png")
    "R100.00" "/Detail?isin=ZAE000000001".

(** A second row under a parent marked as a header. *)
Definition holdings_page_two_headers : node :=
  soup [tag "div" (Some ["holding-table-body"]) []
          [header_row;
           tag "div" (Some ["row"; "holding-table-header"]) [] [header_row];
           row_abc; row_def; row_ghi]].

(** A row whose parent has no [class] attribute. *)
Definition holdings_page_bare_parent : node :=
  soup [tag "div" (Some ["holding-table-body"]) []
          [header_row; row_abc; tag "div" None [] [row_def]]].

Definition holding_abc : Holding :=
  list_to_map
    [("name", "Alpha Ltd"); ("contract_code", "EQU.ZA.ABC");
     ("purchase_value", "R100.00"); ("current_value", "R110.00");
     ("current_price", "R11.00");
     ("img", "https://cdn/logos/EQU.ZA.ABC.png");
     ("view_url", "/Detail?isin=ZAE000000001"); ("isin", "ZAE000000001")].

(** The name changes, the image and the detail URL are those of
    [row_abc]. *)
Definition row_abc_renamed : node :=
  holding_row (Some "Alpha Ltd B") (Some "https://cdn/logos/EQU.ZA.ABC.png")
    "R100.00" "/Detail?isin=ZAE000000001".

(** ** Transactions: the words of the specification *)

(** "the single data table matching a fixed class marker" *)
Definition transaction_table (soup : node) : option element :=
  find (select (Some "table") [("class", "table table-style")]) soup.

(** The [tbody] of the table. *)
Definition table_body (soup : node) : option element :=
  t ← transaction_table soup; find (by_name "tbody") (self t).

(** "its body rows": none when the table or its body is missing. *)
Definition body_rows (soup : node) : list element :=
  match table_body soup with
  | Some tb => find_all (by_name "tr") (self tb)
  | None => []
  end.

(** The cells of a row and the title of a cell. *)
Definition cells (row : element) : list element :=
  find_all (by_name "td") (self row).

Definition title (cell : element) : option string :=
  attrs (self cell) !! "data-title".

(** The row mapping before the typed fields are stored. *)
Definition scrape (row : element) : result (gmap string string) :=
  foldM scrape_cell ∅ (cells row).

(** A calendar date of the years 1 to 9999. *)
Definition valid_date (d : PyDate.date) : Prop :=
  (1 <= PyDate.year d <= 9999 /\ 1 <= PyDate.month d <= 12 /\
   1 <= PyDate.day d <= PyDate.days_in_month (PyDate.year d) (PyDate.month d))%Z.

Definition digit_char (n : Z) : ascii := ascii_of_N (48 + Z.to_N n).

(** [YYYY-MM-DD] *)
Definition isoformat (d : PyDate.date) : string :=
  let y := PyDate.year d in
  let m := PyDate.month d in
  let dd := PyDate.day d in
  String (digit_char (y / 1000)) (String (digit_char (y / 100 mod 10))
    (String (digit_char (y / 10 mod 10)) (String (digit_char (y mod 10))
      (String "-" (String (digit_char (m / 10)) (String (digit_char (m mod 10))
        (String "-" (String (digit_char (dd / 10))
          (String (digit_char (dd mod 10)) EmptyString)))))))))%Z.

Definition td (title txt : string) : node :=
  tag "td" None [("data-title", title)] [NavigableString txt].

Definition tr (cells : list node) : node := tag "tr" None [] cells.

(** A page with the table; [body] is the content of its [tbody], if it
    has one. *)
Definition transactions_page (body : option (list node)) : node :=
  soup [tag "div" (Some ["content"]) []
          [tag "table" (Some ["table"; "table-style"]) []
             (match body with
              | Some rows => [tag "tbody" None [] rows]
              | None => []
              end)]].

(** A page without the table. *)
Definition page_without_table : node :=
  soup [tag "div" (Some ["content"]) []
          [tag "table" (Some ["table"]) [] [tag "tbody" None [] []]]].

Definition row_debit : node :=
  tr [td "DATE" " 2023-05-01 "; td "COMMENT" "Bought shares";
      td "DEBIT/CREDIT" "R-1 234.56"].

Definition row_credit : node :=
  tr [td "DATE" "2023-05-02"; td "COMMENT" "Deposit";
      td "DEBIT/CREDIT" "R1 234.56"].

Definition row_slash_date : node :=
  tr [td "DATE" "05/01/2023"; td "COMMENT" "Deposit";
      td "DEBIT/CREDIT" "R1 234.56"].

Definition record_debit : gmap string value :=
  list_to_map
    [("DATE", VDate (PyDate.mkdate 2023 5 1)); ("COMMENT", VStr "Bought shares");
     ("DEBIT/CREDIT", VStr "R-1 234.56"); ("CURRENCY", VStr "R");
     ("AMOUNT", VFloat (PyFloat.dec true 123456 (-2)))].

Definition record_credit : gmap string value :=
  list_to_map
    [("DATE", VDate (PyDate.mkdate 2023 5 2)); ("COMMENT", VStr "Deposit");
     ("DEBIT/CREDIT", VStr "R1 234.56"); ("CURRENCY", VStr "R");
     ("AMOUNT", VFloat (PyFloat.dec false 123456 (-2)))].

(** A row whose date is written without dashes. *)
Definition row_compact_date : node :=
  tr [td "DATE" "20230501"; td "COMMENT" "Deposit";
      td "DEBIT/CREDIT" "R1 234.56"].

Definition record_compact_date : gmap string value :=
  list_to_map
    [("DATE", VDate (PyDate.mkdate 2023 5 1)); ("COMMENT", VStr "Deposit");
     ("DEBIT/CREDIT", VStr "R1 234.56"); ("CURRENCY", VStr "R");
     ("AMOUNT", VFloat (PyFloat.dec false 123456 (-2)))].

(** ** The contract code in the words of the specification

    "the path segment between the last [/] and the [.png] suffix.  Fails
    if imageUrl does not contain both markers."  The suffix is taken to be
    the last four characters. *)
Definition spec_code_of_img (img : string) : result string :=
  match PyStr.rfind "/" img, PyStr.find ".png" img with
  | Some i, Some _ => Ok (PyStr.slice (i + 1) (String.length img - 4) img)
  | _, _ => Raise ValueError
  end.

(** ** Trimmed strings *)

Definition first_char (s : string) : option ascii :=
  match s with
  | String c _ => Some c
  | EmptyString => None
  end.

Fixpoint last_char (s : string) : option ascii :=
  match s with
  | EmptyString => None
  | String c EmptyString => Some c
  | String _ s' => last_char s'
  end.

(** Neither the first nor the last character is white space. *)
Definition trimmed (s : string) : Prop :=
  (forall c, first_char s = Some c -> PyStr.isspace c = false) /\
  (forall c, last_char s = Some c -> PyStr.isspace c = false).

(** Every character is white space. *)
Fixpoint blank (s : string) : bool :=
  match s with
  | String c s' => PyStr.isspace c && blank s'
  | EmptyString => true
  end.

(** The fields of a holding that are the text of a cell. *)
Definition text_fields : list string :=
  ["name"; "purchase_value"; "current_value"; "current_price"].

(** A container whose parent has a trading currency of two spaces. *)
Definition blank_currency_div : element :=
  mkelement
    (tag "div" None [("data-id", " 77 "); ("data-tradingcurrencyid", "  ")]
       [account_container " Pending "])
    (account_container " Pending ").

(** The fields a failure of [to_dict] can name. *)
Definition nameable_fields : list string :=
  ["name"; "contract_code"; "purchase_value"; "current_value";
   "current_price"; "view_url"].

(** What reading one field can raise. *)
Definition field_causes : list exn :=
  [AttributeError; KeyError "src"; KeyError "data-detailviewurl"; ValueError].

(** A page whose only match is a well-formed data row. *)
Definition single_row_page : node :=
  soup [tag "div" (Some ["holding-table-body"]) [] [row_abc]].

(** The names of the rows of a list, when all can be read. *)
Definition row_names (rows : list HoldingDivParser.t) : result (list string) :=
  traverse HoldingDivParser.name rows.

(** What holds of every record [to_dict] returns: the eight keys and no
    other, an isin that is the end of the view_url, a contract_code cut
    out of the img, and trimmed cell texts. *)
Definition consistent_record (h : Holding) : Prop :=
  dom h = list_to_set HoldingDivParser.fields /\
  (exists url, h !! "view_url" = Some url /\
               h !! "isin" = Some (PyStr.after_last "=" url)) /\
  (exists src cc, h !! "img" = Some src /\ h !! "contract_code" = Some cc /\
                  HoldingDivParser.code_of_img src = Ok cc) /\
  (forall f v, f ∈ text_fields -> h !! f = Some v -> trimmed v).

(** What the transaction extraction can raise. *)
Definition transaction_errors : list exn :=
  [AttributeError; KeyError "data-title"; KeyError "DATE"; ValueError;
   KeyError "DEBIT/CREDIT"; IndexError].

(** The typed part of a transaction record. *)
Definition typed_record (rec : gmap string value) : Prop :=
  exists d ch a,
    rec !! "DATE" = Some (VDate d) /\ valid_date d /\
    rec !! "CURRENCY" = Some (VStr (String ch EmptyString)) /\
    ch <> "-"%char /\ ch <> " "%char /\
    rec !! "AMOUNT" = Some (VFloat a) /\
    forall k v, rec !! k = Some (VStr v) -> k <> "CURRENCY" -> trimmed v.

(** A row without the DATE cell, and a row whose amount is a lone minus
    sign. *)
Definition row_without_date : node :=
  tr [td "COMMENT" "Deposit"; td "DEBIT/CREDIT" "R1 234.56"].

Definition row_minus_only : node :=
  tr [td "DATE" "2023-05-02"; td "DEBIT/CREDIT" " - "].

(** * Properties *)

(** Closed goals about the sample pages are decided by evaluation. *)
Ltac by_compute := apply (bool_decide_unpack _); vm_compute; reflexivity.

(** An element of a sample page is found by evaluating a test on it. *)
Lemma option_witness {A} (o : option A) (p : A -> bool) :
  match o with Some x => p x | None => false end = true ->
  exists x, o = Some x /\ p x = true.
Proof. destruct o; [eauto|done]. Qed.


(** ** Loops in the [result] monad *)

Section Loops.

Context {A B : Type}.

Lemma bind_Ok (r : result A) (k : A -> result B) y :
  r ≫= k = Ok y <-> exists x, r = Ok x /\ k x = Ok y.
Proof.
  destruct r as [x|e]; simpl; split.
  - eauto.
  - by intros (? & [= <-] & ?).
  - done.
  - by intros (? & ? & _).
Qed.

Lemma traverse_Ok (f : A -> result B) l ys :
  traverse f l = Ok ys <-> Forall2 (fun x y => f x = Ok y) l ys.
Proof.
  revert ys. induction l as [|x l IH]; intros ys; simpl.
  - split; [intros [= <-]; constructor | by inversion 1].
  - destruct (f x) as [y|e] eqn:Hx; simpl.
    + destruct (traverse f l) as [ys'|e] eqn:Hl; simpl.
      * split.
        -- intros [= <-]. constructor; [done|]. by apply IH.
        -- inversion 1 as [|? y' ? ys'' Hy Hys]; subst.
           rewrite Hx in Hy. injection Hy as <-.
           apply IH in Hys. by injection Hys as <-.
      * split; [done|].
        inversion 1 as [|? y' ? ys'' Hy Hys]; subst. by apply IH in Hys.
    + split; [done|]. inversion 1; congruence.
Qed.

Lemma traverse_Raise (f : A -> result B) l e :
  traverse f l = Raise e <->
  exists l1 x l2, l = (l1 ++ x :: l2)%list /\
                  Forall (fun x => is_ok (f x) = true) l1 /\ f x = Raise e.
Proof.
  induction l as [|x l IH]; simpl.
  - split; [done|]. by intros ([|? ?] & ? & ? & ? & _).
  - destruct (f x) as [y|e'] eqn:Hx; simpl.
    + transitivity (traverse f l = Raise e).
      { by destruct (traverse f l). }
      rewrite IH. split.
      * intros (l1 & x' & l2 & -> & Hok & Hr).
        exists (x :: l1), x', l2. split; [done|]. split; [|done].
        constructor; [by rewrite Hx|done].
      * intros ([|x' l1] & x'' & l2 & Hl' & Hok & Hr);
          simpl in Hl'; injection Hl' as <- ->.
        -- congruence.
        -- inversion Hok; subst. by exists l1, x'', l2.
    + split.
      * intros [= <-]. exists [], x, l. by repeat split.
      * intros ([|x' l1] & x'' & l2 & Hl' & Hok & Hr);
          simpl in Hl'; injection Hl' as <- ->.
        -- congruence.
        -- inversion Hok as [|? ? Hx' ?]; subst. by rewrite Hx in Hx'.
Qed.

Lemma traverse_fails (f : A -> result B) l x e :
  x ∈ l -> f x = Raise e -> exists e', traverse f l = Raise e'.
Proof.
  intros Hin Hx.
  destruct (traverse f l) as [ys|e'] eqn:Hl; [|eauto].
  apply traverse_Ok in Hl.
  apply list_elem_of_lookup in Hin as [i Hi].
  destruct (Forall2_lookup_l _ _ _ _ _ Hl Hi) as (y & _ & Hy). congruence.
Qed.

Lemma filterM_Ok (p : A -> result bool) (q : A -> bool) l :
  Forall (fun x => p x = Ok (q x)) l -> filterM p l = Ok (List.filter q l).
Proof.
  induction 1 as [|x l Hx _ IH]; simpl; [done|].
  rewrite Hx, IH. simpl. by destruct (q x).
Qed.

Lemma filterM_Raise (p : A -> result bool) l1 x l2 e :
  Forall (fun x => is_ok (p x) = true) l1 -> p x = Raise e ->
  filterM p (l1 ++ x :: l2) = Raise e.
Proof.
  induction 1 as [|y l1 Hy _ IH]; intros Hx; simpl.
  - by rewrite Hx.
  - destruct (p y); [|done]. simpl. by rewrite IH.
Qed.

End Loops.

(** ** Strings *)

Section StringFacts.

Import PyStr.

Lemma contains_true_iff c s :
  contains c s = true <-> exists s1 s2, s = s1 +:+ String c s2.
Proof.
  induction s as [|c' s IH]; simpl.
  - split; [discriminate|]. intros ([|? ?] & s2 & H); discriminate.
  - rewrite orb_true_iff, IH, Ascii.eqb_eq. split.
    + intros [->|(s1 & s2 & ->)].
      * by exists "", s.
      * by exists (String c' s1), s2.
    + intros ([|a s1] & s2 & H); simpl in H; injection H as -> ->; eauto.
Qed.

Lemma remove_not_contains c s : contains c s = false -> remove c s = s.
Proof.
  induction s as [|c' s IH]; simpl; [done|].
  rewrite orb_false_iff. intros [-> H]. by rewrite IH.
Qed.

Lemma contains_remove_same c s : contains c (remove c s) = false.
Proof.
  induction s as [|c' s IH]; simpl; [done|].
  destruct (Ascii.eqb c' c) eqn:E; simpl; [done|]. by rewrite E.
Qed.

Lemma contains_remove c d s :
  contains c (remove d s) = true -> contains c s = true.
Proof.
  induction s as [|c' s IH]; simpl; [done|].
  destruct (Ascii.eqb c' d); simpl; rewrite ?orb_true_iff; intuition.
Qed.

Lemma contains_lstrip c s : contains c (lstrip s) = true -> contains c s = true.
Proof.
  induction s as [|c' s IH]; simpl; [done|].
  destruct (isspace c'); simpl; [|done].
  intros H. rewrite (IH H). apply orb_true_r.
Qed.

Lemma contains_rstrip c s : contains c (rstrip s) = true -> contains c s = true.
Proof.
  induction s as [|c' s IH]; simpl; [done|].
  destruct (rstrip s) as [|a r] eqn:E.
  - destruct (isspace c'); simpl; [done|].
    rewrite !orb_true_iff. intros [H|H]; [by left|done].
  - remember (String a r) as t. simpl. rewrite !orb_true_iff.
    intros [H|H]; [by left|]. right. by apply IH.
Qed.

Lemma contains_strip c s : contains c (strip s) = true -> contains c s = true.
Proof. intros H. by apply contains_lstrip, contains_rstrip. Qed.

Lemma contains_drop c n s : contains c (drop n s) = true -> contains c s = true.
Proof.
  revert s. induction n as [|n IH]; intros [|c' s]; simpl; try done.
  intros H. rewrite (IH _ H). apply orb_true_r.
Qed.

End StringFacts.

(** ** [float] *)

Section FloatFacts.

Import PyFloat.

Lemma float_contains_lstrip c s :
  PyStr.contains c (lstrip s) = true -> PyStr.contains c s = true.
Proof.
  induction s as [|c' s IH]; simpl; [done|].
  destruct (isspace c'); simpl; [|done].
  intros H. rewrite (IH H). apply orb_true_r.
Qed.

Lemma float_contains_rstrip c s :
  PyStr.contains c (rstrip s) = true -> PyStr.contains c s = true.
Proof.
  induction s as [|c' s IH]; simpl; [done|].
  destruct (rstrip s) as [|a r] eqn:E.
  - destruct (isspace c'); simpl; [done|].
    rewrite !orb_true_iff. intros [H|H]; [by left|done].
  - remember (String a r) as t. simpl. rewrite !orb_true_iff.
    intros [H|H]; [by left|]. right. by apply IH.
Qed.

Lemma float_contains_strip c s :
  PyStr.contains c (strip s) = true -> PyStr.contains c s = true.
Proof. intros H. by apply float_contains_lstrip, float_contains_rstrip. Qed.

(** A number read from a string without a minus sign has its sign bit
    clear. *)
Lemma of_string_signbit s x :
  of_string s = Ok x -> signbit x = Some true -> PyStr.contains "-" s = true.
Proof.
  unfold of_string. intros H Hs.
  assert (Hneg : (sign (strip s)).1 = true).
  { destruct (sign (strip s)) as [ng r]. simpl.
    repeat match type of H with
           | (if ?b then _ else _) = _ => destruct b
           | match ?o with _ => _ end = _ => destruct o as [[[? ?] ?]|] eqn:?
           | match ?o with _ => _ end = _ => destruct o eqn:?
           end; simplify_eq; simpl in Hs; congruence. }
  apply float_contains_strip.
  destruct (strip s) as [|c r]; [done|].
  unfold sign in Hneg. simpl.
  destruct (Ascii.eqb c "-") eqn:E; [done|].
  destruct c as [[] [] [] [] [] [] [] []]; simpl in *; done.
Qed.

Lemma neg_involutive x : neg (neg x) = x.
Proof. destruct x; simpl; by rewrite ?negb_involutive. Qed.

End FloatFacts.
Lemma parse_amount_unfold s :
  parse_amount s =
  match PyStr.remove " " (PyStr.remove "-" s) with
  | EmptyString => Raise IndexError
  | String c rest =>
      m ← PyFloat.of_string rest;
      Ok (String c EmptyString,
          if PyStr.contains "-" s then PyFloat.neg m else m)
  end.
Proof.
  unfold parse_amount.
  destruct (PyStr.contains "-" s) eqn:E.
  - destruct (PyStr.remove " " (PyStr.remove "-" s)) as [|c rest]; [done|].
    change (PyStr.drop 1 (String c rest)) with rest.
    by destruct (PyFloat.of_string rest).
  - rewrite (remove_not_contains _ _ E).
    destruct (PyStr.remove " " s) as [|c rest]; [done|].
    change (PyStr.drop 1 (String c rest)) with rest.
    by destruct (PyFloat.of_string rest).
Qed.

(** ** [float] and [fromisoformat] on sample strings *)

Example float_examples :
  PyFloat.of_string "1234.56" = Ok (PyFloat.dec false 123456 (-2)) /\
  PyFloat.of_string " 1_000.5e3 " = Ok (PyFloat.dec false 10005 2) /\
  PyFloat.of_string "-.5" = Ok (PyFloat.dec true 5 (-1)) /\
  PyFloat.of_string "Infinity" = Ok (PyFloat.inf false) /\
  PyFloat.of_string "1 234" = Raise ValueError /\
  PyFloat.of_string "1__0" = Raise ValueError /\
  PyFloat.of_string "" = Raise ValueError /\
  PyFloat.of_string "1e" = Raise ValueError /\
  PyFloat.of_string (String (ascii_of_nat 11) "5") = Ok (PyFloat.dec false 5 0) /\
  PyFloat.of_string (String (ascii_of_nat 133) "5") = Ok (PyFloat.dec false 5 0) /\
  PyFloat.of_string (String "5" (String (ascii_of_nat 160) "")) = Ok (PyFloat.dec false 5 0) /\
  PyFloat.of_string (String (ascii_of_nat 28) "5") = Raise ValueError /\
  PyFloat.of_string (String "5" (String (ascii_of_nat 31) "")) = Raise ValueError /\
  PyStr.strip (String (ascii_of_nat 28) "5") = "5".
Proof. repeat split; by_compute. Qed.

Example date_examples :
  PyDate.fromisoformat "2023-05-01" = Ok (PyDate.mkdate 2023 5 1) /\
  PyDate.fromisoformat "05/01/2023" = Raise ValueError /\
  PyDate.fromisoformat "2023-02-29" = Raise ValueError /\
  PyDate.fromisoformat "2024-02-29" = Ok (PyDate.mkdate 2024 2 29) /\
  PyDate.fromisoformat "2023-5-1" = Raise ValueError.
Proof. repeat split; by_compute. Qed.

Example date_examples_311 :
  PyDate.fromisoformat_311 "2023-05-01" = Ok (PyDate.mkdate 2023 5 1) /\
  PyDate.fromisoformat_311 "20230501" = Ok (PyDate.mkdate 2023 5 1) /\
  PyDate.fromisoformat_311 "2023-W18-1" = Ok (PyDate.mkdate 2023 5 1) /\
  PyDate.fromisoformat_311 "2023W181" = Ok (PyDate.mkdate 2023 5 1) /\
  PyDate.fromisoformat_311 "2023-W18" = Ok (PyDate.mkdate 2023 5 1) /\
  PyDate.fromisoformat_311 "2023W18" = Ok (PyDate.mkdate 2023 5 1) /\
  PyDate.fromisoformat_311 "2023050112" = Ok (PyDate.mkdate 2023 5 1) /\
  PyDate.fromisoformat_311 "2020-W53-7" = Ok (PyDate.mkdate 2021 1 3) /\
  PyDate.fromisoformat_311 "0001-W01-1" = Ok (PyDate.mkdate 1 1 1) /\
  PyDate.fromisoformat_311 "9999-W52-5" = Ok (PyDate.mkdate 9999 12 31) /\
  PyDate.fromisoformat_311 "2024-02-29" = Ok (PyDate.mkdate 2024 2 29) /\
  PyDate.fromisoformat_311 "05/01/2023" = Raise ValueError /\
  PyDate.fromisoformat_311 "2023-02-29" = Raise ValueError /\
  PyDate.fromisoformat_311 "2023-5-1" = Raise ValueError /\
  PyDate.fromisoformat_311 "2023-0501" = Raise ValueError /\
  PyDate.fromisoformat_311 "202305-01" = Raise ValueError /\
  PyDate.fromisoformat_311 "2023-05-01x" = Raise ValueError /\
  PyDate.fromisoformat_311 "2023-W181" = Raise ValueError /\
  PyDate.fromisoformat_311 "2023W18-1" = Raise ValueError /\
  PyDate.fromisoformat_311 "2023-W53-1" = Raise ValueError /\
  PyDate.fromisoformat_311 "2023-W00-1" = Raise ValueError /\
  PyDate.fromisoformat_311 "2023-W18-0" = Raise ValueError /\
  PyDate.fromisoformat_311 "2023-W18-8" = Raise ValueError /\
  PyDate.fromisoformat_311 "9999-W52-7" = Raise ValueError /\
  PyDate.fromisoformat_311 "0000-W01-1" = Raise ValueError /\
  PyDate.fromisoformat_311 "0000-01-01" = Raise ValueError.
Proof. repeat split; by_compute. Qed.

(** ** Transaction amounts *)

(** C1 (as stated): with a tab between the digit groups the rule of the
    specification, which strips all white space, yields currency R and
    amount 1234.56, while the parser, which removes U+0020 only, raises
    [ValueError]. *)
Lemma parse_amount_keeps_tab :
  spec_parse_amount tabbed_amount = Ok ("R", PyFloat.dec false 123456 (-2)) /\
  parse_amount tabbed_amount = Raise ValueError.
Proof. split; by_compute. Qed.

(** C1 (amended): the DEBIT/CREDIT string yields a currency and an amount
    exactly when, once every [-] and every space character (U+0020) is
    removed, a first character remains and what follows it reads as a
    float; the currency is that character, the magnitude that float, whose
    sign bit is never set, and the amount is the magnitude negated exactly
    when the string held a [-].  "R-1 234.56" gives R and -1234.56,
    "R1 234.56" gives R and 1234.56. *)
Theorem parse_amount_correct :
  (forall s c a,
     parse_amount s = Ok (c, a) <->
     exists ch rest m,
       PyStr.remove " " (PyStr.remove "-" s) = String ch rest /\
       c = String ch EmptyString /\
       PyFloat.of_string rest = Ok m /\
       PyFloat.signbit m <> Some true /\
       a = if PyStr.contains "-" s then PyFloat.neg m else m) /\
  parse_amount "R-1 234.56" = Ok ("R", PyFloat.dec true 123456 (-2)) /\
  parse_amount "R1 234.56" = Ok ("R", PyFloat.dec false 123456 (-2)).
Proof.
  split; [|split; by_compute].
  intros s c a. rewrite parse_amount_unfold.
  destruct (PyStr.remove " " (PyStr.remove "-" s)) as [|ch rest] eqn:Hs.
  { split; [done|]. intros (? & ? & ? & ? & _). done. }
  assert (Hnn : forall m, PyFloat.of_string rest = Ok m ->
                          PyFloat.signbit m <> Some true).
  { intros m Hm Hb.
    pose proof (of_string_signbit _ _ Hm Hb) as Hc.
    assert (PyStr.contains "-" (PyStr.remove "-" s) = true) as Hc'.
    { apply contains_remove with (d := " "%char). rewrite Hs.
      cbn [PyStr.contains]. rewrite Hc. apply orb_true_r. }
    by rewrite contains_remove_same in Hc'. }
  destruct (PyFloat.of_string rest) as [m|e] eqn:Hm.
  - split.
    + intros H. injection H as <- <-. exists ch, rest, m.
      repeat split; try done. by apply Hnn.
    + intros (ch' & rest' & m' & H1 & -> & H2 & _ & ->).
      injection H1 as -> ->. rewrite Hm in H2. by injection H2 as ->.
  - split; [done|].
    intros (ch' & rest' & m' & H1 & _ & H2 & _).
    injection H1 as -> ->. by rewrite Hm in H2.
Qed.

(** ** Searching the tree *)

Lemma descendants_Tag nm c a cs :
  descendants (Tag nm c a cs) =
  flat_map (fun ch => mkelement (Tag nm c a cs) ch :: descendants ch) cs.
Proof.
  simpl. generalize (Tag nm c a cs) as p.
  induction cs as [|ch cs IH]; intros p; simpl; [done|].
  by rewrite IH.
Qed.

Lemma find_all_spec sel n e :
  e ∈ find_all sel n <-> e ∈ descendants n /\ matches sel (self e) = true.
Proof.
  unfold find_all. rewrite !list_elem_of_In, filter_In. tauto.
Qed.

Lemma find_None sel n : find sel n = None <-> find_all sel n = [].
Proof. unfold find. by destruct (find_all sel n). Qed.

(** ** Accounts *)

Lemma falsy_qualifying d :
  falsy (attrs (parent d) !! "data-tradingcurrencyid") = negb (qualifying d).
Proof.
  unfold falsy, qualifying.
  destruct (attrs (parent d) !! "data-tradingcurrencyid"); [|done].
  by rewrite negb_involutive.
Qed.

Lemma extract_account_info_skip d :
  qualifying d = false -> extract_account_info d = Ok None.
Proof.
  intros H. unfold extract_account_info. by rewrite falsy_qualifying, H.
Qed.

Lemma extract_account_info_qualifying d :
  qualifying d = true ->
  extract_account_info d =
  match attrs (parent d) !! "data-id" with
  | Some _ => Ok (Some (account_of d))
  | None => Raise (KeyError "data-id")
  end.
Proof.
  intros H. unfold extract_account_info, getitem, account_of.
  rewrite falsy_qualifying, H. simpl.
  by destruct (attrs (parent d) !! "data-id").
Qed.

Lemma extract_accounts_eq divs :
  Forall (fun d => qualifying d = true ->
                   is_Some (attrs (parent d) !! "data-id")) divs ->
  traverse extract_account_info divs ≫=
    (fun infos => Ok (omap (M:=list) (fun a : option Account => a) infos))
  = Ok (account_of <$> List.filter qualifying divs).
Proof.
  induction 1 as [|d divs Hd _ IH]; simpl; [done|].
  apply bind_Ok in IH as (infos & Hinfos & [= IH]).
  rewrite Hinfos.
  destruct (qualifying d) eqn:Hq.
  - rewrite (extract_account_info_qualifying _ Hq).
    destruct (Hd eq_refl) as [i Hi]. rewrite Hi. simpl.
    do 2 f_equal. exact IH.
  - rewrite (extract_account_info_skip _ Hq). simpl. f_equal. exact IH.
Qed.

(** C3 (as stated): a page with one qualifying container, whose parent
    carries the trading currency and no [data-id], yields no record but a
    [KeyError]. *)
Lemma extract_accounts_needs_id :
  length (List.filter qualifying (account_divs accounts_page_no_id)) = 1%nat /\
  extract_accounts accounts_page_no_id = Raise (KeyError "data-id").
Proof. split; by_compute. Qed.

(** C3 (amended): when the parent of every qualifying container also
    carries [data-id], a page with N qualifying containers yields exactly N
    accounts, those of the qualifying containers in document order;
    containers whose trading-currency attribute is missing or empty are
    skipped without error, and a page with no qualifying container yields
    the empty list. *)
Theorem extract_accounts_qualifying soup :
  Forall (fun d => qualifying d = true ->
                   is_Some (attrs (parent d) !! "data-id"))
         (account_divs soup) ->
  exists accounts,
    extract_accounts soup = Ok accounts /\
    accounts = account_of <$> List.filter qualifying (account_divs soup) /\
    length accounts = length (List.filter qualifying (account_divs soup)) /\
    (List.filter qualifying (account_divs soup) = [] -> accounts = []).
Proof.
  intros H. eexists. split; [by apply extract_accounts_eq|].
  split; [done|]. split; [by rewrite length_fmap|].
  intros E. unfold account_divs in E. by rewrite E.
Qed.

Lemma extract_accounts_qualifying_witness :
  exists accounts,
    extract_accounts accounts_page = Ok accounts /\
    accounts = account_of <$> List.filter qualifying (account_divs accounts_page) /\
    length accounts = length (List.filter qualifying (account_divs accounts_page)) /\
    (List.filter qualifying (account_divs accounts_page) = [] -> accounts = []).
Proof.
  apply (extract_accounts_qualifying accounts_page).
  repeat constructor; intros _; vm_compute; eauto.
Defined.

Example extract_accounts_page :
  extract_accounts accounts_page = Ok [mkAccount "EasyEquities ZAR" "2" "1234"].
Proof. by_compute. Qed.

(** ** One holding row *)

Section ToDict.

Import HoldingDivParser.

Lemma name_Raise d e : name d = Raise e -> e = AttributeError.
Proof.
  unfold name, cell.
  destruct (find _ _); simpl; [done|]. by intros [= <-].
Qed.

Lemma getattr_name d : getattr d "name" = name d.
Proof. reflexivity. Qed.

Lemma foldM_set_field_Ok d fs (m h : Holding) :
  foldM (set_field d) m fs = Ok h ->
  (forall f, f ∈ fs -> exists v, getattr d f = Ok v /\ h !! f = Some v) /\
  (forall f, f ∉ fs -> h !! f = m !! f).
Proof.
  revert m. induction fs as [|x fs IH]; intros m; simpl.
  - intros [= <-]. split; [|done]. intros f Hf. by apply elem_of_nil in Hf.
  - unfold set_field at 2. destruct (getattr d x) as [v|e] eqn:Hx; [|done].
    simpl. intros Hh. destruct (IH _ Hh) as [Hin Hout]. split.
    + intros f [->|Hf]%elem_of_cons; [|by apply Hin].
      destruct (decide (x ∈ fs)) as [Hxfs|Hxfs].
      * destruct (Hin _ Hxfs) as (v' & Hv' & Hl). exists v'. split; congruence.
      * exists v. split; [done|]. by rewrite (Hout _ Hxfs), lookup_insert_eq.
    + intros f [Hne Hf]%not_elem_of_cons.
      by rewrite (Hout _ Hf), lookup_insert_ne.
Qed.

Lemma foldM_set_field_Raise d fs (m : Holding) e :
  foldM (set_field d) m fs = Raise e ->
  exists fs1 f fs2 cause,
    fs = (fs1 ++ f :: fs2)%list /\
    Forall (fun f => is_ok (getattr d f) = true) fs1 /\
    getattr d f = Raise cause /\
    e = HoldingFieldNotFoundException f cause.
Proof.
  revert m. induction fs as [|x fs IH]; intros m; simpl; [done|].
  unfold set_field at 2. destruct (getattr d x) as [v|c] eqn:Hx; simpl.
  - intros (fs1 & f & fs2 & cause & -> & Hok & Hf & ->)%IH.
    exists (x :: fs1), f, fs2, cause. repeat split; try done.
    constructor; [by rewrite Hx|done].
  - intros [= <-]. exists [], x, fs, c. by repeat split.
Qed.

(** [to_dict] returns a dictionary only with all eight fields in it. *)
Lemma to_dict_Ok d h :
  to_dict d = Ok h ->
  forall f, f ∈ fields -> exists v, getattr d f = Ok v /\ h !! f = Some v.
Proof. intros H. by apply (foldM_set_field_Ok _ _ _ _ H). Qed.

(** What [to_dict] raises names the first field that cannot be read. *)
Lemma to_dict_Raise d e :
  to_dict d = Raise e ->
  exists fs1 f fs2 cause,
    fields = (fs1 ++ f :: fs2)%list /\
    Forall (fun f => is_ok (getattr d f) = true) fs1 /\
    getattr d f = Raise cause /\
    e = HoldingFieldNotFoundException f cause.
Proof. apply foldM_set_field_Raise. Qed.


Lemma to_dict_name d h :
  to_dict d = Ok h ->
  exists n, name d = Ok n /\ holding_name h = Some n.
Proof.
  intros H. apply (to_dict_Ok _ _ H "name"). apply elem_of_cons. by left.
Qed.

End ToDict.

(** ** The set of rows *)

Section SetOfRows.

Import HoldingDivParser.

(** [__eq__] holds exactly when both names can be read and are the same. *)
Lemma eq_names a b :
  eq a b = Ok true <-> exists n, name a = Ok n /\ name b = Ok n.
Proof.
  unfold eq. destruct (name a) as [x|]; simpl.
  - destruct (name b) as [y|]; simpl.
    + destruct (String.eqb_spec x y) as [->|Hne].
      * split; eauto.
      * split; [done|]. intros (n & [= <-] & [= <-]). done.
    + split; [done|]. by intros (n & _ & ?).
  - split; [done|]. by intros (n & ? & _).
Qed.

Lemma existsb_key (s : NameSet.t) h :
  existsb (fun e => String.eqb e.1 h) s = bool_decide (h ∈ s.*1).
Proof.
  induction s as [|[k x] s IH]; simpl; [done|].
  rewrite IH. destruct (String.eqb_spec k h) as [->|Hne]; simpl.
  - symmetry. apply bool_decide_eq_true. apply elem_of_cons. by left.
  - apply bool_decide_ext. rewrite elem_of_cons.
    split; [by right|]. by intros [->|?].
Qed.

Lemma add_Ok s x s' :
  NameSet.add s x = Ok s' <->
  exists n, name x = Ok n /\
            s' = if bool_decide (n ∈ s.*1) then s else (s ++ [(n, x)])%list.
Proof.
  unfold NameSet.add. destruct (name x) as [n|e]; simpl.
  - rewrite existsb_key. split.
    + intros H. exists n. split; [done|]. destruct (bool_decide _); congruence.
    + intros (n' & [= <-] & ->). by destruct (bool_decide _).
  - split; [done|]. by intros (? & ? & _).
Qed.

Lemma set_wf_add s x s' : set_wf s -> NameSet.add s x = Ok s' -> set_wf s'.
Proof.
  intros [Hnd Hall] (n & Hn & ->)%add_Ok.
  destruct (bool_decide_reflect (n ∈ s.*1)) as [Hin|Hin]; [done|].
  split.
  - rewrite fmap_app. simpl. apply NoDup_app. split; [done|].
    split; [|apply NoDup_singleton]. intros k Hk ->%list_elem_of_singleton. done.
  - apply Forall_app. split; [done|]. by constructor.
Qed.

Lemma foldM_add_Ok s l s' :
  set_wf s -> foldM NameSet.add s l = Ok s' ->
  set_wf s' /\
  (forall k, k ∈ s.*1 -> k ∈ s'.*1) /\
  (forall d, d ∈ l -> exists n, name d = Ok n /\ n ∈ s'.*1) /\
  (forall e, e ∈ s' -> e ∈ s \/ e.2 ∈ l).
Proof.
  revert s. induction l as [|x l IH]; intros s Hwf; simpl.
  - intros [= <-]. split; [done|]. split; [done|]. split; [|by left].
    intros d Hd. by apply elem_of_nil in Hd.
  - destruct (NameSet.add s x) as [s1|e] eqn:Hadd; [|done]. simpl.
    intros Hs'. pose proof (set_wf_add _ _ _ Hwf Hadd) as Hwf1.
    destruct (IH _ Hwf1 Hs') as (Hwf' & Hsub & Hl & Hfrom).
    apply add_Ok in Hadd as (n & Hn & ->).
    split; [done|]. split; [|split].
    + intros k Hk. apply Hsub.
      destruct (bool_decide _); [done|].
      rewrite fmap_app. apply elem_of_app. by left.
    + intros d [->|Hd]%elem_of_cons; [|by apply Hl].
      exists n. split; [done|]. apply Hsub.
      destruct (bool_decide_reflect (n ∈ s.*1)); [done|].
      rewrite fmap_app. apply elem_of_app. right. by apply list_elem_of_singleton.
    + intros e He. destruct (Hfrom _ He) as [H1|H1].
      * destruct (bool_decide _); [by left|].
        apply elem_of_app in H1 as [?|H1]; [by left|].
        apply list_elem_of_singleton in H1 as ->.
        right. apply elem_of_cons. by left.
      * right. apply elem_of_cons. by right.
Qed.

Lemma foldM_add_distinct s l ns :
  Forall2 (fun d n => name d = Ok n) l ns ->
  NoDup (s.*1 ++ ns) ->
  foldM NameSet.add s l = Ok (s ++ zip ns l)%list.
Proof.
  intros H. revert s. induction H as [|d n l ns Hd _ IH]; intros s Hnd; simpl.
  - by rewrite app_nil_r.
  - assert (NameSet.add s d = Ok (s ++ [(n, d)])%list) as ->.
    { apply add_Ok. exists n. split; [done|].
      rewrite bool_decide_eq_false_2; [done|].
      apply NoDup_app in Hnd as (_ & Hdisj & _). intros Hin.
      apply (Hdisj _ Hin). apply elem_of_cons. by left. }
    simpl. rewrite IH.
    + by rewrite <- app_assoc.
    + rewrite fmap_app. simpl. by rewrite <- app_assoc.
Qed.

Lemma foldM_add_Raise s l d e :
  d ∈ l -> name d = Raise e -> foldM NameSet.add s l = Raise AttributeError.
Proof.
  revert s. induction l as [|x l IH]; intros s Hin Hd.
  - by apply elem_of_nil in Hin.
  - simpl. unfold NameSet.add at 2.
    destruct (name x) as [n|e'] eqn:Hx; simpl.
    + apply elem_of_cons in Hin as [->|Hin]; [congruence|].
      destruct (existsb _ s); simpl; by apply IH.
    + by rewrite (name_Raise _ _ Hx).
Qed.

Lemma of_list_Ok l s :
  NameSet.of_list l = Ok s ->
  set_wf s /\
  (forall d, d ∈ l -> exists n, name d = Ok n /\ n ∈ s.*1) /\
  (forall d, d ∈ NameSet.elements s -> d ∈ l).
Proof.
  intros H. assert (set_wf []) as Hwf0 by (split; constructor).
  destruct (foldM_add_Ok _ _ _ Hwf0 H) as (Hwf & _ & Hl & Hfrom).
  split; [done|]. split; [done|].
  intros d (e & -> & He)%list_elem_of_fmap.
  destruct (Hfrom _ He) as [Hnil|?]; [|done]. by apply elem_of_nil in Hnil.
Qed.

Lemma of_list_distinct l ns :
  Forall2 (fun d n => name d = Ok n) l ns -> NoDup ns ->
  exists s, NameSet.of_list l = Ok s /\ NameSet.elements s = l.
Proof.
  intros H Hnd. exists (zip ns l). split.
  - by apply (foldM_add_distinct [] l ns).
  - unfold NameSet.elements. apply snd_zip.
    by rewrite (Forall2_length _ _ _ H).
Qed.

End SetOfRows.

(** ** The set of rows goes by name

    [PySet] hashes the rows and compares them with [__eq__]; whatever the
    hash of strings is, it holds the rows [NameSet] holds. *)

Section SetRefinement.

Import HoldingDivParser.

Variable str_hash : string -> Z.

Lemma set_wf_tail k ks : set_wf (k :: ks) -> set_wf ks.
Proof.
  intros [Hnd Hall]. simpl in Hnd.
  apply NoDup_cons in Hnd as [_ Hnd]. apply Forall_cons in Hall as [_ Hall].
  by split.
Qed.

Lemma lookup_sim s ks x n :
  same_set str_hash s ks -> set_wf ks -> name x = Ok n ->
  PySet.lookup (str_hash n) x s = Ok (bool_decide (n ∈ ks.*1)).
Proof.
  intros Hs Hwf Hx. induction Hs as [|e k s ks [He2 He1] _ IH]; [done|].
  specialize (IH (set_wf_tail _ _ Hwf)).
  destruct Hwf as [_ Hall]. apply Forall_cons in Hall as [Hk _].
  assert (Hstep : k.1 <> n ->
            Ok (bool_decide (n ∈ ks.*1))
            = Ok (bool_decide (n ∈ (k :: ks).*1)) :> result bool).
  { intros Hne. f_equal. apply bool_decide_ext. simpl. rewrite elem_of_cons.
    split; [by right|]. by intros [->|?]. }
  simpl PySet.lookup. rewrite He1, He2.
  destruct (Z.eqb_spec (str_hash k.1) (str_hash n)) as [_|Hne].
  - unfold eq. rewrite Hk, Hx. simpl.
    destruct (String.eqb_spec k.1 n) as [Heq|Hne].
    + f_equal. symmetry. apply bool_decide_eq_true. simpl.
      apply elem_of_cons. by left.
    + rewrite IH. by apply Hstep.
  - rewrite IH. apply Hstep. intros Heq. apply Hne. by rewrite Heq.
Qed.

Lemma same_set_app s ks n x :
  same_set str_hash s ks ->
  same_set str_hash (s ++ [(str_hash n, x)]) (ks ++ [(n, x)]).
Proof. intros H. apply Forall2_app; [done|]. by repeat constructor. Qed.

Lemma add_sim s ks x :
  same_set str_hash s ks -> set_wf ks ->
  match NameSet.add ks x with
  | Ok ks' => exists s', PySet.add str_hash s x = Ok s' /\ same_set str_hash s' ks'
  | Raise e => PySet.add str_hash s x = Raise e
  end.
Proof.
  intros Hs Hwf. unfold NameSet.add, PySet.add, hash.
  destruct (name x) as [n|e] eqn:Hx; simpl; [|done].
  rewrite (lookup_sim _ _ _ _ Hs Hwf Hx), existsb_key. simpl.
  destruct (bool_decide (n ∈ ks.*1)); eexists; split; try done.
  by apply same_set_app.
Qed.

Lemma foldM_add_sim s ks l :
  same_set str_hash s ks -> set_wf ks ->
  match foldM NameSet.add ks l with
  | Ok ks' =>
      exists s', foldM (PySet.add str_hash) s l = Ok s' /\ same_set str_hash s' ks'
  | Raise e => foldM (PySet.add str_hash) s l = Raise e
  end.
Proof.
  revert s ks. induction l as [|x l IH]; intros s ks Hs Hwf; simpl; [eauto|].
  pose proof (add_sim _ _ x Hs Hwf) as Hadd.
  destruct (NameSet.add ks x) as [ks1|e] eqn:Hk; simpl.
  - destruct Hadd as (s1 & -> & Hs1). simpl.
    apply IH; [done|]. by apply (set_wf_add _ _ _ Hwf Hk).
  - by rewrite Hadd.
Qed.

Lemma same_set_elements s ks :
  same_set str_hash s ks -> PySet.elements s = NameSet.elements ks.
Proof.
  unfold PySet.elements, NameSet.elements.
  induction 1 as [|e k s ks [He _] _ IH]; simpl; [done|]. by f_equal.
Qed.

Lemma of_list_sim l :
  match NameSet.of_list l with
  | Ok ks =>
      exists s, PySet.of_list str_hash l = Ok s /\
                PySet.elements s = NameSet.elements ks
  | Raise e => PySet.of_list str_hash l = Raise e
  end.
Proof.
  unfold NameSet.of_list, PySet.of_list.
  assert (same_set str_hash [] []) as H0 by constructor.
  assert (set_wf []) as Hwf0 by (split; constructor).
  pose proof (foldM_add_sim [] [] l H0 Hwf0) as H.
  destruct (foldM NameSet.add [] l) as [ks|e]; [|done].
  destruct H as (s & Hs & Hsame). exists s. split; [done|].
  by apply same_set_elements.
Qed.

(** What follows the building of the set sees the rows only. *)
Lemma of_list_bind {B} (k : list HoldingDivParser.t -> result B) l :
  PySet.of_list str_hash l ≫= (fun s => k (PySet.elements s))
  = NameSet.of_list l ≫= (fun ks => k (NameSet.elements ks)).
Proof.
  pose proof (of_list_sim l) as H.
  destruct (NameSet.of_list l) as [ks|e]; simpl.
  - destruct H as (s & -> & Hel). simpl. by rewrite Hel.
  - by rewrite H.
Qed.


End SetRefinement.

(** ** The rows that stay in the set *)

Section FirstRows.

Import HoldingDivParser.

Lemma foldM_add_first_rows s l s' :
  foldM NameSet.add s l = Ok s' ->
  NameSet.elements s' = (NameSet.elements s ++ first_rows s.*1 l)%list.
Proof.
  revert s. induction l as [|x l IH]; intros s; simpl.
  - intros [= <-]. by rewrite app_nil_r.
  - destruct (NameSet.add s x) as [s1|] eqn:Hadd; [|done]. simpl.
    intros Hs'. apply add_Ok in Hadd as (n & -> & ->).
    rewrite (IH _ Hs'). destruct (bool_decide (n ∈ s.*1)); [done|].
    unfold NameSet.elements. rewrite !fmap_app. simpl.
    by rewrite <- app_assoc.
Qed.

Lemma of_list_first_rows l s :
  NameSet.of_list l = Ok s -> NameSet.elements s = first_rows [] l.
Proof. apply foldM_add_first_rows. Qed.

Lemma foldM_add_total s l :
  Forall (fun d => is_ok (name d) = true) l ->
  exists s', foldM NameSet.add s l = Ok s'.
Proof.
  intros H. revert s. induction H as [|x l Hx _ IH]; intros s; simpl; [eauto|].
  unfold NameSet.add at 2. destruct (name x) as [n|]; [|done]. simpl.
  destruct (existsb _ s); simpl; apply IH.
Qed.

(** A row is left exactly when its name can be read, is not in [seen] and
    is not that of a row before it. *)
Lemma elem_of_first_rows seen l d :
  d ∈ first_rows seen l <->
  exists i n,
    l !! i = Some d /\ name d = Ok n /\ (n ∉ seen) /\
    forall j d', (j < i)%nat -> l !! j = Some d' -> name d' <> Ok n.
Proof.
  revert seen. induction l as [|x l IH]; intros seen; simpl.
  - split; [by intros ?%elem_of_nil|]. by intros (i & n & ? & _).
  - destruct (name x) as [m|e] eqn:Hx.
    + destruct (bool_decide_reflect (m ∈ seen)) as [Hm|Hm].
      * rewrite IH. split.
        -- intros (i & n & Hi & Hn & Hs & Hf). exists (S i), n.
           repeat split; try done. intros [|j] d' Hj Hd'; simpl in Hd'.
           ++ injection Hd' as <-. rewrite Hx. intros [= ->]. done.
           ++ apply (Hf j); [lia|done].
        -- intros ([|i] & n & Hi & Hn & Hs & Hf); simpl in Hi.
           ++ injection Hi as <-. congruence.
           ++ exists i, n. repeat split; try done.
              intros j d' Hj Hd'. apply (Hf (S j)); [lia|done].
      * rewrite elem_of_cons, IH. split.
        -- intros [->|(i & n & Hi & Hn & Hs & Hf)].
           ++ exists 0%nat, m. repeat split; try done. intros j d' Hj. lia.
           ++ exists (S i), n. repeat split; try done.
              ** intros Hin. apply Hs, elem_of_app. by left.
              ** intros [|j] d' Hj Hd'; simpl in Hd'.
                 --- injection Hd' as <-. rewrite Hx. intros [= ->].
                     apply Hs, elem_of_app. right. by apply list_elem_of_singleton.
                 --- apply (Hf j); [lia|done].
        -- intros ([|i] & n & Hi & Hn & Hs & Hf); simpl in Hi.
           ++ left. by injection Hi as <-.
           ++ right. exists i, n. repeat split; try done.
              ** intros [Hin| ->%list_elem_of_singleton]%elem_of_app; [done|].
                 by apply (Hf 0%nat x); [lia| |].
              ** intros j d' Hj Hd'. apply (Hf (S j)); [lia|done].
    + rewrite IH. split.
      * intros (i & n & Hi & Hn & Hs & Hf). exists (S i), n.
        repeat split; try done. intros [|j] d' Hj Hd'; simpl in Hd'.
        -- injection Hd' as <-. by rewrite Hx.
        -- apply (Hf j); [lia|done].
      * intros ([|i] & n & Hi & Hn & Hs & Hf); simpl in Hi.
        -- injection Hi as <-. congruence.
        -- exists i, n. repeat split; try done.
           intros j d' Hj Hd'. apply (Hf (S j)); [lia|done].
Qed.

Lemma first_rows_distinct seen l ns :
  Forall2 (fun d n => name d = Ok n) l ns -> NoDup (seen ++ ns) ->
  first_rows seen l = l.
Proof.
  intros H. revert seen. induction H as [|d n l ns Hd _ IH]; intros seen Hnd;
    simpl; [done|].
  rewrite Hd. rewrite bool_decide_eq_false_2.
  - f_equal. apply IH. by rewrite <- app_assoc.
  - apply NoDup_app in Hnd as (_ & Hdisj & _). intros Hin.
    apply (Hdisj _ Hin). apply elem_of_cons. by left.
Qed.

End FirstRows.

(** ** The holdings page *)

Lemma not_in_header_Ok d :
  has_class d -> not_in_header d = Ok (negb (under_header d)).
Proof.
  unfold has_class, not_in_header, under_header.
  by intros [cls ->].
Qed.

Lemma not_in_header_inv d b :
  not_in_header d = Ok b -> has_class d /\ b = negb (under_header d).
Proof.
  unfold has_class, not_in_header, under_header.
  destruct (class_ (parent d)); [|done]. intros [= <-]. eauto.
Qed.

Lemma filterM_not_in_header_Ok l rows :
  filterM not_in_header l = Ok rows <->
  Forall has_class l /\
  rows = List.filter (fun d => negb (under_header d)) l.
Proof.
  split.
  - revert rows. induction l as [|d l IH]; intros rows; simpl.
    + intros [= <-]. by split.
    + destruct (not_in_header d) as [b|] eqn:Hd; [|done]. simpl.
      apply not_in_header_inv in Hd as [Hd ->].
      destruct (filterM not_in_header l) as [r|] eqn:Hl; [|done]. simpl.
      destruct (IH _ eq_refl) as [Hall ->]. intros [= <-].
      split; [by constructor|done].
  - intros [Hall ->]. apply filterM_Ok.
    eapply Forall_impl; [done|]. apply not_in_header_Ok.
Qed.

Lemma filterM_not_in_header_KeyError l i d :
  l !! i = Some d -> class_ (parent d) = None ->
  filterM not_in_header l = Raise (KeyError "class").
Proof.
  revert i. induction l as [|x l IH]; intros [|i]; simpl; try done.
  - intros [= ->] Hd. unfold not_in_header. by rewrite Hd.
  - intros Hi Hd. rewrite (IH _ Hi Hd).
    unfold not_in_header. by destruct (class_ (parent x)).
Qed.

Lemma extract_holdings_set str_hash set_iter soup :
  Forall has_class (tail (holdings_divs soup)) ->
  extract_holdings str_hash set_iter soup =
  PySet.of_list str_hash (data_rows soup) ≫= fun divs =>
    traverse HoldingDivParser.to_dict (set_iter (PySet.elements divs)).
Proof.
  intros H. unfold extract_holdings.
  fold (holdings_divs soup).
  assert (filterM not_in_header (tail (holdings_divs soup)) = Ok
            (List.filter (fun d => negb (under_header d))
                         (tail (holdings_divs soup)))) as ->.
  { by apply filterM_not_in_header_Ok. }
  done.
Qed.

(** Whatever the hash of strings, the page is read as with a set keyed by
    the names of the rows. *)
Lemma extract_holdings_data_rows str_hash set_iter soup :
  Forall has_class (tail (holdings_divs soup)) ->
  extract_holdings str_hash set_iter soup =
  NameSet.of_list (data_rows soup) ≫= fun divs =>
    traverse HoldingDivParser.to_dict (set_iter (NameSet.elements divs)).
Proof.
  intros H. rewrite (extract_holdings_set _ _ _ H).
  apply (of_list_bind str_hash
           (fun l => traverse HoldingDivParser.to_dict (set_iter l))).
Qed.

Lemma extract_holdings_Ok str_hash set_iter soup hs :
  extract_holdings str_hash set_iter soup = Ok hs ->
  Forall has_class (tail (holdings_divs soup)) /\
  exists s, NameSet.of_list (data_rows soup) = Ok s /\
            traverse HoldingDivParser.to_dict (set_iter (NameSet.elements s)) = Ok hs.
Proof.
  intros H. assert (Forall has_class (tail (holdings_divs soup))) as Hc.
  { unfold extract_holdings in H. fold (holdings_divs soup) in H.
    apply bind_Ok in H as (rows & Hrows & _).
    by apply filterM_not_in_header_Ok in Hrows as [? _]. }
  split; [done|].
  rewrite (extract_holdings_data_rows _ _ _ Hc) in H.
  by apply bind_Ok in H.
Qed.

Section SetOrder.

(** The order in which Python iterates over a set is not specified: any
    function that returns the elements it is given, each once. *)
Variable str_hash : string -> Z.
Variable set_iter : list HoldingDivParser.t -> list HoldingDivParser.t.
Hypothesis set_iter_perm : forall l, set_iter l ≡ₚ l.

Lemma set_iter_singleton d : set_iter [d] = [d].
Proof. apply Permutation_singleton_r, set_iter_perm. Qed.

Lemma elem_of_set_iter d l : d ∈ set_iter l <-> d ∈ l.
Proof. by rewrite set_iter_perm. Qed.

(** With names that differ and rows that can all be read, every data row
    gives one record. *)
Lemma extract_holdings_distinct soup ns :
  Forall has_class (tail (holdings_divs soup)) ->
  Forall2 (fun d n => HoldingDivParser.name d = Ok n) (data_rows soup) ns ->
  NoDup ns ->
  Forall (fun d => is_ok (HoldingDivParser.to_dict d) = true) (data_rows soup) ->
  exists hs,
    extract_holdings str_hash set_iter soup = Ok hs /\
    Ok <$> hs ≡ₚ HoldingDivParser.to_dict <$> data_rows soup /\
    length hs = length (data_rows soup).
Proof.
  intros Hc Hn Hnd Hok.
  rewrite (extract_holdings_data_rows _ _ _ Hc).
  destruct (of_list_distinct _ _ Hn Hnd) as (s & -> & Hel). simpl.
  rewrite Hel. clear s Hel.
  destruct (traverse HoldingDivParser.to_dict (set_iter (data_rows soup)))
    as [hs|e] eqn:Ht.
  - exists hs. split; [done|]. apply traverse_Ok in Ht.
    assert (HoldingDivParser.to_dict <$> set_iter (data_rows soup) = Ok <$> hs) as E.
    { induction Ht as [|???? Hx ? IH]; simpl; [done|].
      f_equal; [exact Hx|exact IH]. }
    split.
    + by rewrite <- E, set_iter_perm.
    + by rewrite <- (Forall2_length _ _ _ Ht), set_iter_perm.
  - apply traverse_Raise in Ht as (l1 & x & l2 & Hl & _ & Hx).
    assert (x ∈ data_rows soup) as Hin.
    { apply elem_of_set_iter. rewrite Hl. apply elem_of_app. right.
      apply elem_of_cons. by left. }
    rewrite Forall_forall in Hok. specialize (Hok _ Hin). by rewrite Hx in Hok.
Qed.

Lemma extract_holdings_names soup hs :
  extract_holdings str_hash set_iter soup = Ok hs ->
  exists s,
    NameSet.of_list (data_rows soup) = Ok s /\
    holding_name <$> hs ≡ₚ Some <$> s.*1.
Proof.
  intros (_ & s & Hs & Ht)%extract_holdings_Ok. exists s. split; [done|].
  destruct (of_list_Ok _ _ Hs) as ((_ & Hname) & _ & _).
  apply traverse_Ok in Ht.
  set (nm := fun d => match HoldingDivParser.name d with
                      | Ok n => Some n
                      | Raise _ => None
                      end).
  assert (holding_name <$> hs = nm <$> set_iter (NameSet.elements s)) as ->.
  { induction Ht as [|d h ?? Hd ? IH]; simpl; [done|]. f_equal; [|exact IH].
    apply to_dict_name in Hd as (n & Hn & ->). unfold nm. by rewrite Hn. }
  rewrite set_iter_perm. unfold NameSet.elements.
  assert (nm <$> s.*2 = Some <$> s.*1) as ->; [|done].
  clear Hs Ht. induction Hname as [|[k d] s Hd _ IH]; simpl; [done|]. f_equal; [|exact IH].
  unfold nm. simpl in Hd. by rewrite Hd.
Qed.

End SetOrder.


Section Holdings.

Import HoldingDivParser.

Variable str_hash : string -> Z.
Variable set_iter : list HoldingDivParser.t -> list HoldingDivParser.t.
Hypothesis set_iter_perm : forall l, set_iter l ≡ₚ l.

(** When the set of rows has one element the order does not matter. *)
Lemma extract_holdings_single soup h :
  extract_holdings str_hash insertion_order soup = Ok [h] ->
  extract_holdings str_hash set_iter soup = Ok [h].
Proof.
  intros (Hc & s & Hs & Ht)%extract_holdings_Ok.
  rewrite (extract_holdings_data_rows _ _ _ Hc), Hs. simpl.
  unfold insertion_order in Ht. apply traverse_Ok in Ht.
  inversion Ht as [|d h' l l' Hd Hnil Hel]; subst. inversion Hnil; subst.
  rewrite (set_iter_singleton _ set_iter_perm). simpl. by rewrite Hd.
Qed.


(** C4: the records of a page have different names, and every name a data
    row carries is that of exactly one record; two rows of one name with
    different images and ISINs give one record, two rows of different
    names with one image and one ISIN give two. *)
Theorem holdings_unique_by_name :
  (forall soup hs,
     extract_holdings str_hash set_iter soup = Ok hs ->
     NoDup (holding_name <$> hs) /\
     forall d n,
       d ∈ data_rows soup -> name d = Ok n ->
       exists i h,
         hs !! i = Some h /\ holding_name h = Some n /\
         forall j h', hs !! j = Some h' -> holding_name h' = Some n -> j = i) /\
  extract_holdings str_hash set_iter (holdings_table [row_abc; row_abc_again])
  = Ok [holding_abc] /\
  (exists hs,
     extract_holdings str_hash set_iter
       (holdings_table [row_abc; row_abc_renamed]) = Ok hs /\
     length hs = 2%nat).
Proof.
  split; [|split].
  - intros soup hs H.
    destruct (extract_holdings_names _ _ set_iter_perm _ _ H) as (s & Hs & Hperm).
    destruct (of_list_Ok _ _ Hs) as ((Hnd & _) & Hl & _).
    assert (NoDup (holding_name <$> hs)) as Hnd'.
    { rewrite Hperm. by apply (NoDup_fmap_2 _). }
    split; [done|].
    intros d n Hd Hn. destruct (Hl _ Hd) as (n' & Hn' & Hin).
    assert (n' = n) as -> by congruence.
    assert (Some n ∈ holding_name <$> hs) as Hmem.
    { rewrite Hperm. by apply list_elem_of_fmap_2. }
    apply list_elem_of_lookup in Hmem as [i Hi].
    pose proof Hi as Hi'.
    rewrite list_lookup_fmap in Hi'.
    destruct (hs !! i) as [h|] eqn:Hh; [|done]. injection Hi' as Hi'.
    exists i, h. repeat split; try done.
    intros j h' Hj Hn''.
    apply (NoDup_lookup (holding_name <$> hs) j i (Some n) Hnd'); [|done].
    rewrite list_lookup_fmap, Hj. simpl. by rewrite Hn''.
  - apply extract_holdings_single.
    rewrite extract_holdings_data_rows; by_compute.
  - destruct (extract_holdings_distinct str_hash _ set_iter_perm
                (holdings_table [row_abc; row_abc_renamed])
                ["Alpha Ltd"; "Alpha Ltd B"]) as (hs & Hhs & _ & Hlen).
    + by_compute.
    + apply traverse_Ok. by_compute.
    + by_compute.
    + by_compute.
    + exists hs. split; [done|]. rewrite Hlen. vm_compute. reflexivity.
Qed.

(** C6 (amended): the rows that go to field extraction are the matches
    but the first, less those under a parent marked as a header, less
    those whose name is that of an earlier such row.  The records are
    those of the rows that are left; a row is left exactly when no data
    row before it has its name; when the names of the data rows differ
    all of them are left, so a header row followed by three rows of
    different names yields three records, and one followed by two rows of
    one name yields one. *)
Theorem holdings_discards :
  (forall soup hs,
     extract_holdings str_hash set_iter soup = Ok hs ->
     Ok <$> hs ≡ₚ to_dict <$> first_rows [] (data_rows soup)) /\
  (forall soup,
     Forall has_class (tail (holdings_divs soup)) ->
     Forall (fun d => is_ok (name d) = true) (data_rows soup) ->
     Forall (fun d => is_ok (to_dict d) = true)
            (first_rows [] (data_rows soup)) ->
     exists hs,
       extract_holdings str_hash set_iter soup = Ok hs /\
       length hs = length (first_rows [] (data_rows soup))) /\
  (forall l d,
     d ∈ first_rows [] l <->
     exists i n,
       l !! i = Some d /\ name d = Ok n /\
       forall j d', (j < i)%nat -> l !! j = Some d' -> name d' <> Ok n) /\
  (forall l ns,
     Forall2 (fun d n => name d = Ok n) l ns -> NoDup ns ->
     first_rows [] l = l) /\
  (exists hs,
     extract_holdings str_hash set_iter holdings_page = Ok hs /\
     length hs = 3%nat) /\
  (exists hs,
     extract_holdings str_hash set_iter holdings_page_two_headers = Ok hs /\
     length hs = 3%nat) /\
  extract_holdings str_hash set_iter (holdings_table [row_abc; row_abc_again])
  = Ok [holding_abc].
Proof.
  assert (Hrecords : forall soup hs,
     extract_holdings str_hash set_iter soup = Ok hs ->
     Ok <$> hs ≡ₚ to_dict <$> first_rows [] (data_rows soup)).
  { intros soup hs (_ & s & Hs & Ht)%extract_holdings_Ok.
    rewrite <- (of_list_first_rows _ _ Hs). apply traverse_Ok in Ht.
    assert (to_dict <$> set_iter (NameSet.elements s) = Ok <$> hs) as E.
    { induction Ht as [|???? Hx ? IH]; simpl; [done|].
      f_equal; [exact Hx|exact IH]. }
    by rewrite <- E, set_iter_perm. }
  assert (Htotal : forall soup,
     Forall has_class (tail (holdings_divs soup)) ->
     Forall (fun d => is_ok (name d) = true) (data_rows soup) ->
     Forall (fun d => is_ok (to_dict d) = true)
            (first_rows [] (data_rows soup)) ->
     exists hs,
       extract_holdings str_hash set_iter soup = Ok hs /\
       length hs = length (first_rows [] (data_rows soup))).
  { intros soup Hc Hn Hok.
    destruct (foldM_add_total [] _ Hn) as [s Hs].
    destruct (extract_holdings str_hash set_iter soup) as [hs|e] eqn:He.
    - exists hs. split; [done|]. apply Hrecords in He.
      apply Permutation_length in He. by rewrite !length_fmap in He.
    - rewrite (extract_holdings_data_rows _ _ _ Hc) in He.
      change (foldM NameSet.add [] (data_rows soup)) with
        (NameSet.of_list (data_rows soup)) in Hs.
      rewrite Hs in He. simpl in He.
      apply traverse_Raise in He as (l1 & x & l2 & Hl & _ & Hx).
      assert (x ∈ first_rows [] (data_rows soup)) as Hin.
      { rewrite <- (of_list_first_rows _ _ Hs).
        apply (elem_of_set_iter _ set_iter_perm). rewrite Hl.
        apply elem_of_app. right. apply elem_of_cons. by left. }
      rewrite Forall_forall in Hok. specialize (Hok _ Hin).
      by rewrite Hx in Hok. }
  assert (Hthree : forall soup,
     Forall has_class (tail (holdings_divs soup)) ->
     Forall2 (fun d n => name d = Ok n) (data_rows soup)
             ["Alpha Ltd"; "Delta Plc"; "Gamma Inc"] ->
     Forall (fun d => is_ok (to_dict d) = true) (data_rows soup) ->
     exists hs,
       extract_holdings str_hash set_iter soup = Ok hs /\ length hs = 3%nat).
  { intros soup Hc Hn Hok.
    assert (first_rows [] (data_rows soup) = data_rows soup) as Hall.
    { apply (first_rows_distinct [] _ _ Hn). by_compute. }
    destruct (Htotal soup Hc) as (hs & Hhs & Hlen).
    - eapply Forall2_Forall_l; [exact Hn|]. apply Forall_true.
      intros n d Hd. by rewrite Hd.
    - by rewrite Hall.
    - exists hs. split; [done|].
      by rewrite Hlen, Hall, (Forall2_length _ _ _ Hn). }
  split; [exact Hrecords|]. split; [exact Htotal|]. split; [|split].
  - intros l d. rewrite elem_of_first_rows. split.
    + intros (i & n & Hi & Hn & _ & Hf). by exists i, n.
    + intros (i & n & Hi & Hn & Hf). exists i, n.
      repeat split; try done. by intros ?%elem_of_nil.
  - intros l ns Hn Hnd. by apply (first_rows_distinct [] l ns).
  - split; [|split].
    + apply Hthree; [by_compute|apply traverse_Ok; by_compute|by_compute].
    + apply Hthree; [by_compute|apply traverse_Ok; by_compute|by_compute].
    + apply extract_holdings_single.
      rewrite extract_holdings_data_rows; by_compute.
Qed.

(** C10: a match other than the first whose parent has no [class]
    attribute makes the page-level extraction raise [KeyError('class')],
    whatever the rows hold. *)
Theorem holdings_bare_parent_KeyError soup i d :
  tail (holdings_divs soup) !! i = Some d ->
  class_ (parent d) = None ->
  extract_holdings str_hash set_iter soup = Raise (KeyError "class").
Proof.
  intros Hi Hd. unfold extract_holdings. fold (holdings_divs soup).
  by rewrite (filterM_not_in_header_KeyError _ _ _ Hi Hd).
Qed.

End Holdings.

Lemma insertion_order_perm l : insertion_order l ≡ₚ l.
Proof. reflexivity. Qed.



Lemma holdings_unique_by_name_witness :
  (forall soup hs,
     extract_holdings length_hash insertion_order soup = Ok hs ->
     NoDup (holding_name <$> hs) /\
     forall d n,
       d ∈ data_rows soup -> HoldingDivParser.name d = Ok n ->
       exists i h,
         hs !! i = Some h /\ holding_name h = Some n /\
         forall j h', hs !! j = Some h' -> holding_name h' = Some n -> j = i) /\
  extract_holdings length_hash insertion_order
    (holdings_table [row_abc; row_abc_again])
  = Ok [holding_abc] /\
  (exists hs,
     extract_holdings length_hash insertion_order
       (holdings_table [row_abc; row_abc_renamed])
     = Ok hs /\
     length hs = 2%nat).
Proof.
  apply (holdings_unique_by_name length_hash insertion_order).
  intros l. reflexivity.
Defined.

(** C6 (as stated): of three matches the first is discarded and none of
    the other two is under a header; each of the two can be read, to the
    contract codes EQU.ZA.ABC and EQU.ZA.XYZ; the second has the name of
    the first, and the page yields the record of the first alone. *)
Lemma same_name_row_discarded :
  length (holdings_divs (holdings_table [row_abc; row_abc_again])) = 3%nat /\
  under_header <$> tail (holdings_divs (holdings_table [row_abc; row_abc_again]))
  = [false; false] /\
  HoldingDivParser.contract_code <$>
    data_rows (holdings_table [row_abc; row_abc_again])
  = [Ok "EQU.ZA.ABC"; Ok "EQU.ZA.XYZ"] /\
  (fun d => is_ok (HoldingDivParser.to_dict d)) <$>
    data_rows (holdings_table [row_abc; row_abc_again])
  = [true; true] /\
  HoldingDivParser.name <$> data_rows (holdings_table [row_abc; row_abc_again])
  = [Ok "Alpha Ltd"; Ok "Alpha Ltd"] /\
  (forall str_hash set_iter,
     (forall l, set_iter l ≡ₚ l) ->
     extract_holdings str_hash set_iter (holdings_table [row_abc; row_abc_again])
     = Ok [holding_abc]) /\
  holding_abc !! "contract_code" = Some "EQU.ZA.ABC".
Proof.
  repeat split; try by_compute.
  intros str_hash set_iter Hperm.
  apply extract_holdings_single; [done|].
  rewrite extract_holdings_data_rows; by_compute.
Qed.

Lemma holdings_discards_witness :
  exists hs,
    extract_holdings length_hash insertion_order
      (holdings_table [row_abc; row_abc_again]) = Ok hs /\
    length hs
    = length (first_rows [] (data_rows (holdings_table [row_abc; row_abc_again]))).
Proof.
  apply (proj1 (proj2 (holdings_discards length_hash insertion_order
                         insertion_order_perm))); by_compute.
Defined.

Lemma holdings_bare_parent_witness :
  extract_holdings length_hash insertion_order holdings_page_bare_parent
  = Raise (KeyError "class").
Proof.
  destruct (option_witness
              (tail (holdings_divs holdings_page_bare_parent) !! 1%nat)
              (fun d => bool_decide (class_ (parent d) = None)))
    as (d & Hd & Hp%bool_decide_eq_true); [vm_compute; reflexivity|].
  exact (holdings_bare_parent_KeyError length_hash insertion_order
           holdings_page_bare_parent 1%nat d Hd Hp).
Defined.

(** ** Dates *)

Section Dates.

Import PyDate.

Lemma float_digit_Some c v :
  PyFloat.digit c = Some v -> (v < 10)%N /\ c = ascii_of_N (48 + v).
Proof.
  unfold PyFloat.digit.
  destruct ((48 <=? N_of_ascii c)%N && (N_of_ascii c <=? 57)%N) eqn:E; [|done].
  apply andb_true_iff in E as [H1%N.leb_le H2%N.leb_le].
  intros [= <-]. split; [lia|].
  replace (48 + (N_of_ascii c - 48))%N with (N_of_ascii c) by lia.
  by rewrite ascii_N_embedding.
Qed.

Lemma float_digit_char v :
  (v < 10)%N -> PyFloat.digit (ascii_of_N (48 + v)) = Some v.
Proof.
  intros Hv. unfold PyFloat.digit.
  rewrite N_ascii_embedding by lia.
  replace ((48 <=? 48 + v)%N && (48 + v <=? 57)%N) with true.
  - f_equal. lia.
  - symmetry. apply andb_true_iff. split; apply N.leb_le; lia.
Qed.

Lemma digit_Some c z :
  digit c = Some z <-> (0 <= z < 10)%Z /\ c = digit_char z.
Proof.
  unfold digit, digit_char. split.
  - destruct (PyFloat.digit c) as [v|] eqn:E; [|done].
    intros [= <-]. apply float_digit_Some in E as [Hv ->].
    split; [lia|]. by rewrite N2Z.id.
  - intros [Hz ->]. rewrite float_digit_char by lia. simpl. f_equal. lia.
Qed.

Lemma digits2_Some a b z :
  digits2 a b = Some z <->
  (0 <= z < 100)%Z /\ a = digit_char (z / 10) /\ b = digit_char (z mod 10).
Proof.
  unfold digits2. split.
  - destruct (digit a) as [x|] eqn:Ha; [|done].
    destruct (digit b) as [y|] eqn:Hb; [|done]. simpl. intros [= <-].
    apply digit_Some in Ha as [Hx ->]. apply digit_Some in Hb as [Hy ->].
    replace ((10 * x + y) / 10)%Z with x by (Z.div_mod_to_equations; lia).
    replace ((10 * x + y) mod 10)%Z with y by (Z.div_mod_to_equations; lia).
    split; [lia|done].
  - intros (Hz & -> & ->).
    assert (digit (digit_char (z / 10)) = Some (z / 10)%Z) as ->.
    { apply digit_Some. split; [|done]. Z.div_mod_to_equations; lia. }
    assert (digit (digit_char (z mod 10)) = Some (z mod 10)%Z) as ->.
    { apply digit_Some. split; [|done]. Z.div_mod_to_equations; lia. }
    simpl. f_equal. Z.div_mod_to_equations; lia.
Qed.

Lemma digits4_Some a b c d z :
  digits4 a b c d = Some z <->
  (0 <= z < 10000)%Z /\
  a = digit_char (z / 1000) /\ b = digit_char (z / 100 mod 10) /\
  c = digit_char (z / 10 mod 10) /\ d = digit_char (z mod 10).
Proof.
  unfold digits4. split.
  - destruct (digits2 a b) as [x|] eqn:Hab; [|done].
    destruct (digits2 c d) as [y|] eqn:Hcd; [|done]. simpl. intros [= <-].
    apply digits2_Some in Hab as (Hx & -> & ->).
    apply digits2_Some in Hcd as (Hy & -> & ->).
    replace ((100 * x + y) / 1000)%Z with (x / 10)%Z
      by (Z.div_mod_to_equations; lia).
    replace ((100 * x + y) / 100 mod 10)%Z with (x mod 10)%Z
      by (Z.div_mod_to_equations; lia).
    replace ((100 * x + y) / 10 mod 10)%Z with (y / 10)%Z
      by (Z.div_mod_to_equations; lia).
    replace ((100 * x + y) mod 10)%Z with (y mod 10)%Z
      by (Z.div_mod_to_equations; lia).
    split; [lia|done].
  - intros (Hz & -> & -> & -> & ->).
    assert (digits2 (digit_char (z / 1000)) (digit_char (z / 100 mod 10))
            = Some (z / 100)%Z) as ->.
    { apply digits2_Some. split; [Z.div_mod_to_equations; lia|].
      split; f_equal; Z.div_mod_to_equations; lia. }
    assert (digits2 (digit_char (z / 10 mod 10)) (digit_char (z mod 10))
            = Some (z mod 100)%Z) as ->.
    { apply digits2_Some. split; [Z.div_mod_to_equations; lia|].
      split; f_equal; Z.div_mod_to_equations; lia. }
    simpl. f_equal. Z.div_mod_to_equations; lia.
Qed.

Lemma new_Ok y m d x :
  new y m d = Ok x <-> valid_date x /\ x = mkdate y m d.
Proof.
  unfold new, valid_date.
  destruct ((1 <=? y)%Z && (y <=? 9999)%Z && (1 <=? m)%Z && (m <=? 12)%Z
            && (1 <=? d)%Z && (d <=? days_in_month y m)%Z) eqn:E.
  - repeat (apply andb_true_iff in E as [E ?]).
    split.
    + intros [= <-]. simpl. split; [lia|done].
    + by intros [_ ->].
  - split; [done|]. intros [(H1 & H2 & H3) ->]. simpl in *.
    assert ((1 <=? y)%Z && (y <=? 9999)%Z && (1 <=? m)%Z && (m <=? 12)%Z
            && (1 <=? d)%Z && (d <=? days_in_month y m)%Z = true); [|congruence].
    repeat (apply andb_true_iff; split); apply Z.leb_le; lia.
Qed.

Lemma days_in_month_le y m : (days_in_month y m <= 31)%Z.
Proof. unfold days_in_month. repeat case_match; lia. Qed.

(** [fromisoformat] accepts the strings [YYYY-MM-DD] of the valid dates
    and nothing else. *)
Lemma fromisoformat_Ok s d :
  fromisoformat s = Ok d <-> valid_date d /\ s = isoformat d.
Proof.
  split.
  - destruct s as [|y1 [|y2 [|y3 [|y4 [|s1 [|m1 [|m2 [|s2 [|d1 [|d2 [|]]]]]]]]]]];
      try done.
    unfold fromisoformat.
    destruct (digits4 y1 y2 y3 y4) as [y|] eqn:Hy; [|done].
    destruct (digits2 m1 m2) as [m|] eqn:Hm; [|done].
    destruct (digits2 d1 d2) as [dd|] eqn:Hd; [|done].
    destruct (Ascii.eqb s1 "-" && Ascii.eqb s2 "-") eqn:Hsep; [|done].
    apply andb_true_iff in Hsep as [->%Ascii.eqb_eq ->%Ascii.eqb_eq].
    intros [Hv ->]%new_Ok. split; [done|].
    apply digits4_Some in Hy as (_ & -> & -> & -> & ->).
    apply digits2_Some in Hm as (_ & -> & ->).
    by apply digits2_Some in Hd as (_ & -> & ->).
  - intros [Hv ->]. pose proof Hv as (Hy & Hm & Hd).
    pose proof (days_in_month_le (year d) (month d)).
    unfold isoformat, fromisoformat.
    assert (digits4 (digit_char (year d / 1000)) (digit_char (year d / 100 mod 10))
              (digit_char (year d / 10 mod 10)) (digit_char (year d mod 10))
            = Some (year d)) as ->.
    { apply digits4_Some. split; [lia|done]. }
    assert (digits2 (digit_char (month d / 10)) (digit_char (month d mod 10))
            = Some (month d)) as ->.
    { apply digits2_Some. split; [lia|done]. }
    assert (digits2 (digit_char (day d / 10)) (digit_char (day d mod 10))
            = Some (day d)) as ->.
    { apply digits2_Some. split; [lia|done]. }
    simpl. apply new_Ok. split; [done|]. by destruct d.
Qed.

Lemma fromisoformat_Raise s e : fromisoformat s = Raise e -> e = ValueError.
Proof.
  unfold fromisoformat, new.
  repeat case_match; congruence.
Qed.

(** *** CPython 3.11 *)

Lemma fromisoformat_311_Raise s e : fromisoformat_311 s = Raise e -> e = ValueError.
Proof.
  unfold fromisoformat_311, new.
  repeat case_match; congruence.
Qed.

Lemma fromisoformat_311_valid s d : fromisoformat_311 s = Ok d -> valid_date d.
Proof.
  unfold fromisoformat_311.
  repeat case_match; try done. by intros [? _]%new_Ok.
Qed.

Lemma utf8_digit x s :
  (0 <= x < 10)%Z -> utf8 (String (digit_char x) s) = (48 + x)%Z :: utf8 s.
Proof.
  intros Hx. unfold digit_char. simpl utf8.
  rewrite N_ascii_embedding by lia.
  replace (Z.of_N (48 + Z.to_N x)) with (48 + x)%Z by lia.
  destruct (Z.ltb_spec (48 + x) 128); [done|lia].
Qed.

Lemma parse_digits_step dtstr p var k x :
  dtstr !! p = Some (48 + x)%Z -> (0 <= x < 10)%Z ->
  parse_digits dtstr p var (S k)
  = parse_digits dtstr (S p) (10 * var + x)%Z k.
Proof.
  intros Hp Hx. simpl. unfold byte. rewrite Hp. simpl default.
  replace (48 + x - 48)%Z with x by lia.
  destruct (Z.leb_spec 0 x); [|lia]. destruct (Z.leb_spec x 9); [done|lia].
Qed.

Lemma parse_isoformat_date_dashes dtstr len y m d :
  parse_digits dtstr 0 0 4 = Some (4%nat, y) ->
  byte dtstr 4 = 45%Z -> byte dtstr 5 <> 87%Z ->
  parse_digits dtstr 5 0 2 = Some (7%nat, m) ->
  byte dtstr 7 = 45%Z ->
  parse_digits dtstr 8 0 2 = Some (10%nat, d) ->
  parse_isoformat_date dtstr len = Some (y, m, d).
Proof.
  intros Hy H4 H5 Hm H7 Hd. unfold parse_isoformat_date.
  rewrite Hy. cbn -[parse_digits byte]. rewrite H4. cbn -[parse_digits byte].
  destruct (Z.eqb_spec (byte dtstr 5) 87) as [?|_]; [done|].
  rewrite Hm. cbn -[parse_digits byte]. rewrite H7. cbn -[parse_digits byte].
  by rewrite Hd.
Qed.

(** The bytes of [YYYY-MM-DD] are read as the year, the month and the
    day. *)
Lemma parse_isoformat_date_plain y1 y2 y3 y4 m1 m2 d1 d2 :
  (0 <= y1 < 10)%Z -> (0 <= y2 < 10)%Z -> (0 <= y3 < 10)%Z ->
  (0 <= y4 < 10)%Z -> (0 <= m1 < 10)%Z -> (0 <= m2 < 10)%Z ->
  (0 <= d1 < 10)%Z -> (0 <= d2 < 10)%Z ->
  parse_isoformat_date
    [48 + y1; 48 + y2; 48 + y3; 48 + y4; 45; 48 + m1; 48 + m2; 45;
     48 + d1; 48 + d2]%Z 10
  = Some (1000 * y1 + 100 * y2 + 10 * y3 + y4, 10 * m1 + m2, 10 * d1 + d2)%Z.
Proof.
  intros Hy1 Hy2 Hy3 Hy4 Hm1 Hm2 Hd1 Hd2.
  set (dtstr := [48 + y1; 48 + y2; 48 + y3; 48 + y4; 45; 48 + m1; 48 + m2;
                 45; 48 + d1; 48 + d2]%Z).
  assert (parse_digits dtstr 0 0 4
          = Some (4%nat, 1000 * y1 + 100 * y2 + 10 * y3 + y4)%Z) as Hy.
  { rewrite (parse_digits_step dtstr 0 _ _ y1) by done.
    rewrite (parse_digits_step dtstr 1 _ _ y2) by done.
    rewrite (parse_digits_step dtstr 2 _ _ y3) by done.
    rewrite (parse_digits_step dtstr 3 _ _ y4) by done.
    simpl parse_digits. do 2 f_equal; lia. }
  assert (parse_digits dtstr 5 0 2 = Some (7%nat, 10 * m1 + m2)%Z) as Hm.
  { rewrite (parse_digits_step dtstr 5 _ _ m1) by done.
    rewrite (parse_digits_step dtstr 6 _ _ m2) by done.
    simpl parse_digits. do 2 f_equal; lia. }
  assert (parse_digits dtstr 8 0 2 = Some (10%nat, 10 * d1 + d2)%Z) as Hd.
  { rewrite (parse_digits_step dtstr 8 _ _ d1) by done.
    rewrite (parse_digits_step dtstr 9 _ _ d2) by done.
    simpl parse_digits. do 2 f_equal; lia. }
  apply parse_isoformat_date_dashes; try done.
  change (byte dtstr 5) with (48 + m1)%Z. lia.
Qed.

(** What CPython 3.10 reads, CPython 3.11 reads to the same date. *)
Lemma fromisoformat_311_isoformat d :
  valid_date d -> fromisoformat_311 (isoformat d) = Ok d.
Proof.
  intros Hv. pose proof Hv as (Hy & Hm & Hd).
  pose proof (days_in_month_le (year d) (month d)).
  unfold fromisoformat_311, isoformat.
  rewrite !utf8_digit by (Z.div_mod_to_equations; lia).
  change (utf8 (String "-" ?s)) with (45%Z :: utf8 s).
  rewrite !utf8_digit by (Z.div_mod_to_equations; lia).
  change (utf8 (String "-" ?s)) with (45%Z :: utf8 s).
  rewrite !utf8_digit by (Z.div_mod_to_equations; lia).
  change (utf8 "") with (@nil Z). simpl length. cbv beta iota zeta.
  change ((10 =? 7)%nat || (10 =? 8)%nat || (10 =? 10)%nat) with true.
  cbv iota.
  rewrite parse_isoformat_date_plain by (Z.div_mod_to_equations; lia).
  replace (1000 * (year d / 1000) + 100 * (year d / 100 mod 10)
           + 10 * (year d / 10 mod 10) + year d mod 10)%Z with (year d)
    by (Z.div_mod_to_equations; lia).
  replace (10 * (month d / 10) + month d mod 10)%Z with (month d)
    by (Z.div_mod_to_equations; lia).
  replace (10 * (day d / 10) + day d mod 10)%Z with (day d)
    by (Z.div_mod_to_equations; lia).
  apply new_Ok. split; [done|]. by destruct d.
Qed.

End Dates.

(** ** Transaction rows *)

Lemma getitem_Ok {A} (d : gmap string A) k v :
  getitem d k = Ok v <-> d !! k = Some v.
Proof.
  unfold getitem. destruct (d !! k); split; congruence.
Qed.

Lemma scrape_cell_Ok m cell m' :
  scrape_cell m cell = Ok m' <->
  exists t, title cell = Some t /\
            m' = <[t := PyStr.strip (text (self cell))]> m.
Proof.
  unfold scrape_cell, title, getitem.
  destruct (attrs (self cell) !! "data-title") as [t|]; simpl.
  - split; [intros [= <-]; eauto|]. by intros (? & [= <-] & ->).
  - split; [done|]. by intros (? & ? & _).
Qed.

(** A title no cell carries keeps the value it had. *)
Lemma foldM_scrape_other cs m rd k :
  foldM scrape_cell m cs = Ok rd ->
  (forall j c, cs !! j = Some c -> title c <> Some k) ->
  rd !! k = m !! k.
Proof.
  revert m. induction cs as [|c cs IH]; intros m; simpl.
  - by intros [= <-].
  - destruct (scrape_cell m c) as [m'|] eqn:Hc; [|done]. simpl.
    apply scrape_cell_Ok in Hc as (t & Ht & ->).
    intros Hrd Hno. rewrite (IH _ Hrd).
    + apply lookup_insert_ne. intros ->. by apply (Hno 0%nat c).
    + intros j c' Hj. by apply (Hno (S j)).
Qed.

(** The mapping holds, under each title, the trimmed text of the last
    cell with that title. *)
Lemma foldM_scrape_last cs m rd i cell t :
  foldM scrape_cell m cs = Ok rd ->
  cs !! i = Some cell -> title cell = Some t ->
  (forall j c, (i < j)%nat -> cs !! j = Some c -> title c <> Some t) ->
  rd !! t = Some (PyStr.strip (text (self cell))).
Proof.
  revert m i. induction cs as [|c cs IH]; intros m i; simpl; [done|].
  destruct (scrape_cell m c) as [m'|] eqn:Hc; [|done]. simpl.
  apply scrape_cell_Ok in Hc as (t' & Ht' & ->).
  intros Hrd Hi Ht Hlast. destruct i as [|i]; simpl in Hi.
  - injection Hi as ->. assert (t' = t) as -> by congruence.
    rewrite (foldM_scrape_other _ _ _ t Hrd).
    + apply lookup_insert_eq.
    + intros j c' Hj. apply (Hlast (S j)); [lia|done].
  - apply (IH _ i Hrd Hi Ht).
    intros j c' Hij Hj. apply (Hlast (S j)); [lia|done].
Qed.

Lemma extract_row_with_Ok fromiso row rec :
  extract_row_with fromiso row = Ok rec <->
  exists rd ds d amt c a,
    scrape row = Ok rd /\
    rd !! "DATE" = Some ds /\ fromiso ds = Ok d /\
    rd !! "DEBIT/CREDIT" = Some amt /\ parse_amount amt = Ok (c, a) /\
    rec = <["AMOUNT" := VFloat a]>
            (<["CURRENCY" := VStr c]>
               (<["DATE" := VDate d]> (VStr <$> rd))).
Proof.
  unfold extract_row_with. fold (cells row). fold (scrape row).
  rewrite bind_Ok. split.
  - intros (rd & Hrd & H).
    apply bind_Ok in H as (ds & Hds%getitem_Ok & H).
    apply bind_Ok in H as (d & Hd & H).
    apply bind_Ok in H as (amt & Hamt%getitem_Ok & H).
    apply bind_Ok in H as ([c a] & Hca & [= <-]).
    by exists rd, ds, d, amt, c, a.
  - intros (rd & ds & d & amt & c & a & Hrd & Hds & Hd & Hamt & Hca & ->).
    exists rd. split; [done|].
    apply getitem_Ok in Hds, Hamt.
    rewrite Hds. simpl. rewrite Hd. simpl. rewrite Hamt. simpl. by rewrite Hca.
Qed.

Lemma extract_row_Ok row rec :
  extract_row row = Ok rec <->
  exists rd ds d amt c a,
    scrape row = Ok rd /\
    rd !! "DATE" = Some ds /\ PyDate.fromisoformat ds = Ok d /\
    rd !! "DEBIT/CREDIT" = Some amt /\ parse_amount amt = Ok (c, a) /\
    rec = <["AMOUNT" := VFloat a]>
            (<["CURRENCY" := VStr c]>
               (<["DATE" := VDate d]> (VStr <$> rd))).
Proof. apply extract_row_with_Ok. Qed.

(** What [fromisoformat] raises on the DATE of a row is what the row
    raises. *)
Lemma extract_row_with_bad_date fromiso row rd ds e :
  scrape row = Ok rd -> rd !! "DATE" = Some ds ->
  fromiso ds = Raise e ->
  extract_row_with fromiso row = Raise e.
Proof.
  intros Hrd Hds Hd. unfold extract_row_with. fold (cells row). fold (scrape row).
  rewrite Hrd. simpl. apply getitem_Ok in Hds. rewrite Hds. simpl.
  by rewrite Hd.
Qed.

Lemma extract_row_bad_date row rd ds :
  scrape row = Ok rd -> rd !! "DATE" = Some ds ->
  is_ok (PyDate.fromisoformat ds) = false ->
  extract_row row = Raise ValueError.
Proof.
  intros Hrd Hds Hd.
  destruct (PyDate.fromisoformat ds) as [|e] eqn:E; [done|].
  rewrite (fromisoformat_Raise _ _ E) in E.
  by apply (extract_row_with_bad_date _ _ _ _ _ Hrd Hds).
Qed.

(** ** The transaction page *)

Lemma extract_transaction_history_with_body fromiso soup tb :
  table_body soup = Some tb ->
  extract_transaction_history_with fromiso soup
  = traverse (extract_row_with fromiso) (body_rows soup).
Proof.
  unfold extract_transaction_history_with, body_rows, table_body.
  fold (transaction_table soup).
  destruct (transaction_table soup) as [t|]; simpl; [|done].
  destruct (find (by_name "tbody") (self t)); simpl; [|done].
  by intros [= ->].
Qed.

Lemma extract_transaction_history_with_no_body fromiso soup :
  table_body soup = None ->
  extract_transaction_history_with fromiso soup = Raise AttributeError.
Proof.
  unfold extract_transaction_history_with, table_body.
  fold (transaction_table soup).
  destruct (transaction_table soup) as [t|]; simpl; [|done].
  by destruct (find (by_name "tbody") (self t)).
Qed.

Lemma extract_transaction_history_with_Ok fromiso soup recs :
  extract_transaction_history_with fromiso soup = Ok recs ->
  is_Some (table_body soup) /\
  Forall2 (fun row rec => extract_row_with fromiso row = Ok rec)
          (body_rows soup) recs.
Proof.
  intros H. destruct (table_body soup) as [tb|] eqn:Htb.
  - split; [eauto|]. apply traverse_Ok.
    by rewrite <- (extract_transaction_history_with_body _ _ _ Htb).
  - by rewrite (extract_transaction_history_with_no_body _ _ Htb) in H.
Qed.

Lemma extract_transaction_history_body soup tb :
  table_body soup = Some tb ->
  extract_transaction_history soup = traverse extract_row (body_rows soup).
Proof. apply extract_transaction_history_with_body. Qed.

Lemma extract_transaction_history_no_body soup :
  table_body soup = None ->
  extract_transaction_history soup = Raise AttributeError.
Proof. apply extract_transaction_history_with_no_body. Qed.

Lemma extract_transaction_history_Ok soup recs :
  extract_transaction_history soup = Ok recs ->
  is_Some (table_body soup) /\
  Forall2 (fun row rec => extract_row row = Ok rec) (body_rows soup) recs.
Proof. apply extract_transaction_history_with_Ok. Qed.

(** C7 (as stated): "20230501" is not of the form YYYY-MM-DD; under
    CPython 3.11 it is read as May 1, 2023 and the extraction returns the
    record of the row, where under CPython 3.7 to 3.10 it fails. *)
Lemma compact_date_accepted :
  (forall d, "20230501" <> isoformat d) /\
  scrape <$> body_rows (transactions_page (Some [row_compact_date]))
  = [Ok (list_to_map [("DATE", "20230501"); ("COMMENT", "Deposit");
                      ("DEBIT/CREDIT", "R1 234.56")])] /\
  PyDate.fromisoformat_311 "20230501" = Ok (PyDate.mkdate 2023 5 1) /\
  extract_transaction_history_with PyDate.fromisoformat_311
    (transactions_page (Some [row_compact_date]))
  = Ok [record_compact_date] /\
  record_compact_date !! "DATE" = Some (VDate (PyDate.mkdate 2023 5 1)) /\
  extract_transaction_history (transactions_page (Some [row_compact_date]))
  = Raise ValueError.
Proof.
  split; [|repeat split; by_compute].
  intros d H. apply (f_equal String.length) in H. discriminate H.
Qed.

(** C7 (amended): the DATE text of a row is read by [date.fromisoformat]
    of the interpreter.  Whatever the interpreter, a text it rejects makes
    the whole extraction fail, no list being returned, and when the
    extraction succeeds every record holds under DATE the date read from
    the text of its row.  CPython 3.7 to 3.10 reads exactly the strings
    YYYY-MM-DD of the valid calendar dates, so that under it a DATE text
    that is none of them makes the extraction fail.  CPython 3.11 reads
    each of them to the same date, returns valid dates only and raises
    [ValueError] otherwise, and reads other strings too: "20230501" and
    "2023-W18-1" are May 1, 2023.  Under both "2023-05-01" is May 1, 2023
    and "05/01/2023" raises [ValueError]. *)
Theorem date_field_iso :
  (forall fromiso soup i row rd s e,
     body_rows soup !! i = Some row ->
     scrape row = Ok rd -> rd !! "DATE" = Some s ->
     fromiso s = Raise e ->
     exists e', extract_transaction_history_with fromiso soup = Raise e') /\
  (forall fromiso soup recs,
     extract_transaction_history_with fromiso soup = Ok recs ->
     Forall2 (fun row rec =>
                exists rd s d,
                  scrape row = Ok rd /\ rd !! "DATE" = Some s /\
                  fromiso s = Ok d /\ rec !! "DATE" = Some (VDate d))
             (body_rows soup) recs) /\
  (forall s d, PyDate.fromisoformat s = Ok d <-> valid_date d /\ s = isoformat d) /\
  (forall soup i row rd s,
     body_rows soup !! i = Some row ->
     scrape row = Ok rd -> rd !! "DATE" = Some s ->
     (forall d, valid_date d -> s <> isoformat d) ->
     exists e, extract_transaction_history soup = Raise e) /\
  (forall d, valid_date d -> PyDate.fromisoformat_311 (isoformat d) = Ok d) /\
  (forall s d, PyDate.fromisoformat_311 s = Ok d -> valid_date d) /\
  (forall s e, PyDate.fromisoformat_311 s = Raise e -> e = ValueError) /\
  PyDate.fromisoformat "2023-05-01" = Ok (PyDate.mkdate 2023 5 1) /\
  PyDate.fromisoformat "05/01/2023" = Raise ValueError /\
  PyDate.fromisoformat_311 "2023-05-01" = Ok (PyDate.mkdate 2023 5 1) /\
  PyDate.fromisoformat_311 "05/01/2023" = Raise ValueError /\
  PyDate.fromisoformat_311 "20230501" = Ok (PyDate.mkdate 2023 5 1) /\
  PyDate.fromisoformat_311 "2023-W18-1" = Ok (PyDate.mkdate 2023 5 1).
Proof.
  assert (Hfail : forall fromiso soup i row rd s e,
     body_rows soup !! i = Some row ->
     scrape row = Ok rd -> rd !! "DATE" = Some s ->
     fromiso s = Raise e ->
     exists e', extract_transaction_history_with fromiso soup = Raise e').
  { intros fromiso soup i row rd s e Hi Hrd Hs Hd.
    pose proof (extract_row_with_bad_date _ _ _ _ _ Hrd Hs Hd) as Hrow.
    destruct (table_body soup) as [tb|] eqn:Htb.
    - rewrite (extract_transaction_history_with_body _ _ _ Htb).
      apply (traverse_fails _ _ row e); [|done].
      apply list_elem_of_lookup. eauto.
    - unfold body_rows in Hi. by rewrite Htb in Hi. }
  split; [exact Hfail|]. split; [|split; [exact fromisoformat_Ok|]].
  - intros fromiso soup recs [_ H]%extract_transaction_history_with_Ok.
    eapply Forall2_impl; [exact H|]. simpl.
    intros row rec
      (rd & ds & d & amt & c & a & Hrd & Hds & Hd & _ & _ & ->)%extract_row_with_Ok.
    exists rd, ds, d. do 3 (split; [done|]).
    rewrite lookup_insert_ne by done. rewrite lookup_insert_ne by done.
    apply lookup_insert_eq.
  - split; [|split; [exact fromisoformat_311_isoformat|]].
    + intros soup i row rd s Hi Hrd Hs Hbad.
      destruct (PyDate.fromisoformat s) as [d|e] eqn:E.
      * apply fromisoformat_Ok in E as [Hv ->]. by destruct (Hbad d Hv).
      * exact (Hfail PyDate.fromisoformat soup i row rd s e Hi Hrd Hs E).
    + split; [exact fromisoformat_311_valid|].
      split; [exact fromisoformat_311_Raise|]. repeat split; by_compute.
Qed.

Lemma date_field_iso_witness :
  exists e,
    extract_transaction_history_with PyDate.fromisoformat_311
      (transactions_page (Some [row_debit; row_slash_date])) = Raise e.
Proof.
  destruct (option_witness
              (body_rows (transactions_page (Some [row_debit; row_slash_date]))
                 !! 1%nat)
              (fun row => match scrape row with
                          | Ok rd => bool_decide (rd !! "DATE" = Some "05/01/2023")
                          | Raise _ => false
                          end))
    as (row & Hrow & Hp); [vm_compute; reflexivity|].
  destruct (scrape row) as [rd|] eqn:Hrd; [|discriminate Hp].
  apply bool_decide_eq_true in Hp.
  apply (proj1 date_field_iso PyDate.fromisoformat_311
           (transactions_page (Some [row_debit; row_slash_date])) 1%nat
           row rd "05/01/2023" ValueError Hrow Hrd Hp).
  by_compute.
Defined.

(** C8 (as stated): the page has the table, the table has no [tbody] and
    so no body row, and the extraction raises [AttributeError] as it does
    when the table is missing. *)
Lemma table_without_body_fails :
  is_Some (transaction_table (transactions_page None)) /\
  body_rows (transactions_page None) = [] /\
  extract_transaction_history (transactions_page None) = Raise AttributeError.
Proof.
  split; [|split].
  - by_compute.
  - apply length_zero_iff_nil. by_compute.
  - by_compute.
Qed.

(** C8 (amended): without the table the extraction raises
    [AttributeError], and so it does when the table has no [tbody]; with
    the table and a [tbody] that holds no row it returns the empty list. *)
Theorem missing_table_fails :
  (forall soup,
     transaction_table soup = None ->
     extract_transaction_history soup = Raise AttributeError) /\
  (forall soup t,
     transaction_table soup = Some t ->
     find (by_name "tbody") (self t) = None ->
     extract_transaction_history soup = Raise AttributeError) /\
  (forall soup tb,
     table_body soup = Some tb ->
     find_all (by_name "tr") (self tb) = [] ->
     extract_transaction_history soup = Ok []).
Proof.
  split; [|split].
  - intros soup H. apply extract_transaction_history_no_body.
    unfold table_body. by rewrite H.
  - intros soup t Ht Hb. apply extract_transaction_history_no_body.
    unfold table_body. by rewrite Ht.
  - intros soup tb Htb Hrows.
    rewrite (extract_transaction_history_body _ _ Htb).
    unfold body_rows. by rewrite Htb, Hrows.
Qed.

Lemma missing_table_fails_witness :
  extract_transaction_history page_without_table = Raise AttributeError /\
  extract_transaction_history (transactions_page (Some [])) = Ok [].
Proof.
  split.
  - apply (proj1 missing_table_fails page_without_table).
    apply eq_None_not_Some. by_compute.
  - destruct (option_witness (table_body (transactions_page (Some [])))
                (fun tb => bool_decide
                             (length (find_all (by_name "tr") (self tb)) = 0%nat)))
      as (tb & Htb & Hp%bool_decide_eq_true); [vm_compute; reflexivity|].
    apply length_zero_iff_nil in Hp.
    exact (proj2 (proj2 missing_table_fails)
             (transactions_page (Some [])) tb Htb Hp).
Defined.

(** C9 (as stated): the one row of the page has the cell (DATE,
    "2023-05-01"); the record holds the date under DATE, not the text of
    the cell, while the texts under COMMENT and DEBIT/CREDIT are kept. *)
Lemma scraped_date_replaced :
  scrape <$> body_rows (transactions_page (Some [row_debit]))
  = [Ok (list_to_map [("DATE", "2023-05-01"); ("COMMENT", "Bought shares");
                      ("DEBIT/CREDIT", "R-1 234.56")])] /\
  extract_transaction_history (transactions_page (Some [row_debit]))
  = Ok [record_debit] /\
  record_debit !! "DATE" = Some (VDate (PyDate.mkdate 2023 5 1)) /\
  record_debit !! "COMMENT" = Some (VStr "Bought shares").
Proof. repeat split; by_compute. Qed.

(** C9 (amended): when the table has a body and every row can be read the
    result has one record per body row, in the order of the rows; a record
    holds the date read from the DATE text under DATE, the currency and
    the amount read from the DEBIT/CREDIT text under CURRENCY and AMOUNT,
    and under every other title the trimmed text of the last cell of the
    row with that title. *)
Theorem transaction_records :
  (forall soup,
     is_Some (table_body soup) ->
     Forall (fun row => is_ok (extract_row row) = true) (body_rows soup) ->
     exists recs,
       extract_transaction_history soup = Ok recs /\
       length recs = length (body_rows soup)) /\
  (forall soup recs,
     extract_transaction_history soup = Ok recs ->
     Forall2 (fun row rec =>
                exists rd ds d amt c a,
                  scrape row = Ok rd /\
                  (forall i cell t,
                     cells row !! i = Some cell -> title cell = Some t ->
                     (forall j cell', (i < j)%nat -> cells row !! j = Some cell' ->
                                      title cell' <> Some t) ->
                     rd !! t = Some (PyStr.strip (text (self cell)))) /\
                  rd !! "DATE" = Some ds /\ PyDate.fromisoformat ds = Ok d /\
                  rd !! "DEBIT/CREDIT" = Some amt /\
                  parse_amount amt = Ok (c, a) /\
                  rec !! "DATE" = Some (VDate d) /\
                  rec !! "CURRENCY" = Some (VStr c) /\
                  rec !! "AMOUNT" = Some (VFloat a) /\
                  (forall k, k <> "DATE" -> k <> "CURRENCY" -> k <> "AMOUNT" ->
                             rec !! k = VStr <$> rd !! k))
             (body_rows soup) recs).
Proof.
  split.
  - intros soup [tb Htb] Hall.
    rewrite (extract_transaction_history_body _ _ Htb).
    destruct (traverse extract_row (body_rows soup)) as [recs|e] eqn:Ht.
    + exists recs. split; [done|]. apply traverse_Ok in Ht.
      by rewrite (Forall2_length _ _ _ Ht).
    + apply traverse_Raise in Ht as (l1 & x & l2 & Hl & _ & Hx).
      rewrite Hl in Hall. apply Forall_app in Hall as [_ Hall].
      inversion Hall as [|?? Hok _]; subst. by rewrite Hx in Hok.
  - intros soup recs [_ H]%extract_transaction_history_Ok.
    eapply Forall2_impl; [exact H|]. simpl.
    intros row rec
      (rd & ds & d & amt & c & a & Hrd & Hds & Hd & Hamt & Hca & ->)%extract_row_Ok.
    exists rd, ds, d, amt, c, a. split; [done|]. split.
    { intros i cell t. exact (foldM_scrape_last (cells row) ∅ rd i cell t Hrd). }
    do 4 (split; [done|]). split; [|split; [|split]].
    + rewrite lookup_insert_ne by done. rewrite lookup_insert_ne by done.
      apply lookup_insert_eq.
    + rewrite lookup_insert_ne by done. apply lookup_insert_eq.
    + apply lookup_insert_eq.
    + intros k H1 H2 H3. rewrite !lookup_insert_ne by done.
      apply lookup_fmap.
Qed.

Lemma transaction_records_witness :
  exists recs,
    extract_transaction_history (transactions_page (Some [row_debit; row_credit]))
    = Ok recs /\
    length recs
    = length (body_rows (transactions_page (Some [row_debit; row_credit]))).
Proof.
  apply (proj1 transaction_records
           (transactions_page (Some [row_debit; row_credit]))).
  - apply (bool_decide_unpack _). vm_compute. reflexivity.
  - apply (bool_decide_unpack _). vm_compute. reflexivity.
Defined.

Example transactions_page_records :
  extract_transaction_history (transactions_page (Some [row_debit; row_credit]))
  = Ok [record_debit; record_credit].
Proof. by_compute. Qed.

(** ** The contract code *)

Section ContractCode.

Import PyStr HoldingDivParser.

Lemma contains_app c a b :
  contains c (a +:+ b) = contains c a || contains c b.
Proof.
  induction a as [|x a IH]; simpl; [done|]. by rewrite IH, orb_assoc.
Qed.

Lemma rfind_None c s : rfind c s = None <-> contains c s = false.
Proof.
  induction s as [|x s IH]; simpl; [done|].
  destruct (rfind c s) as [i|].
  - split; [done|]. intros [_ H]%orb_false_iff. by apply IH in H.
  - destruct IH as [IH _]. rewrite (IH eq_refl), orb_false_r.
    by destruct (Ascii.eqb x c).
Qed.

Lemma rfind_last c a b :
  contains c b = false -> rfind c (a +:+ String c b) = Some (String.length a).
Proof.
  intros Hb. induction a as [|x a IH]; simpl.
  - apply rfind_None in Hb. by rewrite Hb, Ascii.eqb_refl.
  - by rewrite IH.
Qed.

Lemma substring_prefix b c :
  substring 0 (String.length b) (b +:+ c) = b.
Proof.
  induction b as [|y b IH]; simpl.
  - by destruct c.
  - by rewrite IH.
Qed.

Lemma substring_middle a b c :
  substring (String.length a) (String.length b) (a +:+ b +:+ c) = b.
Proof.
  induction a as [|x a IH]; [exact (substring_prefix b c)|exact IH].
Qed.

Lemma substring_zero i s : substring i 0 s = "".
Proof. revert s. induction i as [|i IH]; intros [|x s]; simpl; done. Qed.

Lemma slice_empty i j s : (j <= i)%nat -> slice i j s = "".
Proof.
  intros H. unfold slice. replace (j - i)%nat with 0%nat by lia.
  apply substring_zero.
Qed.

Lemma app_cons_string x (a b : string) :
  String x a +:+ b = String x (a +:+ b).
Proof. reflexivity. Qed.

Lemma app_assoc_string (a b c : string) : (a +:+ b) +:+ c = a +:+ b +:+ c.
Proof.
  induction a as [|x a IH]; [done|]. by rewrite !app_cons_string, IH.
Qed.

Lemma length_app_string (a b : string) :
  String.length (a +:+ b) = (String.length a + String.length b)%nat.
Proof.
  induction a as [|x a IH]; [done|]. rewrite app_cons_string. simpl.
  by rewrite IH.
Qed.

Lemma code_of_img_Ok img i j :
  rfind "/" img = Some i -> find ".png" img = Some j ->
  code_of_img img = Ok (slice (i + 1) j img).
Proof.
  intros Hi Hj. unfold code_of_img, rindex, index. by rewrite Hi, Hj.
Qed.

Lemma code_of_img_Raise img :
  (exists e, code_of_img img = Raise e) <->
  contains "/" img = false \/ find ".png" img = None.
Proof.
  unfold code_of_img, rindex, index. rewrite <- rfind_None.
  destruct (rfind "/" img) as [i|]; simpl.
  - destruct (find ".png" img) as [j|]; simpl.
    + split; [by intros [e ?]|]. by intros [?|?].
    + split; eauto.
  - split; eauto.
Qed.

(** C5 (as stated): in "/a.png/b.png" the segment between the last [/]
    and the [.png] suffix is "b"; the parser cuts at the first [.png],
    which lies before the last [/], and returns the empty string. *)
Lemma contract_code_first_png :
  spec_code_of_img "/a.png/b.png" = Ok "b" /\
  code_of_img "/a.png/b.png" = Ok "".
Proof. split; by_compute. Qed.

(** C5 (amended): the contract code is the part of the image URL after
    its last [/] and before its first [.png]: for a URL [dir/seg.png...]
    whose last [/] is the one before [seg] and whose first [.png] is the
    one after [seg] it is [seg], and it is empty when the first [.png]
    does not lie after the last [/]; given the image URL, the extraction
    fails exactly when the URL holds no [/] or no [.png]. *)
Theorem contract_code_segment :
  (forall dir seg rest,
     contains "/" seg = false -> contains "/" rest = false ->
     find ".png" (dir +:+ "/" +:+ seg +:+ ".png" +:+ rest)
     = Some (String.length dir + 1 + String.length seg)%nat ->
     code_of_img (dir +:+ "/" +:+ seg +:+ ".png" +:+ rest) = Ok seg) /\
  (forall img i j,
     rfind "/" img = Some i -> find ".png" img = Some j ->
     code_of_img img = Ok (slice (i + 1) j img) /\
     ((j <= i + 1)%nat -> code_of_img img = Ok "")) /\
  (forall img,
     (exists e, code_of_img img = Raise e) <->
     contains "/" img = false \/ find ".png" img = None) /\
  (forall self url,
     img self = Ok url -> contract_code self = code_of_img url).
Proof.
  split; [|split; [|split]].
  - intros dir seg rest Hseg Hrest Hpng.
    assert (rfind "/" (dir +:+ "/" +:+ seg +:+ ".png" +:+ rest)
            = Some (String.length dir)) as Hslash.
    { apply (rfind_last "/" dir (seg +:+ ".png" +:+ rest)).
      by rewrite !contains_app, Hseg, Hrest. }
    rewrite (code_of_img_Ok _ _ _ Hslash Hpng). f_equal. unfold slice.
    replace (String.length dir + 1 + String.length seg - (String.length dir + 1))%nat
      with (String.length seg) by lia.
    replace (String.length dir + 1)%nat with (String.length (dir +:+ "/"))
      by (rewrite length_app_string; simpl; lia).
    rewrite <- (app_assoc_string dir "/").
    apply substring_middle.
  - intros img i j Hi Hj. split; [by apply code_of_img_Ok|].
    intros Hle. rewrite (code_of_img_Ok _ _ _ Hi Hj). f_equal.
    by apply slice_empty.
  - exact code_of_img_Raise.
  - intros self url Hurl. unfold contract_code. by rewrite Hurl.
Qed.

Lemma contract_code_segment_witness :
  code_of_img ("https://cdn/logos" +:+ "/" +:+ "EQU.ZA.ABC" +:+ ".png" +:+ "")
  = Ok "EQU.ZA.ABC".
Proof.
  apply (proj1 contract_code_segment "https://cdn/logos" "EQU.ZA.ABC" "");
    by_compute.
Defined.

End ContractCode.

(** * Further properties of the parsers *)

(** ** [strip] *)

Section Strip.

Import PyStr.

Lemma lstrip_first s c : first_char (lstrip s) = Some c -> isspace c = false.
Proof.
  induction s as [|x s IH]; simpl; [done|].
  destruct (isspace x) eqn:E; [done|]. simpl. by intros [= <-].
Qed.

Lemma rstrip_first s c :
  first_char (rstrip s) = Some c -> first_char s = Some c.
Proof.
  destruct s as [|x s]; simpl; [done|].
  destruct (rstrip s); [|done]. by destruct (isspace x).
Qed.

Lemma rstrip_last s c : last_char (rstrip s) = Some c -> isspace c = false.
Proof.
  induction s as [|x s IH]; simpl; [done|].
  destruct (rstrip s) as [|y r] eqn:E.
  - destruct (isspace x) eqn:Ex; simpl; [done|]. by intros [= <-].
  - done.
Qed.

Lemma strip_trimmed s : trimmed (strip s).
Proof.
  unfold strip. split.
  - intros c H. by apply rstrip_first, lstrip_first in H.
  - apply rstrip_last.
Qed.

Lemma lstrip_blank s : blank s = true -> lstrip s = "".
Proof.
  induction s as [|x s IH]; simpl; [done|].
  intros [-> H]%andb_true_iff. by apply IH.
Qed.

Lemma strip_blank s : blank s = true -> strip s = "".
Proof. intros H. unfold strip. by rewrite (lstrip_blank _ H). Qed.

End Strip.

(** ** Accounts *)

Lemma extract_account_info_Raise d e :
  extract_account_info d = Raise e ->
  e = KeyError "data-id" /\ qualifying d = true /\
  attrs (parent d) !! "data-id" = None.
Proof.
  destruct (qualifying d) eqn:Hq.
  - rewrite (extract_account_info_qualifying _ Hq).
    destruct (attrs (parent d) !! "data-id"); [done|]. by intros [= <-].
  - by rewrite (extract_account_info_skip _ Hq).
Qed.

Lemma extract_accounts_Ok soup accounts :
  extract_accounts soup = Ok accounts ->
  accounts = account_of <$> List.filter qualifying (account_divs soup).
Proof.
  intros H.
  assert (Forall (fun d => qualifying d = true ->
                           is_Some (attrs (parent d) !! "data-id"))
                 (account_divs soup)) as Hall.
  { unfold extract_accounts in H. fold (account_divs soup) in H.
    apply bind_Ok in H as (infos & Hinfos & _). apply traverse_Ok in Hinfos.
    apply Forall_forall. intros d Hd Hq.
    apply list_elem_of_lookup in Hd as [i Hi].
    destruct (Forall2_lookup_l _ _ _ _ _ Hinfos Hi) as (info & _ & Hinfo).
    rewrite (extract_account_info_qualifying _ Hq) in Hinfo.
    destruct (attrs (parent d) !! "data-id"); [eauto|done]. }
  pose proof (extract_accounts_eq _ Hall) as E.
  unfold extract_accounts in H. fold (account_divs soup) in H.
  rewrite E in H. by injection H as <-.
Qed.

(** X1: the only way the account extraction fails is with
    [KeyError('data-id')], and it does so exactly when some container has
    a non-empty trading currency on its parent and no [data-id] there. *)
Theorem extract_accounts_Raise soup e :
  extract_accounts soup = Raise e <->
  e = KeyError "data-id" /\
  exists i d,
    account_divs soup !! i = Some d /\ qualifying d = true /\
    attrs (parent d) !! "data-id" = None.
Proof.
  unfold extract_accounts. fold (account_divs soup).
  assert (Hfail : forall e',
    traverse extract_account_info (account_divs soup) = Raise e' ->
    e' = KeyError "data-id" /\
    exists i d,
      account_divs soup !! i = Some d /\ qualifying d = true /\
      attrs (parent d) !! "data-id" = None).
  { intros e' (l1 & x & l2 & Hl & _ & Hx)%traverse_Raise.
    apply extract_account_info_Raise in Hx as (-> & Hq & Hid).
    split; [done|]. exists (length l1), x. split; [|done].
    rewrite Hl. by apply list_lookup_middle. }
  split.
  - destruct (traverse extract_account_info (account_divs soup)) as [infos|e']
      eqn:Ht; simpl; [done|].
    intros [= <-]. by apply Hfail.
  - intros (-> & i & d & Hi & Hq & Hid).
    assert (extract_account_info d = Raise (KeyError "data-id")) as Hd.
    { by rewrite (extract_account_info_qualifying _ Hq), Hid. }
    assert (d ∈ account_divs soup) as Hin.
    { apply list_elem_of_lookup. eauto. }
    destruct (traverse_fails _ _ _ _ Hin Hd) as [e' He'].
    rewrite He'. simpl. destruct (Hfail _ He') as [-> _]. done.
Qed.

(** X2: a trading currency that consists of white space only is not
    skipped: the test for absence comes before the trimming, and the
    account is built with an empty trading-currency id. *)
Theorem blank_currency_not_skipped d tc id :
  attrs (parent d) !! "data-tradingcurrencyid" = Some tc ->
  tc <> "" -> blank tc = true ->
  attrs (parent d) !! "data-id" = Some id ->
  extract_account_info d
  = Ok (Some (mkAccount (PyStr.strip (text (self d))) "" (PyStr.strip id))).
Proof.
  intros Htc Hne Hb Hid. unfold extract_account_info, getitem.
  rewrite Htc, Hid. simpl.
  destruct (String.eqb_spec tc "") as [->|_]; [done|]. simpl.
  by rewrite (strip_blank _ Hb).
Qed.

Lemma blank_currency_not_skipped_witness :
  extract_account_info blank_currency_div
  = Ok (Some (mkAccount (PyStr.strip (text (self blank_currency_div))) ""
                        (PyStr.strip " 77 "))).
Proof.
  apply (blank_currency_not_skipped blank_currency_div "  " " 77 ");
    [by_compute|discriminate|by_compute|by_compute].
Defined.

(** X3: every account returned has a name, a trading-currency id and an id
    without white space at either end. *)
Theorem accounts_trimmed soup accounts :
  extract_accounts soup = Ok accounts ->
  Forall (fun a => trimmed (acc_name a) /\ trimmed (trading_currency_id a) /\
                   trimmed (acc_id a)) accounts.
Proof.
  intros ->%extract_accounts_Ok. apply Forall_fmap, Forall_forall.
  intros d _. unfold account_of. simpl. repeat split; apply strip_trimmed.
Qed.

Lemma accounts_trimmed_witness :
  Forall (fun a => trimmed (acc_name a) /\ trimmed (trading_currency_id a) /\
                   trimmed (acc_id a))
         [mkAccount "EasyEquities ZAR" "2" "1234"].
Proof.
  apply (accounts_trimmed accounts_page). by_compute.
Defined.

(** ** Holding rows *)

Section HoldingRows.

Import HoldingDivParser.

Lemma fields_split fs1 f fs2 :
  fields = (fs1 ++ f :: fs2)%list ->
  (fs1 = [] /\ f = "name") \/
  (fs1 = ["name"] /\ f = "contract_code") \/
  (fs1 = ["name"; "contract_code"] /\ f = "purchase_value") \/
  (fs1 = ["name"; "contract_code"; "purchase_value"] /\ f = "current_value") \/
  (fs1 = ["name"; "contract_code"; "purchase_value"; "current_value"]
   /\ f = "current_price") \/
  (fs1 = ["name"; "contract_code"; "purchase_value"; "current_value";
          "current_price"] /\ f = "img") \/
  (fs1 = ["name"; "contract_code"; "purchase_value"; "current_value";
          "current_price"; "img"] /\ f = "view_url") \/
  (fs1 = ["name"; "contract_code"; "purchase_value"; "current_value";
          "current_price"; "img"; "view_url"] /\ f = "isin").
Proof.
  unfold fields. intros H.
  do 8 (destruct fs1 as [|? fs1];
        [injection H as <-; intros; subst; tauto|injection H as <- H]).
  by destruct fs1.
Qed.

Lemma cell_Raise cls d e : cell cls d = Raise e -> e = AttributeError.
Proof.
  unfold cell. destruct (find _ _); simpl; [done|]. by intros [= <-].
Qed.

Lemma img_Raise d e :
  img d = Raise e -> e = AttributeError \/ e = KeyError "src".
Proof.
  unfold img, getitem. destruct (find _ _) as [x|]; simpl.
  - destruct (attrs (self x) !! "src"); [done|]. intros [= <-]. by right.
  - intros [= <-]. by left.
Qed.

Lemma view_url_Raise d e :
  view_url d = Raise e ->
  e = AttributeError \/ e = KeyError "data-detailviewurl".
Proof.
  unfold view_url, getitem. destruct (find _ _) as [x|]; simpl.
  - destruct (find _ _) as [y|]; simpl.
    + destruct (attrs (self y) !! "data-detailviewurl"); [done|].
      intros [= <-]. by right.
    + intros [= <-]. by left.
  - intros [= <-]. by left.
Qed.

Lemma code_of_img_ValueError s e : code_of_img s = Raise e -> e = ValueError.
Proof.
  unfold code_of_img, PyStr.rindex, PyStr.index.
  destruct (PyStr.rfind _ _); simpl; [|by intros [= <-]].
  destruct (PyStr.find _ _); simpl; [done|]. by intros [= <-].
Qed.

Lemma contract_code_Ok_img d cc :
  contract_code d = Ok cc -> exists s, img d = Ok s /\ code_of_img s = Ok cc.
Proof. unfold contract_code. by intros ?%bind_Ok. Qed.

Lemma isin_Ok d i :
  isin d = Ok i <-> exists url, view_url d = Ok url /\ i = PyStr.after_last "=" url.
Proof.
  unfold isin. rewrite bind_Ok. split.
  - intros (url & Hu & [= <-]). eauto.
  - intros (url & Hu & ->). eauto.
Qed.

Lemma isin_Raise d e : isin d = Raise e <-> view_url d = Raise e.
Proof. unfold isin. by destruct (view_url d). Qed.

(** What [to_dict] raises, by the field it names. *)
Lemma to_dict_Raise_field d e :
  to_dict d = Raise e ->
  exists f cause,
    e = HoldingFieldNotFoundException f cause /\
    f ∈ nameable_fields /\ cause ∈ field_causes /\
    getattr d f = Raise cause.
Proof.
  intros (fs1 & f & fs2 & cause & Hfs & Hok & Hf & ->)%to_dict_Raise.
  exists f, cause. split; [done|].
  apply fields_split in Hfs
    as [[-> ->]|[[-> ->]|[[-> ->]|[[-> ->]|[[-> ->]|[[-> ->]|[[-> ->]|[-> ->]]]]]]]].
  - split; [by_compute|]. split; [|done].
    apply (cell_Raise _ _ _) in Hf as ->. by_compute.
  - split; [by_compute|]. split; [|done].
    change (contract_code d = Raise cause) in Hf. unfold contract_code in Hf.
    destruct (img d) as [s|e] eqn:Hi; simpl in Hf.
    + apply code_of_img_ValueError in Hf as ->. by_compute.
    + injection Hf as <-. apply img_Raise in Hi as [->| ->]; by_compute.
  - split; [by_compute|]. split; [|done].
    apply (cell_Raise _ _ _) in Hf as ->. by_compute.
  - split; [by_compute|]. split; [|done].
    apply (cell_Raise _ _ _) in Hf as ->. by_compute.
  - split; [by_compute|]. split; [|done].
    apply (cell_Raise _ _ _) in Hf as ->. by_compute.
  - exfalso. change (img d = Raise cause) in Hf.
    apply Forall_cons in Hok as [_ Hok]. apply Forall_cons in Hok as [Hcc _].
    change (is_ok (contract_code d) = true) in Hcc.
    unfold contract_code in Hcc. by rewrite Hf in Hcc.
  - split; [by_compute|]. split; [|done].
    change (view_url d = Raise cause) in Hf.
    apply view_url_Raise in Hf as [->| ->]; by_compute.
  - exfalso. change (isin d = Raise cause) in Hf. apply isin_Raise in Hf.
    do 6 apply Forall_cons in Hok as [_ Hok]. apply Forall_cons in Hok as [Hv _].
    change (is_ok (view_url d) = true) in Hv. by rewrite Hf in Hv.
Qed.

End HoldingRows.

Section HoldingRowExtras.

Import HoldingDivParser.

(** X4: a failure of [to_dict] names one of name, contract_code,
    purchase_value, current_value, current_price and view_url, never img
    nor isin, and carries an [AttributeError], a [KeyError] for [src] or
    [data-detailviewurl], or a [ValueError]; when the image cannot be read
    and the name can, the failure names contract_code, which is read
    first, with the cause the image gave. *)
Theorem named_failure_fields :
  (forall d e,
     to_dict d = Raise e ->
     exists f cause,
       e = HoldingFieldNotFoundException f cause /\
       f ∈ nameable_fields /\ f <> "img" /\ f <> "isin" /\
       cause ∈ field_causes /\ getattr d f = Raise cause) /\
  (forall d n cause,
     name d = Ok n -> img d = Raise cause ->
     to_dict d = Raise (HoldingFieldNotFoundException "contract_code" cause)).
Proof.
  split.
  - intros d e (f & cause & -> & Hf & Hc & Hg)%to_dict_Raise_field.
    exists f, cause. repeat split; try done.
    + intros ->. revert Hf. by_compute.
    + intros ->. revert Hf. by_compute.
  - intros d n cause Hn Hi. unfold to_dict, fields. cbn [foldM].
    assert (set_field d ∅ "name" = Ok (<["name" := n]> ∅)) as ->.
    { unfold set_field. change (getattr d "name") with (name d). by rewrite Hn. }
    cbn [Py.bind].
    assert (forall m, set_field d m "contract_code"
                      = Raise (HoldingFieldNotFoundException "contract_code" cause))
      as ->; [|done].
    intros m. unfold set_field.
    change (getattr d "contract_code") with (contract_code d).
    unfold contract_code. by rewrite Hi.
Qed.

End HoldingRowExtras.

(** ** The holdings page: what can go wrong, what survives *)

Section HoldingsPageFacts.

Import HoldingDivParser.

Lemma not_in_header_Raise d e : not_in_header d = Raise e -> e = KeyError "class".
Proof.
  unfold not_in_header. destruct (class_ (parent d)); [done|]. by intros [= <-].
Qed.

Lemma filterM_not_in_header_Raise l e :
  filterM not_in_header l = Raise e -> e = KeyError "class".
Proof.
  induction l as [|d l IH]; simpl; [done|].
  destruct (not_in_header d) as [b|e'] eqn:Hd; simpl.
  - destruct (filterM not_in_header l); simpl; [done|]. intros [= <-]. by apply IH.
  - intros [= <-]. by apply not_in_header_Raise in Hd.
Qed.

Lemma foldM_add_Raise_inv s l e :
  foldM NameSet.add s l = Raise e -> e = AttributeError.
Proof.
  revert s. induction l as [|x l IH]; intros s; simpl; [done|].
  unfold NameSet.add at 2. destruct (name x) as [n|e'] eqn:Hx; simpl.
  - destruct (existsb _ s); simpl; apply IH.
  - intros [= <-]. by apply name_Raise in Hx.
Qed.

(** Every entry of the set is the first row of its name. *)
Lemma foldM_add_first s l s' :
  foldM NameSet.add s l = Ok s' ->
  forall e, e ∈ s' ->
    e ∈ s \/
    exists i, l !! i = Some e.2 /\ (e.1 ∉ s.*1) /\
              forall j d, (j < i)%nat -> l !! j = Some d -> name d <> Ok e.1.
Proof.
  revert s. induction l as [|x l IH]; intros s; simpl.
  - intros [= <-] e He. by left.
  - destruct (NameSet.add s x) as [s1|] eqn:Hadd; [|done]. simpl.
    intros Hs' e He. apply add_Ok in Hadd as (n & Hn & Hs1).
    assert (Hsub : forall k, k ∈ s.*1 -> k ∈ s1.*1).
    { intros k Hk. rewrite Hs1. destruct (bool_decide _); [done|].
      rewrite fmap_app. apply elem_of_app. by left. }
    assert (Hn1 : n ∈ s1.*1).
    { rewrite Hs1. destruct (bool_decide_reflect (n ∈ s.*1)); [done|].
      rewrite fmap_app. apply elem_of_app. right. by apply list_elem_of_singleton. }
    destruct (IH _ Hs' e He) as [H1|(i & Hi & Hnot & Hfirst)].
    + rewrite Hs1 in H1.
      destruct (bool_decide_reflect (n ∈ s.*1)) as [Hin|Hin]; [by left|].
      apply elem_of_app in H1 as [?|H1]; [by left|].
      apply list_elem_of_singleton in H1 as ->. right.
      exists 0%nat. split; [done|]. split; [done|]. intros j d Hj. lia.
    + right. exists (S i). split; [done|]. split.
      * intros Hk. by apply Hnot, Hsub.
      * intros [|j] d Hj Hd; simpl in Hd.
        -- injection Hd as <-. rewrite Hn. intros [= ->]. by apply Hnot.
        -- apply (Hfirst j); [lia|done].
Qed.

Lemma extract_holdings_Raise_stage str_hash set_iter soup e :
  extract_holdings str_hash set_iter soup = Raise e ->
  e = KeyError "class" \/
  (Forall has_class (tail (holdings_divs soup)) /\
   (NameSet.of_list (data_rows soup) = Raise e /\ e = AttributeError \/
    exists s, NameSet.of_list (data_rows soup) = Ok s /\
              traverse to_dict (set_iter (NameSet.elements s)) = Raise e)).
Proof.
  intros H.
  destruct (filterM not_in_header (tail (holdings_divs soup))) as [rows|e']
    eqn:Hf.
  - apply filterM_not_in_header_Ok in Hf as [Hc _]. right. split; [done|].
    rewrite (extract_holdings_data_rows _ _ _ Hc) in H.
    destruct (NameSet.of_list (data_rows soup)) as [s|e'] eqn:Hs; simpl in H.
    + right. eauto.
    + left. injection H as <-. split; [done|].
      by apply foldM_add_Raise_inv in Hs.
  - left. unfold extract_holdings in H. fold (holdings_divs soup) in H.
    rewrite Hf in H. injection H as <-.
    by apply filterM_not_in_header_Raise in Hf.
Qed.

End HoldingsPageFacts.

Section HoldingsPageExtras.

Import HoldingDivParser.

Variable str_hash : string -> Z.
Variable set_iter : list HoldingDivParser.t -> list HoldingDivParser.t.
Hypothesis set_iter_perm : forall l, set_iter l ≡ₚ l.

(** X5: the page-level extraction raises [KeyError('class')], a bare
    [AttributeError], or a named failure; the named failure is that of a
    data row and never names the name (nor img, nor isin). *)
Theorem extract_holdings_errors soup e :
  extract_holdings str_hash set_iter soup = Raise e ->
  e = KeyError "class" \/ e = AttributeError \/
  exists d f cause,
    e = HoldingFieldNotFoundException f cause /\
    d ∈ data_rows soup /\ to_dict d = Raise e /\
    f ∈ ["contract_code"; "purchase_value"; "current_value";
         "current_price"; "view_url"] /\
    cause ∈ field_causes.
Proof.
  intros [->|(_ & [[_ ->]|(s & Hs & Ht)])]%extract_holdings_Raise_stage;
    [by left|by right; left|].
  right. right.
  apply traverse_Raise in Ht as (l1 & x & l2 & Hl & _ & Hx).
  destruct (of_list_Ok _ _ Hs) as (_ & Hnames & Hfrom).
  assert (x ∈ data_rows soup) as Hin.
  { apply Hfrom, (elem_of_set_iter _ set_iter_perm). rewrite Hl.
    apply elem_of_app. right. apply elem_of_cons. by left. }
  destruct (Hnames _ Hin) as (n & Hn & _).
  destruct (to_dict_Raise_field _ _ Hx) as (f & cause & -> & Hf & Hc & Hg).
  exists x, f, cause. repeat split; try done.
  unfold nameable_fields in Hf.
  apply elem_of_cons in Hf as [->|Hf]; [|done].
  change (name x = Raise cause) in Hg. congruence.
Qed.

End HoldingsPageExtras.

Lemma extract_holdings_errors_witness :
  HoldingFieldNotFoundException "contract_code" AttributeError = KeyError "class" \/
  HoldingFieldNotFoundException "contract_code" AttributeError = AttributeError \/
  exists d f cause,
    HoldingFieldNotFoundException "contract_code" AttributeError
    = HoldingFieldNotFoundException f cause /\
    d ∈ data_rows (holdings_table [row_abc_no_img]) /\
    HoldingDivParser.to_dict d = Raise (HoldingFieldNotFoundException "contract_code" AttributeError) /\
    f ∈ ["contract_code"; "purchase_value"; "current_value";
         "current_price"; "view_url"] /\
    cause ∈ field_causes.
Proof.
  apply (extract_holdings_errors length_hash insertion_order insertion_order_perm
           (holdings_table [row_abc_no_img])).
  by_compute.
Defined.


Section HoldingsPageExtras2.

Import HoldingDivParser.

Variable str_hash : string -> Z.
Variable set_iter : list HoldingDivParser.t -> list HoldingDivParser.t.
Hypothesis set_iter_perm : forall l, set_iter l ≡ₚ l.

(** X6: when every parent has a class attribute and the name of some data
    row cannot be read, the page-level extraction raises the bare
    [AttributeError] of [__hash__]: no field is extracted and no named
    failure is built. *)
Theorem unreadable_name_AttributeError soup i d e :
  Forall has_class (tail (holdings_divs soup)) ->
  data_rows soup !! i = Some d -> name d = Raise e ->
  extract_holdings str_hash set_iter soup = Raise AttributeError.
Proof.
  intros Hc Hi Hd. rewrite (extract_holdings_data_rows _ _ _ Hc).
  assert (d ∈ data_rows soup) as Hin by (apply list_elem_of_lookup; eauto).
  unfold NameSet.of_list. by rewrite (foldM_add_Raise [] _ _ _ Hin Hd).
Qed.

(** X7: a page with no match, or with one match only, yields the empty
    list without error: the first match is dropped whatever it is. *)
Theorem at_most_one_match_empty soup :
  (length (holdings_divs soup) <= 1)%nat ->
  extract_holdings str_hash set_iter soup = Ok [].
Proof.
  intros Hlen. unfold extract_holdings. fold (holdings_divs soup).
  assert (tail (holdings_divs soup) = []) as ->.
  { destruct (holdings_divs soup) as [|? [|? ?]]; simpl in *; [done..|lia]. }
  simpl. pose proof (set_iter_perm []) as H.
  apply Permutation_nil_r in H. unfold PySet.elements. simpl. by rewrite H.
Qed.

(** X8: of the rows that share a name the first in document order is the
    one whose record is returned: every record is that of a data row
    before which no data row has the same name. *)
Theorem first_row_of_a_name_survives soup hs :
  extract_holdings str_hash set_iter soup = Ok hs ->
  forall h, h ∈ hs ->
    exists i d,
      data_rows soup !! i = Some d /\ to_dict d = Ok h /\
      forall j d', (j < i)%nat -> data_rows soup !! j = Some d' ->
                   name d' <> name d.
Proof.
  intros (_ & s & Hs & Ht)%extract_holdings_Ok h Hin.
  apply traverse_Ok in Ht. apply list_elem_of_lookup in Hin as [k Hk].
  destruct (Forall2_lookup_r _ _ _ _ _ Ht Hk) as (d & Hd & Hdh).
  assert (d ∈ NameSet.elements s) as Hel.
  { apply (elem_of_set_iter _ set_iter_perm). apply list_elem_of_lookup. eauto. }
  apply list_elem_of_fmap in Hel as ([n d'] & -> & He). simpl in *.
  destruct (of_list_Ok _ _ Hs) as ((_ & Hwf) & _ & _).
  rewrite Forall_forall in Hwf. pose proof (Hwf _ He) as Hn. simpl in Hn.
  destruct (foldM_add_first _ _ _ Hs _ He) as [Hnil|(i & Hi & _ & Hfirst)].
  { by apply elem_of_nil in Hnil. }
  exists i, d'. split; [done|]. split; [done|].
  intros j d'' Hj Hd''. rewrite Hn. by apply (Hfirst j).
Qed.

(** X9: when the extraction succeeds the names of all data rows can be
    read and the number of records is the number of different names among
    them. *)
Theorem one_record_per_distinct_name soup hs :
  extract_holdings str_hash set_iter soup = Ok hs ->
  exists ns,
    row_names (data_rows soup) = Ok ns /\
    length hs = size (list_to_set ns : gset string).
Proof.
  intros (_ & s & Hs & Ht)%extract_holdings_Ok.
  destruct (of_list_Ok _ _ Hs) as ((Hnd & Hwf) & Hnames & Hfrom).
  unfold row_names.
  destruct (traverse name (data_rows soup)) as [ns|e] eqn:Hns.
  - exists ns. split; [done|]. apply traverse_Ok in Hns, Ht.
    rewrite <- (Forall2_length _ _ _ Ht), set_iter_perm.
    unfold NameSet.elements. rewrite length_fmap, <- (length_fmap fst).
    rewrite <- (size_list_to_set (C := gset string) s.*1 Hnd).
    f_equal. apply set_eq. intros k. rewrite !elem_of_list_to_set. split.
    + intros ([k' d] & -> & He)%list_elem_of_fmap. simpl.
      assert (d ∈ data_rows soup) as Hd.
      { apply Hfrom. apply list_elem_of_fmap. by exists (k', d). }
      rewrite Forall_forall in Hwf. pose proof (Hwf _ He) as Hk. simpl in Hk.
      apply list_elem_of_lookup in Hd as [i Hi].
      destruct (Forall2_lookup_l _ _ _ _ _ Hns Hi) as (n & Hn & Hdn).
      assert (n = k') as -> by congruence.
      apply list_elem_of_lookup. eauto.
    + intros [i Hi]%list_elem_of_lookup.
      destruct (Forall2_lookup_r _ _ _ _ _ Hns Hi) as (d & Hd & Hdk).
      assert (d ∈ data_rows soup) as Hin by (apply list_elem_of_lookup; eauto).
      destruct (Hnames _ Hin) as (n & Hn & Hmem). congruence.
  - apply traverse_Raise in Hns as (l1 & x & l2 & Hl & _ & Hx).
    assert (x ∈ data_rows soup) as Hin.
    { rewrite Hl. apply elem_of_app. right. apply elem_of_cons. by left. }
    destruct (Hnames _ Hin) as (n & Hn & _). congruence.
Qed.

End HoldingsPageExtras2.

Lemma unreadable_name_AttributeError_witness :
  extract_holdings length_hash insertion_order (holdings_table [row_abc; row_no_name])
  = Raise AttributeError.
Proof.
  destruct (option_witness
              (data_rows (holdings_table [row_abc; row_no_name]) !! 1%nat)
              (fun d => bool_decide (HoldingDivParser.name d = Raise AttributeError)))
    as (d & Hd & Hn%bool_decide_eq_true); [vm_compute; reflexivity|].
  apply (unreadable_name_AttributeError length_hash insertion_order
           (holdings_table [row_abc; row_no_name]) 1%nat d AttributeError);
    [by_compute|exact Hd|exact Hn].
Defined.

Lemma at_most_one_match_empty_witness :
  extract_holdings length_hash insertion_order single_row_page = Ok [].
Proof.
  apply (at_most_one_match_empty length_hash insertion_order insertion_order_perm).
  by_compute.
Defined.

Lemma first_row_of_a_name_survives_witness :
  exists i d,
    data_rows (holdings_table [row_abc; row_abc_again]) !! i = Some d /\
    HoldingDivParser.to_dict d = Ok holding_abc /\
    forall j d', (j < i)%nat ->
      data_rows (holdings_table [row_abc; row_abc_again]) !! j = Some d' ->
      HoldingDivParser.name d' <> HoldingDivParser.name d.
Proof.
  apply (first_row_of_a_name_survives length_hash insertion_order insertion_order_perm
           (holdings_table [row_abc; row_abc_again]) [holding_abc]).
  - by_compute.
  - apply elem_of_cons. by left.
Defined.

Lemma one_record_per_distinct_name_witness :
  exists ns,
    row_names (data_rows (holdings_table [row_abc; row_abc_again])) = Ok ns /\
    length [holding_abc] = size (list_to_set ns : gset string).
Proof.
  apply (one_record_per_distinct_name length_hash insertion_order insertion_order_perm
           (holdings_table [row_abc; row_abc_again])).
  by_compute.
Defined.

(** ** Records and their fields *)

Section Records.

Import PyStr HoldingDivParser.

Lemma rfind_Some c s i :
  rfind c s = Some i ->
  exists pre post,
    s = pre +:+ String c post /\ String.length pre = i /\
    contains c post = false /\ drop (S i) s = post.
Proof.
  revert i. induction s as [|x s IH]; intros i; simpl; [done|].
  destruct (rfind c s) as [i'|] eqn:Hr.
  - intros [= <-]. destruct (IH _ eq_refl) as (pre & post & -> & Hlen & Hc & Hd).
    exists (String x pre), post. simpl. by rewrite Hlen.
  - destruct (Ascii.eqb_spec x c) as [->|]; [|done]. intros [= <-].
    exists "", s. apply rfind_None in Hr. by repeat split.
Qed.

Lemma after_last_spec c s :
  contains c (after_last c s) = false /\
  ((contains c s = false /\ after_last c s = s) \/
   exists pre, s = pre +:+ String c (after_last c s)).
Proof.
  unfold after_last. destruct (rfind c s) as [i|] eqn:Hr.
  - destruct (rfind_Some _ _ _ Hr) as (pre & post & Hs & _ & Hc & ->).
    split; [done|]. right. eauto.
  - apply rfind_None in Hr. split; [done|]. by left.
Qed.

Lemma to_dict_dom d h : to_dict d = Ok h -> dom h = list_to_set fields.
Proof.
  intros H. destruct (foldM_set_field_Ok _ _ _ _ H) as [Hin Hout].
  apply set_eq. intros f. rewrite elem_of_dom, elem_of_list_to_set. split.
  - intros Hs. destruct (decide (f ∈ fields)) as [|Hn]; [done|].
    rewrite (Hout _ Hn), lookup_empty in Hs. by destruct Hs.
  - intros Hf. destruct (Hin _ Hf) as (v & _ & ->). eauto.
Qed.

Lemma cell_trimmed cls d v : cell cls d = Ok v -> trimmed v.
Proof.
  unfold cell. intros (e & _ & [= <-])%bind_Ok. apply strip_trimmed.
Qed.

Lemma to_dict_consistent d h : to_dict d = Ok h -> consistent_record h.
Proof.
  intros H. pose proof (to_dict_Ok _ _ H) as Hf.
  split; [by apply (to_dict_dom d)|]. split; [|split].
  - destruct (Hf "view_url") as (url & Hu & Hhu); [by_compute|].
    destruct (Hf "isin") as (i & Hi & Hhi); [by_compute|].
    change (view_url d = Ok url) in Hu. change (isin d = Ok i) in Hi.
    apply isin_Ok in Hi as (url' & Hu' & ->).
    assert (url' = url) as -> by congruence. eauto.
  - destruct (Hf "img") as (src & Hs & Hhs); [by_compute|].
    destruct (Hf "contract_code") as (cc & Hc & Hhc); [by_compute|].
    change (img d = Ok src) in Hs. change (contract_code d = Ok cc) in Hc.
    apply contract_code_Ok_img in Hc as (src' & Hs' & Hcc).
    assert (src' = src) as -> by congruence. eauto.
  - intros f v Hft Hv.
    assert (f ∈ fields) as Hin.
    { revert Hft. unfold text_fields, fields.
      rewrite !elem_of_cons. intuition. }
    destruct (Hf _ Hin) as (v' & Hg & Hv').
    assert (v' = v) as -> by congruence.
    unfold text_fields in Hft.
    repeat (apply elem_of_cons in Hft as [->|Hft];
            [by apply (cell_trimmed _ _ _ Hg)|]).
    by apply elem_of_nil in Hft.
Qed.

End Records.

(** X10: every record returned for a page has exactly the eight keys; its
    isin is what follows the last [=] of its view_url, its contract_code
    is cut out of its img, and its name and its three values have no white
    space at either end. *)
Theorem records_consistent str_hash set_iter soup hs :
  extract_holdings str_hash set_iter soup = Ok hs -> Forall consistent_record hs.
Proof.
  intros (_ & s & _ & Ht)%extract_holdings_Ok. apply traverse_Ok in Ht.
  induction Ht as [|d h ? ? Hd _ IH]; constructor; [|done].
  by apply (to_dict_consistent d).
Qed.

Lemma records_consistent_witness : Forall consistent_record [holding_abc].
Proof.
  apply (records_consistent length_hash insertion_order
           (holdings_table [row_abc; row_abc_again])).
  by_compute.
Defined.

(** X11: [isin] never fails of its own: it raises exactly what [view_url]
    raises; its value holds no [=], and is the whole URL when the URL has
    none, or else the URL is some prefix, [=] and the value. *)
Theorem isin_after_last_equals d :
  (forall e, HoldingDivParser.isin d = Raise e <->
             HoldingDivParser.view_url d = Raise e) /\
  (forall i,
     HoldingDivParser.isin d = Ok i ->
     exists url,
       HoldingDivParser.view_url d = Ok url /\
       PyStr.contains "=" i = false /\
       ((PyStr.contains "=" url = false /\ i = url) \/
        exists pre, url = pre +:+ "=" +:+ i)).
Proof.
  split; [intros e; apply isin_Raise|].
  intros i (url & Hu & ->)%isin_Ok. exists url. split; [done|].
  apply after_last_spec.
Qed.

(** X12: [__eq__] and [__hash__] agree: rows that compare equal have the
    same hash, whatever the hash of strings; on rows whose name can be
    read equality is reflexive, symmetric and transitive; comparing with a
    row whose name cannot be read raises [AttributeError]. *)
Theorem eq_hash_contract :
  (forall str_hash a b,
     HoldingDivParser.eq a b = Ok true ->
     HoldingDivParser.hash str_hash a = HoldingDivParser.hash str_hash b) /\
  (forall a, is_ok (HoldingDivParser.name a) = true ->
             HoldingDivParser.eq a a = Ok true) /\
  (forall a b, HoldingDivParser.eq a b = HoldingDivParser.eq b a) /\
  (forall a b c,
     HoldingDivParser.eq a b = Ok true -> HoldingDivParser.eq b c = Ok true ->
     HoldingDivParser.eq a c = Ok true) /\
  (forall a b,
     is_ok (HoldingDivParser.name a) = false \/
     is_ok (HoldingDivParser.name b) = false ->
     HoldingDivParser.eq a b = Raise AttributeError).
Proof.
  split; [|split; [|split; [|split]]].
  - intros str_hash a b (n & Ha & Hb)%eq_names.
    unfold HoldingDivParser.hash. by rewrite Ha, Hb.
  - intros a Ha. apply eq_names.
    destruct (HoldingDivParser.name a); [eauto|done].
  - intros a b. unfold HoldingDivParser.eq.
    destruct (HoldingDivParser.name a) as [x|e] eqn:Ha;
      destruct (HoldingDivParser.name b) as [y|e'] eqn:Hb; simpl;
      rewrite ?(name_Raise _ _ Ha), ?(name_Raise _ _ Hb); try done.
    by rewrite String.eqb_sym.
  - intros a b c (n & Ha & Hb)%eq_names (m & Hb' & Hc)%eq_names.
    apply eq_names. exists n. split; [done|]. congruence.
  - intros a b. unfold HoldingDivParser.eq.
    destruct (HoldingDivParser.name a) as [x|e] eqn:Ha; simpl.
    + intros [?|Hb]; [done|].
      destruct (HoldingDivParser.name b) as [y|e] eqn:Hb'; [done|]. simpl.
      by rewrite (name_Raise _ _ Hb').
    + intros _. by rewrite (name_Raise _ _ Ha).
Qed.

(** ** Transactions: what can go wrong *)

Section TransactionFacts.

Lemma of_string_Raise s e : PyFloat.of_string s = Raise e -> e = ValueError.
Proof.
  unfold PyFloat.of_string. destruct (PyFloat.sign _) as [ng r].
  repeat case_match; congruence.
Qed.

Lemma parse_amount_Raise s e :
  parse_amount s = Raise e <->
  (PyStr.remove " " (PyStr.remove "-" s) = "" /\ e = IndexError) \/
  (exists ch rest,
     PyStr.remove " " (PyStr.remove "-" s) = String ch rest /\
     is_ok (PyFloat.of_string rest) = false /\ e = ValueError).
Proof.
  rewrite parse_amount_unfold.
  destruct (PyStr.remove " " (PyStr.remove "-" s)) as [|ch rest].
  - split.
    + intros [= <-]. by left.
    + intros [[_ ->]|(? & ? & ? & _)]; done.
  - destruct (PyFloat.of_string rest) as [m|e'] eqn:Hm; simpl.
    + split; [done|]. intros [[? _]|(? & ? & [= <- <-] & Hok & _)]; [done|].
      by rewrite Hm in Hok.
    + apply of_string_Raise in Hm as Heq. subst e'. split.
      * intros [= <-]. right. exists ch, rest. by rewrite Hm.
      * intros [[? _]|(? & ? & _ & _ & ->)]; done.
Qed.

Lemma scrape_Raise cs m e :
  foldM scrape_cell m cs = Raise e -> e = KeyError "data-title".
Proof.
  revert m. induction cs as [|c cs IH]; intros m; simpl; [done|].
  unfold scrape_cell at 2, getitem.
  destruct (attrs (self c) !! "data-title"); simpl; [apply IH|].
  by intros [= <-].
Qed.

Lemma scrape_missing_title cs m i cell :
  cs !! i = Some cell -> title cell = None ->
  foldM scrape_cell m cs = Raise (KeyError "data-title").
Proof.
  revert m i. induction cs as [|c cs IH]; intros m [|i]; simpl; try done.
  - intros [= ->] Ht. unfold scrape_cell, getitem. unfold title in Ht.
    by rewrite Ht.
  - intros Hi Ht. destruct (scrape_cell m c) as [m'|e] eqn:Hc; simpl.
    + by apply (IH _ i).
    + unfold scrape_cell, getitem in Hc.
      destruct (attrs (self c) !! "data-title"); [done|]. by injection Hc as <-.
Qed.

Lemma scrape_trimmed cs m rd :
  foldM scrape_cell m cs = Ok rd ->
  (forall k v, m !! k = Some v -> trimmed v) ->
  forall k v, rd !! k = Some v -> trimmed v.
Proof.
  revert m. induction cs as [|c cs IH]; intros m; simpl.
  - by intros [= <-].
  - destruct (scrape_cell m c) as [m'|] eqn:Hc; [|done]. simpl.
    apply scrape_cell_Ok in Hc as (t & _ & ->).
    intros Hrd Hm. apply (IH _ Hrd). intros k v.
    destruct (decide (t = k)) as [->|Hne].
    + rewrite lookup_insert_eq. intros [= <-]. apply strip_trimmed.
    + rewrite lookup_insert_ne by done. apply Hm.
Qed.

Lemma extract_row_Raise row e :
  extract_row row = Raise e -> e ∈ transaction_errors.
Proof.
  unfold extract_row, extract_row_with. fold (cells row).
  destruct (foldM scrape_cell ∅ (cells row)) as [rd|e1] eqn:Hrd; simpl.
  2: { intros [= ?]; subst e. apply scrape_Raise in Hrd as ->. by_compute. }
  destruct (getitem rd "DATE") as [ds|e1] eqn:Hds; simpl.
  2: { intros [= ?]; subst e. unfold getitem in Hds.
       destruct (rd !! "DATE"); [done|]. injection Hds as <-. by_compute. }
  destruct (PyDate.fromisoformat ds) as [d|e1] eqn:Hd; simpl.
  2: { intros [= ?]; subst e. apply fromisoformat_Raise in Hd as ->. by_compute. }
  destruct (getitem rd "DEBIT/CREDIT") as [amt|e1] eqn:Hamt; simpl.
  2: { intros [= ?]; subst e. unfold getitem in Hamt.
       destruct (rd !! "DEBIT/CREDIT"); [done|]. injection Hamt as <-. by_compute. }
  destruct (parse_amount amt) as [ca|e1] eqn:Hca; simpl; [done|].
  intros [= ?]; subst e.
  apply parse_amount_Raise in Hca as [[_ ->]|(? & ? & _ & _ & ->)]; by_compute.
Qed.

Lemma currency_char s ch rest :
  PyStr.remove " " (PyStr.remove "-" s) = String ch rest ->
  ch <> "-"%char /\ ch <> " "%char.
Proof.
  intros Hs. split; intros ->.
  - assert (PyStr.contains "-" (PyStr.remove "-" s) = true) as H.
    { apply contains_remove with (d := " "%char). by rewrite Hs. }
    by rewrite contains_remove_same in H.
  - assert (PyStr.contains " " (PyStr.remove " " (PyStr.remove "-" s)) = true) as H.
    { by rewrite Hs. }
    by rewrite contains_remove_same in H.
Qed.

End TransactionFacts.

(** X13: the transaction extraction raises nothing but [AttributeError]
    (no table or no table body), [KeyError] for [data-title], [DATE] or
    [DEBIT/CREDIT], [ValueError] (date or amount) and [IndexError] (no
    currency character). *)
Theorem transaction_errors_only soup e :
  extract_transaction_history soup = Raise e -> e ∈ transaction_errors.
Proof.
  destruct (table_body soup) as [tb|] eqn:Htb.
  - rewrite (extract_transaction_history_body _ _ Htb).
    intros (l1 & x & l2 & _ & _ & Hx)%traverse_Raise.
    by apply extract_row_Raise in Hx.
  - rewrite (extract_transaction_history_no_body _ Htb). intros [= <-].
    by_compute.
Qed.

Lemma transaction_errors_only_witness : ValueError ∈ transaction_errors.
Proof.
  apply (transaction_errors_only
           (transactions_page (Some [row_debit; row_slash_date]))).
  by_compute.
Defined.

(** X14: the extraction fails either for want of the table body or with
    what the first row that cannot be read raises; the rows after it are
    not looked at. *)
Theorem first_unreadable_row_decides soup e :
  extract_transaction_history soup = Raise e <->
  (table_body soup = None /\ e = AttributeError) \/
  (exists l1 row l2,
     body_rows soup = (l1 ++ row :: l2)%list /\
     Forall (fun r => is_ok (extract_row r) = true) l1 /\
     extract_row row = Raise e).
Proof.
  destruct (table_body soup) as [tb|] eqn:Htb.
  - rewrite (extract_transaction_history_body _ _ Htb), traverse_Raise.
    split; [by right|]. by intros [[? _]|?].
  - rewrite (extract_transaction_history_no_body _ Htb). split.
    + intros [= <-]. by left.
    + intros [[_ ->]|(l1 & row & l2 & Hl & _)]; [done|].
      unfold body_rows in Hl. rewrite Htb in Hl. by destruct l1.
Qed.

(** X15: what a row raises, in the order the code looks: a cell without
    [data-title] gives [KeyError('data-title')] whatever the other cells
    hold; then a row without a DATE cell gives [KeyError('DATE')]; then a
    date that cannot be read gives [ValueError], also when the
    DEBIT/CREDIT cell is missing; then a missing DEBIT/CREDIT cell gives
    [KeyError('DEBIT/CREDIT')]; then an amount made of minus signs and
    spaces only gives [IndexError]. *)
Theorem extract_row_errors row :
  (forall i cell,
     cells row !! i = Some cell -> title cell = None ->
     extract_row row = Raise (KeyError "data-title")) /\
  (forall rd,
     scrape row = Ok rd -> rd !! "DATE" = None ->
     extract_row row = Raise (KeyError "DATE")) /\
  (forall rd ds,
     scrape row = Ok rd -> rd !! "DATE" = Some ds ->
     is_ok (PyDate.fromisoformat ds) = false ->
     extract_row row = Raise ValueError) /\
  (forall rd ds,
     scrape row = Ok rd -> rd !! "DATE" = Some ds ->
     is_ok (PyDate.fromisoformat ds) = true ->
     rd !! "DEBIT/CREDIT" = None ->
     extract_row row = Raise (KeyError "DEBIT/CREDIT")) /\
  (forall rd ds amt,
     scrape row = Ok rd -> rd !! "DATE" = Some ds ->
     is_ok (PyDate.fromisoformat ds) = true ->
     rd !! "DEBIT/CREDIT" = Some amt ->
     PyStr.remove " " (PyStr.remove "-" amt) = "" ->
     extract_row row = Raise IndexError).
Proof.
  unfold scrape.
  split; [|split; [|split; [|split]]].
  - intros i cell Hi Ht. unfold extract_row, extract_row_with. fold (cells row).
    by rewrite (scrape_missing_title _ ∅ _ _ Hi Ht).
  - intros rd Hrd Hd. unfold extract_row, extract_row_with, getitem. fold (cells row).
    rewrite Hrd. simpl. by rewrite Hd.
  - intros rd ds Hrd Hds Hd. by apply (extract_row_bad_date _ rd ds).
  - intros rd ds Hrd Hds Hd Hamt. unfold extract_row, extract_row_with, getitem. fold (cells row).
    rewrite Hrd. simpl. rewrite Hds. simpl.
    destruct (PyDate.fromisoformat ds); [|done]. simpl. by rewrite Hamt.
  - intros rd ds amt Hrd Hds Hd Hamt Hempty.
    unfold extract_row, extract_row_with, getitem. fold (cells row).
    rewrite Hrd. simpl. rewrite Hds. simpl.
    destruct (PyDate.fromisoformat ds); [|done]. simpl. rewrite Hamt. simpl.
    assert (parse_amount amt = Raise IndexError) as ->; [|done].
    apply parse_amount_Raise. by left.
Qed.

(** X16: only the characters other than [-] and space, and whether a [-]
    occurs at all, matter to the amount: the minus sign may stand
    anywhere, several count as one, and spaces may stand anywhere. *)
Theorem parse_amount_ignores_placement s t :
  PyStr.remove " " (PyStr.remove "-" s) = PyStr.remove " " (PyStr.remove "-" t) ->
  PyStr.contains "-" s = PyStr.contains "-" t ->
  parse_amount s = parse_amount t.
Proof. intros H1 H2. by rewrite !parse_amount_unfold, H1, H2. Qed.

Lemma parse_amount_ignores_placement_witness :
  parse_amount "R-1 234.56" = parse_amount "- R1234.5 6 -".
Proof.
  apply (parse_amount_ignores_placement "R-1 234.56" "- R1234.5 6 -");
    by_compute.
Defined.

(** X17: every record of a successful extraction holds a valid calendar
    date under DATE, a float under AMOUNT and under CURRENCY one
    character that is neither [-] nor a space; the texts it holds under
    the other titles have no white space at either end. *)
Theorem records_typed soup recs :
  extract_transaction_history soup = Ok recs -> Forall typed_record recs.
Proof.
  intros [_ H]%extract_transaction_history_Ok.
  induction H as [|row rec ? ? Hrow _ IH]; constructor; [|done].
  apply extract_row_Ok in Hrow
    as (rd & ds & d & amt & c & a & Hrd & Hds & Hd & Hamt & Hca & ->).
  apply fromisoformat_Ok in Hd as [Hv _].
  rewrite parse_amount_unfold in Hca.
  destruct (PyStr.remove " " (PyStr.remove "-" amt)) as [|ch rest] eqn:Hs;
    [done|].
  apply bind_Ok in Hca as (m & _ & [= <- <-]).
  destruct (currency_char _ _ _ Hs) as [Hc1 Hc2].
  exists d, ch, (if PyStr.contains "-" amt then PyFloat.neg m else m).
  split; [by rewrite !lookup_insert_ne by done; apply lookup_insert_eq|].
  split; [done|].
  split; [by rewrite lookup_insert_ne by done; apply lookup_insert_eq|].
  split; [done|]. split; [done|]. split; [apply lookup_insert_eq|].
  intros k v Hk Hne.
  destruct (decide (k = "AMOUNT")) as [->|H1].
  { by rewrite lookup_insert_eq in Hk. }
  rewrite lookup_insert_ne in Hk by done.
  rewrite lookup_insert_ne in Hk by done.
  destruct (decide (k = "DATE")) as [->|H2].
  { by rewrite lookup_insert_eq in Hk. }
  rewrite lookup_insert_ne in Hk by done.
  rewrite lookup_fmap in Hk.
  destruct (rd !! k) as [v'|] eqn:Hv'; [|done]. injection Hk as ->.
  apply (scrape_trimmed _ _ _ Hrd) with (k := k); [|done].
  intros ? ?. by rewrite lookup_empty.
Qed.

Lemma records_typed_witness : Forall typed_record [record_debit; record_credit].
Proof.
  apply (records_typed (transactions_page (Some [row_debit; row_credit]))).
  by_compute.
Defined.

Lemma named_failure_fields_witness :
  exists d,
    data_rows (holdings_table [row_abc_no_img]) !! 0%nat = Some d /\
    HoldingDivParser.to_dict d
    = Raise (HoldingFieldNotFoundException "contract_code" AttributeError).
Proof.
  destruct (option_witness
              (data_rows (holdings_table [row_abc_no_img]) !! 0%nat)
              (fun d => match HoldingDivParser.name d with
                        | Ok _ => bool_decide (HoldingDivParser.img d
                                               = Raise AttributeError)
                        | Raise _ => false
                        end))
    as (d & Hd & Hp); [vm_compute; reflexivity|].
  exists d. split; [exact Hd|].
  destruct (HoldingDivParser.name d) as [n|] eqn:Hn; [|discriminate Hp].
  apply bool_decide_eq_true in Hp.
  exact (proj2 named_failure_fields d n AttributeError Hn Hp).
Defined.

Lemma extract_row_errors_witness :
  exists row,
    body_rows (transactions_page (Some [row_without_date])) !! 0%nat = Some row /\
    extract_row row = Raise (KeyError "DATE").
Proof.
  destruct (option_witness
              (body_rows (transactions_page (Some [row_without_date])) !! 0%nat)
              (fun row => match scrape row with
                          | Ok rd => bool_decide (rd !! "DATE" = None)
                          | Raise _ => false
                          end))
    as (row & Hrow & Hp); [vm_compute; reflexivity|].
  exists row. split; [exact Hrow|].
  destruct (scrape row) as [rd|] eqn:Hrd; [|discriminate Hp].
  apply bool_decide_eq_true in Hp.
  exact (proj1 (proj2 (extract_row_errors row)) rd Hrd Hp).
Defined.

Example minus_only_amount :
  extract_transaction_history (transactions_page (Some [row_minus_only]))
  = Raise IndexError.
Proof. by_compute. Qed.
